(** * Analysis-Alpaca researcher: source acquisition and content validation

    A shallow embedding of the Python package [analysis_alpaca]: the data
    model ([models/research.py]), the content resolver and its validity
    filter ([search/content_extractor.py]), the academic searcher
    ([search/academic_search.py], [search/base.py]) and the extraction
    orchestrator with its source balancer ([core/research_service.py]).

    Conventions of the embedding.
    - A Python [str] is a [string] whose characters are the code points
      0 to 255 (Latin-1), one character per code point, so [len] is
      [String.length]; the character classes ([isspace], the classes of
      [re], [lower]) are Python's own on that range.
    - A Python [int] that can be negative where it matters (the size budget
      of [format_output]) is a [Z]; counts and indices are [nat].
    - Network, HTML parsing and the clock are collaborators outside the
      package: they appear as parameters (oracles) of the functions that
      call them, and every theorem quantifies over them.
    - [logger] calls are kept as entries of an explicit log where a
      property speaks about them. *)

From Stdlib Require Import ZArith Lia List Ascii String DecimalString.
From stdpp Require Import gmap strings.
Import ListNotations.

Set Warnings "-abstract-large-number".

(* ===================================================================== *)
(** ** Python string primitives *)
(* ===================================================================== *)

Module Py.

(** The newline character of the f-strings. *)
Definition nl : string := String (ascii_of_nat 10) "".

(** [len(s)]. *)
Definition len (s : string) : nat := String.length s.

(** [str(n)] for a non-negative [int]. *)
Definition str_of_nat (n : nat) : string :=
  NilEmpty.string_of_uint (Nat.to_uint n).

(** [c.isspace()], which is also the whitespace of [strip], [split] and
    of the class [\s] of [re]: tab, line feed, vertical tab, form feed,
    carriage return, the four separators 0x1c-0x1f, the space, the next
    line control U+0085 and the no-break space U+00A0. *)
Definition isspace (c : ascii) : bool :=
  let n := nat_of_ascii c in
  ((9 <=? n) && (n <=? 13)) || ((28 <=? n) && (n <=? 32))
  || (n =? 133) || (n =? 160).

(** [c.lower()]: the letters A-Z and the capital letters U+00C0-U+00DE
    (the multiplication sign U+00D7 is no letter) move up by 32. *)
Definition lower_char (c : ascii) : ascii :=
  let n := nat_of_ascii c in
  if ((65 <=? n) && (n <=? 90))
     || ((192 <=? n) && (n <=? 222) && negb (n =? 215))
  then ascii_of_nat (n + 32) else c.

(** [s.lower()]. *)
Fixpoint lower (s : string) : string :=
  match s with
  | EmptyString => EmptyString
  | String c s' => String (lower_char c) (lower s')
  end.

(** [s[:n]] for [n >= 0]. *)
Fixpoint take (n : nat) (s : string) : string :=
  match n, s with
  | O, _ => EmptyString
  | S _, EmptyString => EmptyString
  | S n', String c s' => String c (take n' s')
  end.

(** [s[:k]] for any [int] [k]: a negative [k] counts from the end. *)
Definition slice_to (s : string) (k : Z) : string :=
  let n := Z.of_nat (len s) in
  let stop := if (k <? 0)%Z then Z.max 0 (n + k) else Z.min k n in
  take (Z.to_nat stop) s.

(** [s.lstrip()]. *)
Fixpoint lstrip (s : string) : string :=
  match s with
  | EmptyString => EmptyString
  | String c s' => if isspace c then lstrip s' else s
  end.

(** [s.strip()]. *)
Definition strip (s : string) : string :=
  String.rev (lstrip (String.rev (lstrip s))).

(** [pat in s]. *)
Fixpoint contains (pat s : string) : bool :=
  String.prefix pat s ||
  match s with
  | EmptyString => false
  | String _ s' => contains pat s'
  end.

(** [s.endswith(suffix)]. *)
Definition endswith (s suffix : string) : Prop :=
  exists head, s = head +:+ suffix.

(** [s.split()]: the maximal runs of non-whitespace characters.
    [cur] is the run being read, reversed. *)
Fixpoint split_go (cur : string) (s : string) : list string :=
  match s with
  | EmptyString =>
      match cur with EmptyString => [] | _ => [String.rev cur] end
  | String c s' =>
      if isspace c
      then match cur with
           | EmptyString => split_go EmptyString s'
           | _ => String.rev cur :: split_go EmptyString s'
           end
      else split_go (String c cur) s'
  end.
Definition split (s : string) : list string := split_go EmptyString s.

(** [s.split(sep)] for a one-character separator: empty pieces are kept. *)
Fixpoint split_on_go (sep : ascii) (cur : string) (s : string) : list string :=
  match s with
  | EmptyString => [String.rev cur]
  | String c s' =>
      if Ascii.eqb c sep
      then String.rev cur :: split_on_go sep EmptyString s'
      else split_on_go sep (String c cur) s'
  end.
Definition split_on (sep : ascii) (s : string) : list string :=
  split_on_go sep EmptyString s.

(** [sep.join(parts)]. *)
Fixpoint join (sep : string) (parts : list string) : string :=
  match parts with
  | [] => EmptyString
  | [p] => p
  | p :: rest => p +:+ sep +:+ join sep rest
  end.

(** [s * n]. *)
Fixpoint repeat_str (s : string) (n : nat) : string :=
  match n with
  | O => EmptyString
  | S n' => s +:+ repeat_str s n'
  end.

(** Truthiness of a [str]: non-empty. *)
Definition truthy (s : string) : bool :=
  match s with EmptyString => false | _ => true end.

(** Truthiness of an [Optional[str]]: neither [None] nor empty. *)
Definition truthy_opt (o : option string) : bool :=
  match o with Some s => truthy s | None => false end.

End Py.

(* ===================================================================== *)
(** ** Data model ([models/research.py]) *)
(* ===================================================================== *)

Inductive SearchSource := WEB | ACADEMIC | BOTH.

(** [SearchSource.value]. *)
Definition SearchSource_value (s : SearchSource) : string :=
  match s with WEB => "web" | ACADEMIC => "academic" | BOTH => "both" end.

(** [SearchResult]: a candidate source.  [metadata] is the optional
    dictionary of the academic searcher, its values rendered as text. *)
Record SearchResult := mkSearchResult {
  sr_title : string;
  sr_url : string;
  sr_snippet : string;
  source_type : string;
  metadata : option (gmap string string)
}.

(** [ExtractedContent].  The [extraction_time] stamp is a reading of the
    wall clock that no modelled code path inspects; it is left out. *)
Record ExtractedContent := mkExtractedContent {
  ec_title : string;
  ec_url : string;
  ec_description : string;
  ec_content : string;
  ec_error : option string
}.

(** [ResearchQuery]; [__post_init__] is [valid_query] below. *)
Record ResearchQuery := mkResearchQuery {
  rq_query : string;
  sources : SearchSource;
  num_results : nat
}.

(** The checks of [ResearchQuery.__post_init__] that raise [ValueError]. *)
Definition valid_query (q : ResearchQuery) : Prop :=
  Py.strip (rq_query q) <> EmptyString /\ 1 <= num_results q <= 5.

(** [ResearchResult] (without the [execution_time] clock reading). *)
Record ResearchResult := mkResearchResult {
  rr_query : ResearchQuery;
  search_results : list SearchResult;
  extracted_content : list ExtractedContent;
  summary : string;
  total_sources : nat;
  rr_errors : list string
}.

(* ===================================================================== *)
(** ** [ResearchResult.format_output] *)
(* ===================================================================== *)

Section FormatOutput.
Import Py.

(** The fixed truncation marker. *)
Definition truncation_msg : string :=
  nl +:+ nl +:+ "[Content truncated due to size limits]".

(** Body of the loop over [enumerate(self.search_results, 1)]. *)
Fixpoint format_search_results (i : nat) (l : list SearchResult) : string :=
  match l with
  | [] => ""
  | r :: rest =>
      (str_of_nat i +:+ ". " +:+ sr_title r +:+ nl) +:+
      ("   URL: " +:+ sr_url r +:+ nl) +:+
      ("   " +:+ sr_snippet r +:+ nl +:+ nl) +:+
      format_search_results (S i) rest
  end.

(** One section of the loop over [enumerate(self.extracted_content, 1)]. *)
Definition format_content (i : nat) (c : ExtractedContent) : string :=
  let separator := repeat_str "=" 40 in
  if truthy_opt (ec_error c)
  then (separator +:+ nl +:+ "SOURCE " +:+ str_of_nat i +:+ ": Error" +:+ nl
          +:+ separator +:+ nl) +:+
       ("Error: " +:+ default "" (ec_error c) +:+ nl +:+ nl)
  else (separator +:+ nl +:+ "SOURCE " +:+ str_of_nat i +:+ ": "
          +:+ ec_title c +:+ nl +:+ separator +:+ nl +:+ nl) +:+
       ("URL: " +:+ ec_url c +:+ nl) +:+
       ("Description: " +:+ ec_description c +:+ nl +:+ nl) +:+
       ("Content:" +:+ nl +:+ ec_content c +:+ nl +:+ nl).

Fixpoint format_contents (i : nat) (l : list ExtractedContent) : string :=
  match l with
  | [] => ""
  | c :: rest => format_content i c +:+ format_contents (S i) rest
  end.

Fixpoint format_errors (l : list string) : string :=
  match l with
  | [] => ""
  | e :: rest => ("- " +:+ e +:+ nl) +:+ format_errors rest
  end.

(** The text built before the truncation step. *)
Definition format_untruncated (r : ResearchResult) : string :=
  let source_text :=
    match sources (rr_query r) with
    | BOTH => "web and academic sources"
    | s => SearchSource_value s +:+ " sources"
    end in
  ("Research Query: " +:+ rq_query (rr_query r) +:+ nl +:+ nl) +:+
  ("Searched " +:+ source_text +:+ " - Found "
     +:+ str_of_nat (length (search_results r)) +:+ " results" +:+ nl +:+ nl) +:+
  (match search_results r with
   | [] => ""
   | l => ("SEARCH RESULTS:" +:+ nl) +:+ format_search_results 1 l
   end) +:+
  (match extracted_content r with
   | [] => ""
   | l => ("DETAILED CONTENT FROM TOP " +:+ str_of_nat (length l)
             +:+ " SOURCES:" +:+ nl +:+ nl) +:+ format_contents 1 l
   end) +:+
  (nl +:+ "RESEARCH SUMMARY:" +:+ nl) +:+
  summary r +:+
  (match rr_errors r with
   | [] => ""
   | l => (nl +:+ nl +:+ "ERRORS ENCOUNTERED:" +:+ nl) +:+ format_errors l
   end).

(** [format_output(self, max_size)]. *)
Definition format_output (r : ResearchResult) (max_size : Z) : string :=
  let result := format_untruncated r in
  if (max_size <? Z.of_nat (len result))%Z
  then slice_to result (max_size - Z.of_nat (len truncation_msg)) +:+ truncation_msg
  else result.

End FormatOutput.

(* ===================================================================== *)
(** ** Calls that may raise *)
(* ===================================================================== *)

(** Outcome of a call that either raises an [Exception] [e] (kept as its
    text [str(e)]) or returns a value. *)
Inductive Raises (A : Type) : Type :=
| Raise (msg : string)
| Return (a : A).
Arguments Raise {A} msg.
Arguments Return {A} a.

(* ===================================================================== *)
(** ** Content resolver ([search/content_extractor.py]) *)
(* ===================================================================== *)

(** The fields of [ContentConfig] the resolver reads, with the defaults of
    [config.py]. *)
Record ContentConfig := mkContentConfig {
  max_extraction_size : nat;
  max_paragraphs : nat;
  max_elements : nat
}.

Definition default_content_config : ContentConfig :=
  {| max_extraction_size := 100000; max_paragraphs := 5; max_elements := 8 |}.

(** What the resolver reads of an [httpx.Response]. *)
Record Response := mkResponse {
  content_type : option string;   (* headers.get("content-type") *)
  text : string                   (* response.text *)
}.

(** What the resolver reads of a parsed document (a [BeautifulSoup]). *)
Record Soup := mkSoup {
  title_string : option string;       (* soup.find("title").string *)
  meta_description : option string;   (* content of <meta name="description"> *)
  paragraphs : list string;           (* get_text() of find_all('p') *)
  heading_paragraphs : list string;   (* get_text() of find_all(['h1','h2','h3','p']) *)
  all_text : string                   (* soup.get_text() *)
}.

Module ContentExtractor.
Import Py.

(** [error_patterns] of [_is_valid_content]. *)
Definition error_patterns : list string :=
  [ "javascript is disabled"; "page restricted"; "access denied";
    "403 forbidden"; "404 not found"; "503 service unavailable";
    "login required"; "subscription required"; "paywall";
    "please enable javascript"; "cookies required"; "captcha";
    "robot verification"; "cloudflare"; "enable cookies";
    "browser not supported"; "content not available"; "page not found";
    "unauthorized access"; "permission denied" ].

(** [ui_patterns] of [_is_valid_content]. *)
Definition ui_patterns : list string :=
  [ "skip to main content"; "toggle navigation"; "menu"; "search";
    "login"; "sign up"; "cookie policy" ].

(** [sum(1 for pattern in ui_patterns if pattern in content_lower)]. *)
Definition ui_count (content_lower : string) : nat :=
  length (List.filter (fun pattern => contains pattern content_lower) ui_patterns).

(** [[s for s in content.split('.') if len(s.strip()) > 20]]. *)
Definition meaningful_sentences (content : string) : list string :=
  List.filter (fun s => 20 <? len (strip s)) (split_on "." content).

(** [_is_valid_content(content, description, title)].

    The test [ui_count / content_words > 0.3] divides two small
    non-negative integers; since [ui_count <= 7] the quotient is either
    exactly three tenths or far from it, so the floating-point comparison
    agrees with the integer comparison [10 * ui_count > 3 * content_words]
    used here. *)
Definition _is_valid_content (content description title : string) : bool :=
  if negb (truthy content) || (len (strip content) <? 50) then false
  else
    let content_lower := lower content in
    let title_lower := lower title in
    let description_lower := lower description in
    if existsb (fun pattern =>
                  contains pattern content_lower ||
                  contains pattern title_lower ||
                  contains pattern description_lower) error_patterns
    then false
    else
      let content_words := length (split content) in
      if (0 <? content_words) && (3 * content_words <? 10 * ui_count content_lower)
      then false
      else 2 <=? length (meaningful_sentences content).

(** [_extract_title]. *)
Definition _extract_title (soup : Soup) : string :=
  match title_string soup with
  | Some s => if truthy s then take 100 (strip s) else "No title"
  | None => "No title"
  end.

(** [_extract_description]. *)
Definition _extract_description (soup : Soup) : string :=
  match meta_description soup with
  | Some s => take 200 s
  | None => "No description available"
  end.

(** [re.sub(r'\s+', ' ', s)]: every run of whitespace becomes one space. *)
Fixpoint collapse_ws (in_run : bool) (s : string) : string :=
  match s with
  | EmptyString => EmptyString
  | String c s' =>
      if isspace c
      then if in_run then collapse_ws true s' else String " " (collapse_ws true s')
      else String c (collapse_ws false s')
  end.

(** One of the two scanning loops of [_extract_content]: the first
    [limit] elements, those whose stripped text is longer than [min_len],
    each cut to [cut] characters. *)
Definition scan (limit min_len cut : nat) (elems : list string) : list string :=
  List.map (take cut)
    (List.filter (fun t => truthy t && (min_len <? len t))
       (List.map strip (firstn limit elems))).

(** [_extract_content]. *)
Definition _extract_content (cfg : ContentConfig) (soup : Soup) : string :=
  let content_texts := scan (max_paragraphs cfg) 15 300 (paragraphs soup) in
  let content_texts :=
    if length content_texts <? 2
    then content_texts ++ scan (max_elements cfg) 10 200 (heading_paragraphs soup)
    else content_texts in
  let content_texts :=
    match content_texts with
    | [] => [take 500 (strip (collapse_ws false (all_text soup)))]
    | _ => content_texts
    end in
  join (nl +:+ nl) content_texts.

(** The placeholder returned for a PDF response. *)
Definition pdf_placeholder (url : string) : ExtractedContent :=
  {| ec_title := "PDF Document";
     ec_url := url;
     ec_description := "PDF document - contents cannot be extracted directly";
     ec_content := "[PDF document - contents cannot be extracted directly]";
     ec_error := None |}.

Section Resolver.
Variable cfg : ContentConfig.
(** [client.get(url, headers=headers)]: the network. *)
Variable http_get : string -> Raises Response.
(** [BeautifulSoup(markup, "html.parser")]: the HTML parser. *)
Variable BeautifulSoup : string -> Raises Soup.

(** The [except Exception as e] handler of [extract]. *)
Definition extract_failed (url msg : string) : ExtractedContent :=
  {| ec_title := "Error";
     ec_url := url;
     ec_description := "Content extraction failed";
     ec_content := "";
     ec_error := Some (take 100 msg) |}.

(** [extract(url)]. *)
Definition extract (url : string) : ExtractedContent :=
  match http_get url with
  | Raise e => extract_failed url e
  | Return response =>
      let content_type := lower (default "" (content_type response)) in
      if contains "application/pdf" content_type
      then pdf_placeholder url
      else
        match BeautifulSoup (take (max_extraction_size cfg) (text response)) with
        | Raise e => extract_failed url e
        | Return soup =>
            let title := _extract_title soup in
            let description := _extract_description soup in
            let content := _extract_content cfg soup in
            if negb (_is_valid_content content description title)
            then {| ec_title := title;
                    ec_url := url;
                    ec_description := description;
                    ec_content := "";
                    ec_error := Some "Content validation failed - low quality or restricted content" |}
            else {| ec_title := title;
                    ec_url := url;
                    ec_description := description;
                    ec_content := content;
                    ec_error := None |}
        end
  end.

(** [extract_from_source(source)].  Nothing inside its [try] block
    raises in this model ([extract] absorbs every failure), so its own
    [except] handler has no case here. *)
Definition extract_from_source (source : SearchResult) : ExtractedContent :=
  match metadata source with
  | Some md =>
      if String.eqb (source_type source) "academic"
         && negb (bool_decide (md = ∅))
         && truthy_opt (md !! "abstract")
      then
        let abstract := default "" (md !! "abstract") in
        let authors := default "Unknown authors" (md !! "authors") in
        let year := default "Unknown year" (md !! "year") in
        let venue := default "" (md !! "venue") in
        let content_parts :=
          [ "Authors: " +:+ authors; "Year: " +:+ year ] ++
          (if truthy venue then [ "Published in: " +:+ venue ] else []) ++
          [ ""; "Abstract:"; abstract ] in
        let content := join nl content_parts in
        if negb (_is_valid_content abstract "" (sr_title source))
        then extract (sr_url source)
        else {| ec_title := sr_title source;
                ec_url := sr_url source;
                ec_description :=
                  "Academic paper by " +:+ authors +:+ " (" +:+ year +:+ ")";
                ec_content := content;
                ec_error := None |}
      else extract (sr_url source)
  | None => extract (sr_url source)
  end.

End Resolver.

End ContentExtractor.

(* ===================================================================== *)
(** ** Extraction orchestrator and source balancer
       ([core/research_service.py]) *)
(* ===================================================================== *)

Module ResearchService.
Import Py.

(** [[r for r in results if r.source_type == ty]]. *)
Definition of_type (ty : string) (results : list SearchResult) : list SearchResult :=
  List.filter (fun r => String.eqb (source_type r) ty) results.

(** The interleaving loop [for i in range(...)] of
    [_select_sources_for_extraction], over the indices still to visit. *)
Fixpoint interleave (num_results max_per_type : nat)
    (web_results academic_results : list SearchResult)
    (indices : list nat) (combined_sources : list SearchResult)
    : list SearchResult :=
  match indices with
  | [] => combined_sources
  | i :: rest =>
      if num_results <=? length combined_sources then combined_sources
      else
        let combined_sources :=
          match nth_error web_results i with
          | Some w =>
              if length (of_type "web" combined_sources) <? max_per_type
              then combined_sources ++ [w] else combined_sources
          | None => combined_sources
          end in
        let combined_sources :=
          match nth_error academic_results i with
          | Some a =>
              if length (of_type "academic" combined_sources) <? max_per_type
              then combined_sources ++ [a] else combined_sources
          | None => combined_sources
          end in
        interleave num_results max_per_type web_results academic_results
          rest combined_sources
  end.

(** [_select_sources_for_extraction(search_results, query)]: the source
    balancer. *)
Definition _select_sources_for_extraction
    (search_results : list SearchResult) (query : ResearchQuery)
    : list SearchResult :=
  match sources query with
  | BOTH =>
      let web_results := of_type "web" search_results in
      let academic_results := of_type "academic" search_results in
      let max_per_type := Nat.max 1 (num_results query / 2) in
      let combined_sources :=
        interleave (num_results query) max_per_type web_results academic_results
          (seq 0 (Nat.max (length web_results) (length academic_results))) [] in
      firstn (num_results query) combined_sources
  | _ => firstn (num_results query) search_results
  end.

(** What the orchestrator writes to its logger. *)
Inductive LogEntry :=
| LogBatch (number : nat) (current_batch : list SearchResult) (need : nat)
| LogExtractionFailed (error_msg : string)
| LogSkipInvalid (url error : string)
| LogSkipInsufficient (url : string)
| LogValid (url : string) (have target : nat)
| LogNoMoreSources
| LogEmptyBatch
| LogNeedMore (need iteration : nat)
| LogMaxIterations (valid : nat)
| LogCompleted (valid tried iterations : nat).

(** The local variables of [_extract_valid_content], the caller's
    [errors] list it appends to, and the log. *)
Record State := mkState {
  valid_content : list ExtractedContent;
  tried_sources : gset string;
  errors : list string;
  source_index : nat;
  iteration_count : nat;
  log : list LogEntry
}.

Definition add_log (e : LogEntry) (st : State) : State :=
  {| valid_content := valid_content st; tried_sources := tried_sources st;
     errors := errors st; source_index := source_index st;
     iteration_count := iteration_count st; log := log st ++ [e] |}.

Definition add_tried (url : string) (st : State) : State :=
  {| valid_content := valid_content st;
     tried_sources := {[ url ]} ∪ tried_sources st;
     errors := errors st; source_index := source_index st;
     iteration_count := iteration_count st; log := log st |}.

Definition add_error (error_msg : string) (st : State) : State :=
  {| valid_content := valid_content st; tried_sources := tried_sources st;
     errors := errors st ++ [error_msg]; source_index := source_index st;
     iteration_count := iteration_count st; log := log st |}.

Definition add_valid (content : ExtractedContent) (st : State) : State :=
  {| valid_content := valid_content st ++ [content];
     tried_sources := tried_sources st;
     errors := errors st; source_index := source_index st;
     iteration_count := iteration_count st; log := log st |}.

Definition next_iteration (st : State) : State :=
  {| valid_content := valid_content st; tried_sources := tried_sources st;
     errors := errors st; source_index := source_index st;
     iteration_count := S (iteration_count st); log := log st |}.

Definition advance (batch_size : nat) (st : State) : State :=
  {| valid_content := valid_content st; tried_sources := tried_sources st;
     errors := errors st; source_index := source_index st + batch_size;
     iteration_count := iteration_count st; log := log st |}.

(** [content.error and "validation failed" in content.error.lower()]. *)
Definition validation_failed (content : ExtractedContent) : bool :=
  match ec_error content with
  | Some e => truthy e && contains "validation failed" (lower e)
  | None => false
  end.

(** [not content.content or len(content.content.strip()) < 50]. *)
Definition insufficient (content : ExtractedContent) : bool :=
  negb (truthy (ec_content content)) || (len (strip (ec_content content)) <? 50).

(** The gathered result of one task lands in the [else] branch. *)
Definition accepted (r : Raises ExtractedContent) : bool :=
  match r with
  | Raise _ => false
  | Return content => negb (validation_failed content) && negb (insufficient content)
  end.

(** [max_iterations]. *)
Definition max_iterations : nat := 5.

Section Orchestrator.
(** [resolve n i source]: what [asyncio.gather(..., return_exceptions=True)]
    holds at position [i] of the batch of iteration [n], the task being
    [content_extractor.extract_from_source(source)]: the content it
    returned, or the exception it raised. *)
Variable resolve : nat -> nat -> SearchResult -> Raises ExtractedContent.
Variable search_results : list SearchResult.
Variable query : ResearchQuery.

(** [batch_content], paired with the sources of [current_batch]. *)
Fixpoint gather (n i : nat) (current_batch : list SearchResult)
    : list (SearchResult * Raises ExtractedContent) :=
  match current_batch with
  | [] => []
  | source :: rest => (source, resolve n i source) :: gather n (S i) rest
  end.

(** The loop [for i, content in enumerate(batch_content)], with its
    [break]. *)
Fixpoint filter_batch (items : list (SearchResult * Raises ExtractedContent))
    (st : State) : State :=
  match items with
  | [] => st
  | (source, content) :: rest =>
      let st := add_tried (sr_url source) st in
      match content with
      | Raise e =>
          let error_msg :=
            "Content extraction failed for " +:+ sr_url source +:+ ": "
              +:+ take 100 e in
          filter_batch rest (add_log (LogExtractionFailed error_msg)
                               (add_error error_msg st))
      | Return content =>
          if validation_failed content
          then filter_batch rest
                 (add_log (LogSkipInvalid (ec_url content)
                             (default "" (ec_error content))) st)
          else if insufficient content
          then filter_batch rest
                 (add_log (LogSkipInsufficient (ec_url content)) st)
          else
            let st := add_valid content st in
            let st := add_log (LogValid (ec_url content)
                                 (length (valid_content st))
                                 (num_results query)) st in
            if num_results query <=? length (valid_content st)
            then st
            else filter_batch rest st
      end
  end.

(** The condition of the [while] loop. *)
Definition loop_condition (st : State) : bool :=
  (length (valid_content st) <? num_results query)
  && (source_index st <? length search_results)
  && (iteration_count st <? max_iterations).

(** One pass through the body of the [while] loop: the state it leaves
    and whether it left through a [break]. *)
Definition loop_body (batch_size : nat) (balanced_sources : list SearchResult)
    (st : State) : bool * State :=
  let st := next_iteration st in
  let available_sources :=
    List.filter (fun s => negb (bool_decide (sr_url s ∈ tried_sources st)))
      search_results in
  if negb (source_index st =? 0) && (length available_sources =? 0)
  then (true, add_log LogNoMoreSources st)
  else
    let current_batch :=
      if source_index st =? 0
      then firstn batch_size balanced_sources
      else firstn batch_size available_sources in
    match current_batch with
    | [] => (true, add_log LogEmptyBatch st)
    | _ =>
        let st :=
          add_log (LogBatch (source_index st / batch_size + 1) current_batch
                     (num_results query - length (valid_content st))) st in
        let batch_content := gather (iteration_count st) 0 current_batch in
        let st := filter_batch batch_content st in
        let st := advance batch_size st in
        let st :=
          if length (valid_content st) <? num_results query
          then add_log (LogNeedMore
                          (num_results query - length (valid_content st))
                          (iteration_count st)) st
          else st in
        (false, st)
    end.

(** The [while] loop.  [fuel] bounds the number of passes the model may
    make; [None] means the bound was too small. *)
Fixpoint while_loop (batch_size : nat) (balanced_sources : list SearchResult)
    (fuel : nat) (st : State) : option State :=
  if loop_condition st
  then
    match fuel with
    | O => None
    | S fuel' =>
        let '(broke, st) := loop_body batch_size balanced_sources st in
        if broke then Some st
        else while_loop batch_size balanced_sources fuel' st
    end
  else Some st.

(** [_extract_valid_content(search_results, query, errors)].  The
    Python function returns [valid_content] and leaves its other effects
    in [errors] and in the log; the model returns the final state. *)
Definition _extract_valid_content (errors : list string) : option State :=
  let batch_size := Nat.min 3 (length search_results) in
  let balanced_sources := _select_sources_for_extraction search_results query in
  let st := {| valid_content := []; tried_sources := ∅; errors := errors;
               source_index := 0; iteration_count := 0; log := [] |} in
  match while_loop batch_size balanced_sources max_iterations st with
  | None => None
  | Some st =>
      let st :=
        if max_iterations <=? iteration_count st
        then add_log (LogMaxIterations (length (valid_content st))) st
        else st in
      Some (add_log (LogCompleted (length (valid_content st))
                       (size (tried_sources st)) (iteration_count st)) st)
  end.

End Orchestrator.

End ResearchService.

(* ===================================================================== *)
(** ** Academic searcher ([search/base.py], [search/academic_search.py]) *)
(* ===================================================================== *)

(** What the searcher reads of the [httpx.Response] of its request. *)
Record HttpResponse := mkHttpResponse {
  status_code : nat;
  payload : string
}.

Module AcademicSearcher.
Import Py.

(** [response.is_success] of httpx: a 2xx status. *)
Definition is_success (response : HttpResponse) : bool :=
  (200 <=? status_code response) && (status_code response <=? 299).

(** [max_retries] of [_make_request_with_retry]. *)
Definition max_retries : nat := 1.

Section Searcher.
(** [client.get(url, headers=headers)] of the attempt with the given
    number: a transport failure, or a response with its status. *)
Variable client_get : nat -> Raises HttpResponse.
(** The text httpx gives the [HTTPStatusError] of a response. *)
Variable HTTPStatusError_message : HttpResponse -> string.
(** Lines 68-151 of [search]: decoding of the JSON payload of a 200
    response into search results; a failure that escapes the handlers
    of that part reaches the outer handler of [search]. *)
Variable parse_papers : HttpResponse -> nat -> Raises (list SearchResult).

(** [response.raise_for_status()] of httpx: raises unless the status
    is a success. *)
Definition raise_for_status (response : HttpResponse) : Raises HttpResponse :=
  if is_success response then Return response
  else Raise (HTTPStatusError_message response).

(** [BaseSearcher._make_request]. *)
Definition _make_request (attempt : nat) : Raises HttpResponse :=
  match client_get attempt with
  | Raise e => Raise e
  | Return response => raise_for_status response
  end.

(** The loop [for attempt in range(max_retries)] of
    [_make_request_with_retry]; falling off its end returns [None].
    The [asyncio.sleep] before a retry has no effect on the result. *)
Fixpoint retry_loop (attempts : list nat) : Raises (option HttpResponse) :=
  match attempts with
  | [] => Return None
  | attempt :: rest =>
      match _make_request attempt with
      | Return response => Return (Some response)
      | Raise e =>
          if contains "429" e && (attempt <? max_retries - 1)
          then retry_loop rest
          else Raise e
      end
  end.

(** [_make_request_with_retry]. *)
Definition _make_request_with_retry : Raises (option HttpResponse) :=
  retry_loop (seq 0 max_retries).

(** [SearchError("academic", message)] as text. *)
Definition SearchError (search_type message : string) : string :=
  "Search error (" +:+ search_type +:+ "): " +:+ message.

(** [AcademicSearcher.search(query, num_results)].  The rate-limit
    pause before the request only delays it. *)
Definition search (num_results : nat) : Raises (list SearchResult) :=
  match _make_request_with_retry with
  | Raise e => Raise (SearchError "academic" e)
  | Return None =>
      Raise (SearchError "academic"
               "'NoneType' object has no attribute 'status_code'")
  | Return (Some response) =>
      if negb (status_code response =? 200) then Return []
      else
        match parse_papers response num_results with
        | Raise e => Raise (SearchError "academic" e)
        | Return search_results => Return search_results
        end
  end.

End Searcher.

End AcademicSearcher.

(* ===================================================================== *)
(** ** [ResearchService.research] *)
(* ===================================================================== *)

Module Research.
Import Py ResearchService.

(** [_generate_summary(query, search_results, extracted_content)]. *)
Definition _generate_summary (query : ResearchQuery)
    (search_results : list SearchResult)
    (extracted_content : list ExtractedContent) : string :=
  let source_text :=
    match sources query with
    | BOTH => "web and academic databases"
    | s => SearchSource_value s +:+ " sources"
    end in
  let found := length extracted_content in
  let target := num_results query in
  ("Completed research on: " +:+ rq_query query +:+ nl) +:+
  ("Found " +:+ str_of_nat (length search_results)
     +:+ " potential sources from " +:+ source_text +:+ nl) +:+
  ("Successfully extracted valid content from " +:+ str_of_nat found
     +:+ " high-quality sources") +:+
  (if found =? target
   then " (target of " +:+ str_of_nat target +:+ " achieved)" +:+ nl
   else if found <? target
   then " (target was " +:+ str_of_nat target +:+ ", but only "
          +:+ str_of_nat found +:+ " valid sources found)" +:+ nl
   else " (exceeded target of " +:+ str_of_nat target +:+ ")" +:+ nl) +:+
  (if found <? length search_results
   then "Filtered out " +:+ str_of_nat (length search_results - found)
          +:+ " sources with restricted access or low-quality content" +:+ nl
   else "") +:+
  "The information above represents the most relevant and accessible content found on this topic.".

(** [_create_empty_result(query, errors, execution_time)]. *)
Definition _create_empty_result (query : ResearchQuery) (errors : list string)
    : ResearchResult :=
  {| rr_query := query; search_results := []; extracted_content := [];
     summary := "No valid search results found. Please try a different query.";
     total_sources := 0; rr_errors := errors |}.

Section Run.
(** [config.search.max_results]. *)
Variable max_results : nat.
(** [web_searcher.search] and [academic_searcher.search]. *)
Variable web_search : string -> nat -> Raises (list SearchResult).
Variable academic_search : string -> nat -> Raises (list SearchResult).
(** The tasks gathered by the orchestrator. *)
Variable resolve : nat -> nat -> SearchResult -> Raises ExtractedContent.

(** [research(query)]; [None] only if the orchestrator's loop bound were
    too small. *)
Definition research (query : ResearchQuery) : option ResearchResult :=
  let search_multiplier := 3 in
  let expanded_results_needed :=
    Nat.min (num_results query * search_multiplier) max_results in
  let '(search_results, errors) :=
    match sources query with
    | WEB | BOTH =>
        match web_search (rq_query query) expanded_results_needed with
        | Return web_results => (web_results, [])
        | Raise e => ([], [ "Web search failed: " +:+ take 100 e ])
        end
    | ACADEMIC => ([], [])
    end in
  let '(search_results, errors) :=
    match sources query with
    | ACADEMIC | BOTH =>
        match academic_search (rq_query query) expanded_results_needed with
        | Return academic_results => (search_results ++ academic_results, errors)
        | Raise e =>
            if contains "429" e
            then (search_results,
                  errors ++ [ "Academic search rate limited - continuing with web results only" ])
            else (search_results,
                  errors ++ [ "Academic search failed: " +:+ take 100 e ])
        end
    | WEB => (search_results, errors)
    end in
  match search_results with
  | [] => Some (_create_empty_result query errors)
  | _ =>
      match _extract_valid_content resolve search_results query errors with
      | None => None
      | Some st =>
          Some {| rr_query := query;
                  search_results := search_results;
                  extracted_content := valid_content st;
                  summary := _generate_summary query search_results
                               (valid_content st);
                  total_sources := length search_results;
                  rr_errors := ResearchService.errors st |}
      end
  end.

End Run.

End Research.

(* ===================================================================== *)
(** ** Scenarios and auxiliary notions used by the properties *)
(* ===================================================================== *)

Module Scenario.
Import Py.

(** The result built by [tests/test_models.py::test_research_result_truncation]:
    one web hit and one extracted content of a thousand characters. *)
Definition truncation_test_result : ResearchResult :=
  {| rr_query := {| rq_query := "test"; sources := WEB; num_results := 1 |};
     search_results :=
       [ {| sr_title := "Title"; sr_url := "https://example.com";
            sr_snippet := "Snippet"; source_type := "web"; metadata := None |} ];
     extracted_content :=
       [ {| ec_title := "Title"; ec_url := "https://example.com";
            ec_description := "Desc"; ec_content := repeat_str "x" 1000;
            ec_error := None |} ];
     summary := "Summary";
     total_sources := 1;
     rr_errors := [] |}.

(** A text made of the navigation term "menu" ten times, in two runs
    separated by a lone full stop. *)
Definition menu_text : string :=
  "menu menu menu menu menu . menu menu menu menu menu".

(** A whitespace-delimited word overlaps the UI/navigation denylist when,
    in lower case, it is one of the words of a denylist term. *)
Definition overlaps_ui_term (word : string) : bool :=
  existsb (fun pattern => existsb (String.eqb (lower word)) (split pattern))
    ContentExtractor.ui_patterns.

(** The whitespace-delimited words of a text that overlap the denylist. *)
Definition overlapping_words (content : string) : list string :=
  List.filter overlaps_ui_term (split content).

(** A network that answers every request with a PDF. *)
Definition pdf_response : Response :=
  {| content_type := Some "application/pdf"; text := "%PDF-1.4" |}.
Definition pdf_network (url : string) : Raises Response := Return pdf_response.

(** A parser that fails on every document. *)
Definition failing_parser (markup : string) : Raises Soup :=
  Raise "parser called".

(** One web candidate whose url serves a PDF. *)
Definition pdf_candidate : SearchResult :=
  {| sr_title := "Paper"; sr_url := "https://example.com/paper.pdf";
     sr_snippet := "A paper"; source_type := "web"; metadata := None |}.

(** The orchestrator's tasks over [pdf_network]. *)
Definition pdf_resolve (n i : nat) (source : SearchResult) : Raises ExtractedContent :=
  Return (ContentExtractor.extract_from_source default_content_config
            pdf_network failing_parser source).

(** A web candidate named [name]. *)
Definition candidate (name : string) : SearchResult :=
  {| sr_title := name; sr_url := "https://example.com/" +:+ name;
     sr_snippet := "Snippet"; source_type := "web"; metadata := None |}.

(** A content the orchestrator accepts: no error, sixty characters. *)
Definition acceptable_content (source : SearchResult) : ExtractedContent :=
  {| ec_title := sr_title source; ec_url := sr_url source;
     ec_description := "Desc"; ec_content := repeat_str "x" 60;
     ec_error := None |}.

(** The content [extract] returns when validation fails. *)
Definition rejected_content (source : SearchResult) : ExtractedContent :=
  {| ec_title := sr_title source; ec_url := sr_url source;
     ec_description := "Desc"; ec_content := "";
     ec_error := Some "Content validation failed - low quality or restricted content" |}.

(** The candidates [validA, invalidB, validC, validD], all from the web
    searcher, and tasks that resolve them accordingly. *)
Definition abcd : list SearchResult :=
  [ candidate "A"; candidate "B"; candidate "C"; candidate "D" ].

Definition abcd_resolve (n i : nat) (source : SearchResult) : Raises ExtractedContent :=
  if String.eqb (sr_title source) "B"
  then Return (rejected_content source)
  else Return (acceptable_content source).

(** Tasks that reject every source. *)
Definition rejecting_resolve (n i : nat) (source : SearchResult)
    : Raises ExtractedContent :=
  Return (rejected_content source).

(** A web query with the given target. *)
Definition web_query (target : nat) : ResearchQuery :=
  {| rq_query := "test"; sources := WEB; num_results := target |}.

(** A response with status 429 (Too Many Requests). *)
Definition too_many_requests : HttpResponse :=
  {| status_code := 429; payload := "" |}.

End Scenario.

Module Log.
Import ResearchService.

(** The batches the orchestrator issued, in order. *)
Fixpoint batches (log : list LogEntry) : list (list SearchResult) :=
  match log with
  | [] => []
  | LogBatch _ current_batch _ :: rest => current_batch :: batches rest
  | _ :: rest => batches rest
  end.

(** The number of sources handed to the resolver. *)
Definition attempted (log : list LogEntry) : nat :=
  length (concat (batches log)).

(** The number of error and skip notes: one for each gathered result the
    orchestrator did not accept. *)
Fixpoint rejections (log : list LogEntry) : nat :=
  match log with
  | [] => 0
  | (LogExtractionFailed _ | LogSkipInvalid _ _ | LogSkipInsufficient _) :: rest =>
      S (rejections rest)
  | _ :: rest => rejections rest
  end.

(** In a run that accepts nothing: what holds at every test of the loop
    condition. *)
Definition rejected_run_inv (search_results balanced_sources : list SearchResult)
    (batch_size : nat) (st : State) : Prop :=
  valid_content st = [] /\
  source_index st = iteration_count st * batch_size /\
  iteration_count st <= max_iterations /\
  iteration_count st <= length search_results /\
  (iteration_count st = 0 \/
   (iteration_count st - 1) * batch_size < length search_results) /\
  rejections (log st) = attempted (log st) /\
  (balanced_sources <> [] ->
   1 <= iteration_count st -> 1 <= rejections (log st)).

(** In a run that accepts nothing: what holds when the loop is left. *)
Definition rejected_run_post (search_results balanced_sources : list SearchResult)
    (target batch_size : nat) (st : State) : Prop :=
  (1 <= target -> search_results <> [] -> 1 <= iteration_count st) /\
  valid_content st = [] /\
  iteration_count st <= max_iterations /\
  iteration_count st <= length search_results /\
  (iteration_count st = 0 \/
   (iteration_count st - 1) * batch_size < length search_results) /\
  rejections (log st) = attempted (log st) /\
  (balanced_sources <> [] ->
   1 <= iteration_count st -> 1 <= rejections (log st)).

End Log.

(** What the interleaving loop maintains: neither provenance exceeds
    [cap], and the list holds nothing but web and academic candidates. *)
Definition within_cap (cap : nat) (combined : list SearchResult) : Prop :=
  length (ResearchService.of_type "web" combined) <= cap /\
  length (ResearchService.of_type "academic" combined) <= cap /\
  length combined =
    length (ResearchService.of_type "web" combined) + length (ResearchService.of_type "academic" combined).

(** The tasks the orchestrator gathers, over the real resolver: the task
    at position [i] of pass [n] either raises ([raised n i]) or returns what
    [extract_from_source] computes from that task's network and parser. *)
Definition resolver_tasks (cfg : ContentConfig)
    (raised : nat -> nat -> option string)
    (network : nat -> nat -> string -> Raises Response)
    (parser : nat -> nat -> string -> Raises Soup)
    (n i : nat) (source : SearchResult) : Raises ExtractedContent :=
  match raised n i with
  | Some e => Raise e
  | None =>
      Return (ContentExtractor.extract_from_source cfg (network n i)
                (parser n i) source)
  end.

(* ===================================================================== *)
(** ** More string primitives *)
(* ===================================================================== *)

Module PyMore.
Import Py.

(** [s[n:]] for [n >= 0]. *)
Fixpoint drop (n : nat) (s : string) : string :=
  match n, s with
  | O, _ => s
  | S _, EmptyString => EmptyString
  | S n', String _ s' => drop n' s'
  end.

(** The longest prefix of [s] whose characters all satisfy [f]. *)
Fixpoint take_while (f : ascii -> bool) (s : string) : string :=
  match s with
  | EmptyString => EmptyString
  | String c s' => if f c then String c (take_while f s') else EmptyString
  end.

(** [[c for c in s if f(c)]] as a string. *)
Fixpoint filter_chars (f : ascii -> bool) (s : string) : string :=
  match s with
  | EmptyString => EmptyString
  | String c s' => if f c then String c (filter_chars f s') else filter_chars f s'
  end.

(** Every character of [s] satisfies [f]. *)
Fixpoint all_chars (f : ascii -> bool) (s : string) : bool :=
  match s with
  | EmptyString => true
  | String c s' => f c && all_chars f s'
  end.

(** [s.rfind(pat)]: the highest index at which [pat] occurs in [s], or -1.
    [i] is the index of the first character of [s] in the whole text and
    [best] the highest occurrence seen so far. *)
Fixpoint rfind_go (pat s : string) (i : nat) (best : Z) : Z :=
  let best := if String.prefix pat s then Z.of_nat i else best in
  match s with
  | EmptyString => best
  | String _ s' => rfind_go pat s' (S i) best
  end.
Definition rfind (pat s : string) : Z := rfind_go pat s 0 (-1).

(** The character has one of the given codes. *)
Definition code_in (codes : list nat) (c : ascii) : bool :=
  existsb (Nat.eqb (nat_of_ascii c)) codes.

(** The class [\w] of [re] on a [str] pattern: the underscore and every
    character that [isalnum] accepts.  Up to U+00FF these are the digits,
    the letters A-Z and a-z, the ordinal indicators U+00AA and U+00BA, the
    superscripts U+00B2, U+00B3 and U+00B9, the micro sign U+00B5, the
    fractions U+00BC-U+00BE and the letters U+00C0-U+00FF but for the
    multiplication and division signs U+00D7 and U+00F7. *)
Definition is_word_char (c : ascii) : bool :=
  let n := nat_of_ascii c in
  ((48 <=? n) && (n <=? 57)) || ((65 <=? n) && (n <=? 90))
  || ((97 <=? n) && (n <=? 122)) || (n =? 95)
  || (n =? 170) || (n =? 178) || (n =? 179) || (n =? 181)
  || (n =? 185) || (n =? 186) || ((188 <=? n) && (n <=? 190))
  || ((192 <=? n) && (n <=? 255) && negb (n =? 215) && negb (n =? 247)).

End PyMore.

(* ===================================================================== *)
(** ** Text utilities ([utils/text.py]) *)
(* ===================================================================== *)

Module TextUtils.
Import Py PyMore.

(** The default [suffix] of [safe_truncate]. *)
Definition default_suffix : string :=
  "..." +:+ nl +:+ "[Content truncated due to size limits]".

(** [safe_truncate(text, max_length, suffix)]. *)
Definition safe_truncate (text : string) (max_length : Z) (suffix : string)
    : string :=
  if negb (truthy text) || (Z.of_nat (len text) <=? max_length)%Z then text
  else
    let last_para_break := rfind (nl +:+ nl) (slice_to text (max_length - 50)) in
    if (max_length / 2 <? last_para_break)%Z
    then slice_to text last_para_break +:+ (nl +:+ nl) +:+ suffix
    else slice_to text max_length +:+ suffix.

(** The characters the second substitution of [clean_text] keeps: word
    characters, whitespace, the punctuation - . , ; : ! ? ( ) [ ] { } /
    and the double and single quote characters. *)
Definition kept_char (c : ascii) : bool :=
  is_word_char c || isspace c
  || code_in [45; 46; 44; 59; 58; 33; 63; 40; 41; 91; 93; 123; 125; 34; 39; 47] c.

(** [clean_text(text)]; [None] stands for the Python [None]. *)
Definition clean_text (text : option string) : string :=
  match text with
  | None => ""
  | Some text =>
      if negb (truthy text) then ""
      else
        let text := ContentExtractor.collapse_ws false text in
        let text := filter_chars kept_char text in
        strip text
  end.

(** The character class of the URL pattern: anything but whitespace, the
    angle brackets, the double and single quote characters, the braces,
    the vertical bar, the backslash, the caret, the backquote and the square
    brackets. *)
Definition url_char (c : ascii) : bool :=
  negb (isspace c
        || code_in [60; 62; 34; 39; 123; 125; 124; 92; 94; 96; 91; 93] c).

(** A match of the URL pattern at the start of [s]: http, an optional s,
    a colon and two slashes, then one or more characters of the class, as
    many as there are. *)
Definition match_url (s : string) : option string :=
  let attempt (scheme : string) : option string :=
    if String.prefix scheme s
    then
      let body := take_while url_char (drop (len scheme) s) in
      if truthy body then Some (scheme +:+ body) else None
    else None in
  match attempt "https://" with
  | Some url => Some url
  | None => attempt "http://"
  end.

(** [re.findall] of the URL pattern: leftmost matches that do not overlap.
    [skip] counts the characters still covered by the last match. *)
Fixpoint findall_urls (skip : nat) (s : string) : list string :=
  match s with
  | EmptyString => []
  | String _ s' =>
      match skip with
      | S k => findall_urls k s'
      | O =>
          match match_url s with
          | Some url => url :: findall_urls (len url - 1) s'
          | None => findall_urls 0 s'
          end
      end
  end.

(** [extract_urls(text)]. *)
Definition extract_urls (text : string) : list string := findall_urls 0 text.

End TextUtils.

(* ===================================================================== *)
(** ** [ResearchQuery.__post_init__] *)
(* ===================================================================== *)

(** The [sources] argument of the constructor: a member of the enumeration
    or a string. *)
Inductive SourcesArg :=
| SourceEnum (s : SearchSource)
| SourceStr (s : string).

(** [SearchSource(value)]: the member with that value, if any. *)
Definition SearchSource_of_value (value : string) : option SearchSource :=
  if String.eqb value "web" then Some WEB
  else if String.eqb value "academic" then Some ACADEMIC
  else if String.eqb value "both" then Some BOTH
  else None.

(** [ResearchQuery(query, sources, num_results)]: the constructed query,
    or the text of the [ValueError] raised by [__post_init__]. *)
Definition ResearchQuery_init (query : string) (sources : SourcesArg)
    (num_results : Z) : Raises ResearchQuery :=
  if negb (Py.truthy (Py.strip query)) then Raise "Query cannot be empty"
  else if ((num_results <? 1) || (5 <? num_results))%Z
  then Raise "Number of results must be between 1 and 5"
  else
    Return {| rq_query := query;
              sources :=
                match sources with
                | SourceEnum s => s
                | SourceStr s =>
                    default BOTH (SearchSource_of_value (Py.lower s))
                end;
              num_results := Z.to_nat num_results |}.

(* ===================================================================== *)
(** ** Web searcher ([search/web_search.py]) *)
(* ===================================================================== *)

(** What the searcher reads of one [.result] block of the result page. *)
Record ResultBlock := mkResultBlock {
  (* block.select_one(".result__title a"): its text and its href attribute *)
  title_link : option (string * option string);
  (* the text of block.select_one(".result__snippet") *)
  snippet_elem : option string
}.

Module WebSearcher.
Import Py PyMore.

(** [re.search(r"uddg=([^&]+)", href)]: group 1 of the leftmost match. *)
Fixpoint uddg_search (href : string) : option string :=
  let here :=
    if String.prefix "uddg=" href
    then
      let group := take_while (fun c => negb (Ascii.eqb c "&")) (drop 5 href) in
      if truthy group then Some group else None
    else None in
  match here with
  | Some group => Some group
  | None =>
      match href with
      | EmptyString => None
      | String _ rest => uddg_search rest
      end
  end.

Section Searcher.
(** [client.get(url, headers=headers)], as for the academic searcher. *)
Variable client_get : nat -> Raises HttpResponse.
Variable HTTPStatusError_message : HttpResponse -> string.
(** [BeautifulSoup(response.text, "html.parser").select(".result")]. *)
Variable select_results : string -> Raises (list ResultBlock).
(** [urllib.parse.unquote]. *)
Variable unquote : string -> string.
(** [config.max_snippet_length]. *)
Variable max_snippet_length : nat.

(** The target of a result link: the [uddg] parameter of a redirect
    through the search engine, the link itself otherwise. *)
Definition resolve_href (href : string) : string :=
  if contains "duckduckgo.com" href
  then match uddg_search href with
       | Some group => unquote group
       | None => href
       end
  else href.

(** The loop [for block in result_blocks]. *)
Fixpoint collect (num_results : nat) (result_blocks : list ResultBlock)
    (search_results : list SearchResult) : list SearchResult :=
  match result_blocks with
  | [] => search_results
  | block :: rest =>
      if num_results <=? length search_results then search_results
      else
        match title_link block with
        | None => collect num_results rest search_results
        | Some (text, href_attr) =>
            let title := strip text in
            let href := resolve_href (default "" href_attr) in
            let snippet :=
              match snippet_elem block with
              | Some t => strip t
              | None => "No snippet available"
              end in
            collect num_results rest
              (search_results ++
               [ {| sr_title := take 100 title;
                    sr_url := take 150 href;
                    sr_snippet := take max_snippet_length snippet;
                    source_type := "web";
                    metadata := None |} ])
        end
  end.

(** [WebSearcher.search(query, num_results)]. *)
Definition search (num_results : nat) : Raises (list SearchResult) :=
  match AcademicSearcher._make_request client_get HTTPStatusError_message 0 with
  | Raise e => Raise (AcademicSearcher.SearchError "web" e)
  | Return response =>
      match select_results (payload response) with
      | Raise e => Raise (AcademicSearcher.SearchError "web" e)
      | Return result_blocks => Return (collect num_results result_blocks [])
      end
  end.

End Searcher.

End WebSearcher.

(* ===================================================================== *)
(** ** The [deep_research] tool ([core/server.py]) *)
(* ===================================================================== *)

Module Server.
Import Py.

Section Tool.
(** [settings.search.max_results] and [settings.content.max_content_size]. *)
Variable max_results : nat.
Variable max_content_size : Z.
Variable web_search : string -> nat -> Raises (list SearchResult).
Variable academic_search : string -> nat -> Raises (list SearchResult).
Variable resolve : nat -> nat -> SearchResult -> Raises ExtractedContent.

(** [deep_research(query, sources, num_results)]: the text the tool
    returns; [None] only if the orchestrator's loop bound were too small. *)
Definition deep_research (query sources : string) (num_results : Z)
    : option string :=
  let num_results :=
    if (Z.of_nat max_results <? num_results)%Z
    then Z.of_nat max_results else num_results in
  match ResearchQuery_init query (SourceStr sources) num_results with
  | Raise e => Some ("Research error: " +:+ take 200 e)
  | Return research_query =>
      match Research.research max_results web_search academic_search resolve
              research_query with
      | None => None
      | Some result => Some (format_output result max_content_size)
      end
  end.

End Tool.

End Server.

(* ===================================================================== *)
(** ** The [/deep_research] endpoint ([http_server.py]) *)
(* ===================================================================== *)

(** What the endpoint answers: the fields of [DeepResearchResponse] the
    research determines. *)
Record DeepResearchResponse := mkDeepResearchResponse {
  dr_query : string;
  dr_sources : string;
  dr_num_results : Z;
  dr_result : string;
  dr_total_sources : nat;
  dr_errors : list string
}.

(** [HTTPException(status_code, detail)]. *)
Record HTTPException := mkHTTPException {
  http_status : nat;
  detail : string
}.

Module HttpServer.
Import Py.

(** The dictionary [source_map] of the endpoint. *)
Definition source_map (sources : string) : option SearchSource :=
  if String.eqb sources "web" then Some WEB
  else if String.eqb sources "academic" then Some ACADEMIC
  else if String.eqb sources "both" then Some BOTH
  else None.

Section Endpoint.
Variable max_results : nat.
Variable max_content_size : Z.
Variable web_search : string -> nat -> Raises (list SearchResult).
Variable academic_search : string -> nat -> Raises (list SearchResult).
Variable resolve : nat -> nat -> SearchResult -> Raises ExtractedContent.

(** [deep_research_endpoint(request)]: the exception it raises or the
    response it returns; [None] only if the orchestrator's loop bound were
    too small. *)
Definition deep_research_endpoint (query sources : string) (num_results : Z)
    : option (HTTPException + DeepResearchResponse) :=
  let num_results :=
    if (Z.of_nat max_results <? num_results)%Z
    then Z.of_nat max_results else num_results in
  match source_map sources with
  | None =>
      Some (inl {| http_status := 400;
                   detail := "Invalid sources value. Must be one of: ['web', 'academic', 'both']" |})
  | Some source =>
      match ResearchQuery_init query (SourceEnum source) num_results with
      | Raise e =>
          Some (inl {| http_status := 500; detail := "Research error: " +:+ e |})
      | Return research_query =>
          match Research.research max_results web_search academic_search resolve
                  research_query with
          | None => None
          | Some result =>
              Some (inr {| dr_query := query;
                           dr_sources := sources;
                           dr_num_results := num_results;
                           dr_result := format_output result max_content_size;
                           dr_total_sources := total_sources result;
                           dr_errors := rr_errors result |})
          end
      end
  end.

End Endpoint.

End HttpServer.

(* ===================================================================== *)
(** ** Readings of the orchestrator's log *)
(* ===================================================================== *)

Module ErrorLog.
Import ResearchService.

(** The messages of the failed extractions that were logged, in order. *)
Fixpoint failures (log : list LogEntry) : list string :=
  match log with
  | [] => []
  | LogExtractionFailed error_msg :: rest => error_msg :: failures rest
  | _ :: rest => failures rest
  end.

(** What holds of the orchestrator's state throughout a run that was
    started with the caller's list [errors0]: the urls marked as tried are
    urls of candidates, the errors appended are the logged failures, each
    bearing the prefix of the extraction failure message, and every
    accepted content was returned by a task run on a candidate and passed
    both skip tests. *)
Definition run_inv (resolve : nat -> nat -> SearchResult -> Raises ExtractedContent)
    (search_results : list SearchResult) (errors0 : list string)
    (st : State) : Prop :=
  (forall url, url ∈ tried_sources st ->
     exists s, In s search_results /\ sr_url s = url) /\
  errors st = errors0 ++ failures (log st) /\
  Forall (fun m => String.prefix "Content extraction failed for " m = true)
    (failures (log st)) /\
  Forall (fun c => exists n i s,
            In s search_results /\ resolve n i s = Return c /\
            accepted (Return c) = true)
    (valid_content st).

(** The effort of a run: passes, batches and failures. *)
Definition effort_inv (search_results : list SearchResult) (st : State) : Prop :=
  iteration_count st <= max_iterations /\
  length (Log.batches (log st)) <= iteration_count st /\
  Forall (fun b => 1 <= length b <= 3 /\ incl b search_results)
    (Log.batches (log st)) /\
  length (failures (log st)) <= Log.attempted (log st).

End ErrorLog.

Module Examples.
Import Py.

(** The texts of [tests/test_utils.py]. *)
Definition text_with_paragraphs : string :=
  "First paragraph." +:+ nl +:+ nl +:+ "Second paragraph." +:+ nl +:+ nl
    +:+ "Third paragraph.".

Definition text_with_urls : string :=
  "Visit https://example.com and http://test.org for more info".

(** A result page with a redirect link, a block without a title link and
    a direct link. *)
Definition result_page : list ResultBlock :=
  [ {| title_link :=
         Some ("  First  ",
               Some "//duckduckgo.com/l/?uddg=https%3A%2F%2Fexample.com%2Fa&rut=1");
       snippet_elem := Some " about a " |};
    {| title_link := None; snippet_elem := Some "advertisement" |};
    {| title_link := Some ("Second", Some "https://example.org/b");
       snippet_elem := None |} ].

(** A network that answers 200 and a page whose blocks are [result_page]. *)
Definition ok_response : HttpResponse := {| status_code := 200; payload := "<html>" |}.
Definition ok_network (attempt : nat) : Raises HttpResponse := Return ok_response.
Definition result_page_blocks (markup : string) : Raises (list ResultBlock) :=
  Return result_page.

(** An academic candidate with an abstract of two long sentences. *)
Definition paper : SearchResult :=
  {| sr_title := "A study of alpacas";
     sr_url := "https://example.org/paper";
     sr_snippet := "Smith (2020) We study alpacas.";
     source_type := "academic";
     metadata :=
       Some (<[ "abstract" :=
                  "We study the grazing behaviour of alpacas in the Andes. The results show a clear seasonal pattern of movement." ]>
             (<[ "authors" := "Smith" ]> (<[ "year" := "2020" ]> (<[ "venue" := "" ]> ∅)))) |}.

(** A network and a parser that fail on every call. *)
Definition failing_network (url : string) : Raises Response := Raise "unreachable".

(** A page of two plain sentences. *)
Definition plain_page : Soup :=
  {| title_string := Some " A page ";
     meta_description := None;
     paragraphs :=
       [ "Alpacas are domesticated animals of the Andes mountains.";
         "They are kept in herds and are shorn once every year." ];
     heading_paragraphs := [];
     all_text := "" |}.
Definition html_network (url : string) : Raises Response :=
  Return {| content_type := Some "text/html; charset=utf-8"; text := "<html>" |}.
Definition plain_parser (markup : string) : Raises Soup := Return plain_page.

(** Tasks that accept every source. *)
Definition accepting_resolve (n i : nat) (source : SearchResult)
    : Raises ExtractedContent :=
  Return (Scenario.acceptable_content source).

(** Tasks that all raise. *)
Definition raising_resolve (n i : nat) (source : SearchResult)
    : Raises ExtractedContent :=
  Raise "timed out".

(** Searchers: one that finds the candidates A and B, one that finds the
    paper, one that finds nothing and ones that fail. *)
Definition web_finds_ab (query : string) (num_results : nat)
    : Raises (list SearchResult) :=
  Return [ Scenario.candidate "A"; Scenario.candidate "B" ].
Definition academic_finds_paper (query : string) (num_results : nat)
    : Raises (list SearchResult) :=
  Return [ paper ].
Definition search_finds_nothing (query : string) (num_results : nat)
    : Raises (list SearchResult) :=
  Return [].
Definition search_fails (query : string) (num_results : nat)
    : Raises (list SearchResult) :=
  Raise "Search error (web): connection refused".

(** The message httpx gives to the error of a response, reduced to its
    status line for 429. *)
Definition status_message (response : HttpResponse) : string :=
  if status_code response =? 429
  then "Client error '429 Too Many Requests'"
  else "Client error".
Definition rate_limited_network (attempt : nat) : Raises HttpResponse :=
  Return Scenario.too_many_requests.
Definition no_papers (response : HttpResponse) (num_results : nat)
    : Raises (list SearchResult) :=
  Return [].

End Examples.

(* ===================================================================== *)
(** ** Properties of the string primitives *)
(* ===================================================================== *)

Section PyFacts.
Import Py.

Lemma len_app (s t : string) : len (s +:+ t) = len s + len t.
Proof.
  unfold len. induction s as [|c s IH]; simpl; [reflexivity|].
  now rewrite IH.
Qed.

Lemma len_take (n : nat) (s : string) : len (take n s) = Nat.min n (len s).
Proof.
  unfold len. revert s. induction n as [|n IH]; intros [|c s]; simpl; auto.
Qed.

Lemma len_slice_to (s : string) (k : Z) :
  Z.of_nat (len (slice_to s k)) =
  (if (k <? 0)%Z then Z.max 0 (Z.of_nat (len s) + k)
   else Z.min k (Z.of_nat (len s)))%Z.
Proof.
  unfold slice_to. rewrite len_take.
  destruct (Z.ltb_spec k 0); lia.
Qed.

Lemma len_truncation_msg : len truncation_msg = 40.
Proof. reflexivity. Qed.

End PyFacts.

(* ===================================================================== *)
(** ** [format_output]: the size budget *)
(* ===================================================================== *)

Section FormatOutputFacts.
Import Py.

(** Whenever [format_output] cuts, the marker closes the text. *)
Lemma format_output_cut_ends_with_marker (r : ResearchResult) (max_size : Z) :
  (max_size < Z.of_nat (len (format_untruncated r)))%Z ->
  endswith (format_output r max_size) truncation_msg.
Proof.
  intros Hlong. unfold format_output.
  destruct (Z.ltb_spec max_size (Z.of_nat (len (format_untruncated r)))); [|lia].
  eexists. reflexivity.
Qed.

(** With a budget of at least the marker's 40 characters the cut text has
    exactly [max_size] characters. *)
Lemma format_output_cut_fits (r : ResearchResult) (max_size : Z) :
  (40 <= max_size)%Z ->
  (max_size < Z.of_nat (len (format_untruncated r)))%Z ->
  Z.of_nat (len (format_output r max_size)) = max_size.
Proof.
  intros Hmin Hlong. unfold format_output.
  destruct (Z.ltb_spec max_size (Z.of_nat (len (format_untruncated r)))); [|lia].
  rewrite len_app, Nat2Z.inj_add, len_slice_to, len_truncation_msg.
  destruct (Z.ltb_spec (max_size - Z.of_nat 40) 0); lia.
Qed.

(** With a budget below 40 the slice bound [max_size - 40] is negative:
    the cut text keeps the marker whole and is longer than the budget. *)
Lemma format_output_cut_overflows (r : ResearchResult) (max_size : Z) :
  (max_size < 40)%Z ->
  (max_size < Z.of_nat (len (format_untruncated r)))%Z ->
  (max_size < Z.of_nat (len (format_output r max_size)))%Z.
Proof.
  intros Hsmall Hlong. unfold format_output.
  destruct (Z.ltb_spec max_size (Z.of_nat (len (format_untruncated r)))); [|lia].
  rewrite len_app, Nat2Z.inj_add, len_truncation_msg. lia.
Qed.

(** C4 (as stated, it fails).  The claim: whenever the untruncated text
    is longer than [max_size], [format_output] returns at most [max_size]
    characters ending with the marker.  On the result of the repository's
    own truncation test and [max_size = 10] the untruncated text has 1345
    characters, and the returned text ends with the marker but has 1355
    characters. *)
Theorem format_output_budget_10_exceeded :
  len (format_untruncated Scenario.truncation_test_result) = 1345 /\
  len (format_output Scenario.truncation_test_result 10) = 1355 /\
  ~ (Z.of_nat (len (format_output Scenario.truncation_test_result 10)) <= 10)%Z /\
  endswith (format_output Scenario.truncation_test_result 10) truncation_msg.
Proof.
  assert (H : len (format_output Scenario.truncation_test_result 10) = 1355)
    by (vm_compute; reflexivity).
  split; [vm_compute; reflexivity|].
  split; [exact H|].
  split; [rewrite H; lia|].
  apply format_output_cut_ends_with_marker. vm_compute. reflexivity.
Qed.

(** A text that ends with the marker holds its 40 characters: with a
    budget below 40 no text at all both ends with the marker and fits the
    budget. *)
Lemma marker_needs_40 (s : string) (max_size : Z) :
  endswith s truncation_msg ->
  (Z.of_nat (len s) <= max_size)%Z ->
  (40 <= max_size)%Z.
Proof.
  intros [head ->] Hfits.
  rewrite len_app, len_truncation_msg in Hfits. lia.
Qed.

(** C4 (amended).  For a budget of at least 40 characters, the length of
    the marker: whenever the untruncated text is longer than [max_size],
    [format_output] returns a text of at most [max_size] characters, in
    fact of exactly [max_size], that ends with the marker. *)
Theorem format_output_truncates_to_budget (r : ResearchResult) (max_size : Z) :
  (40 <= max_size)%Z ->
  (max_size < Z.of_nat (len (format_untruncated r)))%Z ->
  (Z.of_nat (len (format_output r max_size)) <= max_size)%Z /\
  Z.of_nat (len (format_output r max_size)) = max_size /\
  endswith (format_output r max_size) truncation_msg.
Proof.
  intros Hmin Hlong.
  pose proof (format_output_cut_fits r max_size Hmin Hlong) as Hlen.
  split; [lia|]. split; [exact Hlen|].
  now apply format_output_cut_ends_with_marker.
Qed.

(** The repository's truncation test: a budget of 100. *)
Lemma format_output_truncates_to_budget_witness :
  (Z.of_nat (len (format_output Scenario.truncation_test_result 100)) <= 100)%Z /\
  Z.of_nat (len (format_output Scenario.truncation_test_result 100)) = 100%Z /\
  endswith (format_output Scenario.truncation_test_result 100) truncation_msg.
Proof.
  apply format_output_truncates_to_budget.
  - lia.
  - vm_compute. reflexivity.
Defined.

End FormatOutputFacts.

(* ===================================================================== *)
(** ** Academic searcher: statuses other than 200 *)
(* ===================================================================== *)

Section AcademicSearcherFacts.
Import Py AcademicSearcher.

Variable HTTPStatusError_message : HttpResponse -> string.
Variable parse_papers : HttpResponse -> nat -> Raises (list SearchResult).

(** A completed request whose status is not a success makes
    [raise_for_status] raise; the single attempt re-raises and [search]
    turns the failure into a [SearchError]. *)
Lemma search_error_status_raises (client_get : nat -> Raises HttpResponse)
    (response : HttpResponse) (num_results : nat) :
  client_get 0 = Return response ->
  is_success response = false ->
  search client_get HTTPStatusError_message parse_papers num_results =
  Raise (SearchError "academic" (HTTPStatusError_message response)).
Proof.
  intros Hget Hstatus.
  unfold search, _make_request_with_retry, max_retries. simpl.
  unfold _make_request, raise_for_status. rewrite Hget, Hstatus.
  now rewrite andb_false_r.
Qed.

(** The status test of [search] is reached only by a 2xx response; there a
    status other than 200 gives the empty list. *)
Lemma search_success_not_200_empty (client_get : nat -> Raises HttpResponse)
    (response : HttpResponse) (num_results : nat) :
  client_get 0 = Return response ->
  is_success response = true ->
  status_code response <> 200 ->
  search client_get HTTPStatusError_message parse_papers num_results = Return [].
Proof.
  intros Hget Hstatus Hcode.
  unfold search, _make_request_with_retry, max_retries. simpl.
  unfold _make_request, raise_for_status. rewrite Hget, Hstatus.
  destruct (Nat.eqb_spec (status_code response) 200); [contradiction|reflexivity].
Qed.

(** C2 (the code departs from it).  The claim: a request that completes
    with a status other than 200, 429 included, makes [search] return the
    empty sequence.  With status 429 [_make_request] raises inside
    [raise_for_status], [_make_request_with_retry] has a single attempt and
    re-raises, and [search] raises a [SearchError]: the branch that returns
    the empty list for 429 is never reached. *)
Theorem search_status_429_raises (num_results : nat) :
  search (fun _ => Return Scenario.too_many_requests)
    HTTPStatusError_message parse_papers num_results =
  Raise (SearchError "academic"
           (HTTPStatusError_message Scenario.too_many_requests)).
Proof. now apply search_error_status_raises. Qed.

End AcademicSearcherFacts.

(* ===================================================================== *)
(** ** Validity filter and content resolver *)
(* ===================================================================== *)

Section ContentExtractorFacts.
Import Py ContentExtractor.

Lemma filter_length_le {A : Type} (f : A -> bool) (l : list A) :
  length (List.filter f l) <= length l.
Proof. induction l as [|x l IH]; simpl; [lia|]. destruct (f x); simpl; lia. Qed.

(** At most the seven denylist terms can be counted. *)
Lemma ui_count_le_7 (content_lower : string) : ui_count content_lower <= 7.
Proof. unfold ui_count. apply (filter_length_le _ ui_patterns). Qed.

(** The navigation test as the code computes it: the number of distinct
    denylist terms found in the text, against the number of words. *)
Lemma ui_ratio_rejects (content description title : string) :
  0 < length (split content) ->
  3 * length (split content) < 10 * ui_count (lower content) ->
  _is_valid_content content description title = false.
Proof.
  intros Hwords Hratio. unfold _is_valid_content.
  destruct (negb (truthy content) || (len (strip content) <? 50)); [reflexivity|].
  destruct (existsb _ error_patterns); [reflexivity|].
  destruct (Nat.ltb_spec 0 (length (split content))); [|lia].
  destruct (Nat.ltb_spec (3 * length (split content))
              (10 * ui_count (lower content))); [reflexivity|lia].
Qed.

(** A text of 24 words or more never fails the navigation test, whatever
    its words are. *)
Lemma ui_ratio_silent_from_24_words (content : string) :
  24 <= length (split content) ->
  (3 * length (split content) <? 10 * ui_count (lower content)) = false.
Proof.
  intros Hwords. pose proof (ui_count_le_7 (lower content)).
  apply Nat.ltb_ge. lia.
Qed.

(** C5 (the code departs from it).  The claim: a text in which more than
    30% of the whitespace-delimited words overlap with the UI/navigation
    denylist is rejected.  In [menu_text] ten of the eleven words are the
    denylist term "menu", yet the filter accepts it: the code counts the
    distinct denylist terms present (here one) rather than the words. *)
Theorem menu_text_is_valid :
  length (split Scenario.menu_text) = 11 /\
  length (Scenario.overlapping_words Scenario.menu_text) = 10 /\
  3 * length (split Scenario.menu_text)
    < 10 * length (Scenario.overlapping_words Scenario.menu_text) /\
  ui_count (lower Scenario.menu_text) = 1 /\
  _is_valid_content Scenario.menu_text "" "" = true.
Proof. vm_compute. repeat split; lia. Qed.

Variable cfg : ContentConfig.

(** The PDF test comes before the parser is called: the parser has no
    influence on the result. *)
Lemma extract_pdf (http_get : string -> Raises Response)
    (BeautifulSoup : string -> Raises Soup) (url : string) (response : Response) :
  http_get url = Return response ->
  contains "application/pdf" (lower (default "" (content_type response))) = true ->
  extract cfg http_get BeautifulSoup url = pdf_placeholder url.
Proof. intros Hget Hpdf. unfold extract. now rewrite Hget, Hpdf. Qed.

(** A content that [extract] returns with an error set has an empty body. *)
Lemma extract_error_empty (http_get : string -> Raises Response)
    (BeautifulSoup : string -> Raises Soup) (url : string) :
  ec_error (extract cfg http_get BeautifulSoup url) = None \/
  ec_content (extract cfg http_get BeautifulSoup url) = "".
Proof.
  unfold extract.
  destruct (http_get url) as [e|response]; [now right|].
  destruct (contains _ _); [now left|].
  destruct (BeautifulSoup _) as [e|soup]; [now right|].
  destruct (negb _); [now right|now left].
Qed.

(** The same for [extract_from_source]. *)
Lemma extract_from_source_error_empty (http_get : string -> Raises Response)
    (BeautifulSoup : string -> Raises Soup) (source : SearchResult) :
  ec_error (extract_from_source cfg http_get BeautifulSoup source) = None \/
  ec_content (extract_from_source cfg http_get BeautifulSoup source) = "".
Proof.
  unfold extract_from_source.
  destruct (metadata source) as [md|]; [|apply extract_error_empty].
  destruct (_ && _); [|apply extract_error_empty].
  destruct (negb _); [apply extract_error_empty|now left].
Qed.

End ContentExtractorFacts.

(* ===================================================================== *)
(** ** Source balancer *)
(* ===================================================================== *)

Section BalancerFacts.
Import ResearchService.

Lemma of_type_snoc (ty : string) (l : list SearchResult) (x : SearchResult) :
  of_type ty (l ++ [x]) =
  of_type ty l ++ (if String.eqb (source_type x) ty then [x] else []).
Proof. unfold of_type. now rewrite List.filter_app. Qed.

Lemma nth_error_of_type (ty : string) (l : list SearchResult) (i : nat)
    (x : SearchResult) :
  nth_error (of_type ty l) i = Some x -> source_type x = ty.
Proof.
  intros Hnth. apply nth_error_In in Hnth.
  unfold of_type in Hnth. apply List.filter_In in Hnth as [_ Heq].
  now apply String.eqb_eq.
Qed.

Lemma of_type_firstn_le (ty : string) (n : nat) (l : list SearchResult) :
  length (of_type ty (firstn n l)) <= length (of_type ty l).
Proof.
  revert n. induction l as [|x l IH]; intros [|n]; simpl; try lia.
  specialize (IH n). destruct (String.eqb (source_type x) ty); simpl; lia.
Qed.

Lemma within_cap_add_web (cap : nat) (combined : list SearchResult) (w : SearchResult) :
  source_type w = "web" ->
  length (of_type "web" combined) < cap ->
  within_cap cap combined -> within_cap cap (combined ++ [w]).
Proof.
  intros Hw Hlt (Hweb & Hacad & Hlen). unfold within_cap.
  rewrite !of_type_snoc, Hw, !length_app, Hlen. simpl. lia.
Qed.

Lemma within_cap_add_academic (cap : nat) (combined : list SearchResult)
    (a : SearchResult) :
  source_type a = "academic" ->
  length (of_type "academic" combined) < cap ->
  within_cap cap combined -> within_cap cap (combined ++ [a]).
Proof.
  intros Ha Hlt (Hweb & Hacad & Hlen). unfold within_cap.
  rewrite !of_type_snoc, Ha, !length_app, Hlen. simpl. lia.
Qed.

Lemma interleave_within_cap (num_results cap : nat)
    (results : list SearchResult) (indices : list nat)
    (combined : list SearchResult) :
  within_cap cap combined ->
  within_cap cap
    (interleave num_results cap (of_type "web" results)
       (of_type "academic" results) indices combined).
Proof.
  revert combined. induction indices as [|i rest IH]; intros combined Hb; simpl.
  - exact Hb.
  - destruct (num_results <=? length combined); [exact Hb|].
    apply IH.
    assert (Hweb : within_cap cap
              match nth_error (of_type "web" results) i with
              | Some w =>
                  if length (of_type "web" combined) <? cap
                  then combined ++ [w] else combined
              | None => combined
              end).
    { destruct (nth_error (of_type "web" results) i) as [w|] eqn:Hnth; [|exact Hb].
      destruct (Nat.ltb_spec (length (of_type "web" combined)) cap); [|exact Hb].
      apply within_cap_add_web; eauto using nth_error_of_type. }
    destruct (nth_error (of_type "academic" results) i) as [a|] eqn:Hnth;
      [|exact Hweb].
    match goal with |- context [ ?n <? cap ] => destruct (Nat.ltb_spec n cap) end;
      [|exact Hweb].
    apply within_cap_add_academic; eauto using nth_error_of_type.
Qed.

(** C8.  For scope "both" the balancer returns at most
    [max(1, num_results div 2)] candidates of each provenance, hence at most
    twice that many in all; for a target of 5 that is at most 4, fewer than
    the target, however many candidates of each provenance there are. *)
Theorem balancer_per_type_cap (search_results : list SearchResult)
    (query : ResearchQuery) :
  sources query = BOTH ->
  let selected := _select_sources_for_extraction search_results query in
  let cap := Nat.max 1 (num_results query / 2) in
  length (of_type "web" selected) <= cap /\
  length (of_type "academic" selected) <= cap /\
  length selected <= 2 * cap /\
  (num_results query = 5 ->
   length selected <= 4 /\ length selected < num_results query).
Proof.
  intros Hboth selected cap.
  unfold selected, _select_sources_for_extraction. rewrite Hboth.
  fold cap.
  set (combined := interleave _ _ _ _ _ _).
  assert (Hb : within_cap cap combined).
  { apply interleave_within_cap. unfold within_cap. simpl. lia. }
  destruct Hb as (Hweb & Hacad & Hlen).
  pose proof (of_type_firstn_le "web" (num_results query) combined).
  pose proof (of_type_firstn_le "academic" (num_results query) combined).
  pose proof (firstn_le_length (num_results query) combined) as Hfirst.
  assert (Htotal : length (firstn (num_results query) combined) <= 2 * cap)
    by (rewrite length_firstn; lia).
  split; [lia|]. split; [lia|]. split; [exact Htotal|].
  intros H5. subst cap. rewrite H5 in Htotal |- *.
  change (Nat.max 1 (5 / 2)) with 2 in Htotal. lia.
Qed.

(** Five web and five academic candidates with a target of 5: the balancer
    returns four of them. *)
Lemma balancer_per_type_cap_witness :
  let web i := {| sr_title := "w"; sr_url := "w" +:+ Py.str_of_nat i;
                  sr_snippet := ""; source_type := "web"; metadata := None |} in
  let academic i := {| sr_title := "a"; sr_url := "a" +:+ Py.str_of_nat i;
                       sr_snippet := ""; source_type := "academic";
                       metadata := None |} in
  let search_results := map web (seq 0 5) ++ map academic (seq 0 5) in
  let query := {| rq_query := "q"; sources := BOTH; num_results := 5 |} in
  let selected := _select_sources_for_extraction search_results query in
  length selected = 4 /\
  length (of_type "web" selected) <= 2 /\
  length (of_type "academic" selected) <= 2 /\
  length selected <= 4 /\
  (5 = 5 -> length selected <= 4 /\ length selected < 5).
Proof.
  intros web academic search_results query selected.
  split; [reflexivity|].
  exact (balancer_per_type_cap search_results query eq_refl).
Defined.

(** C7.  Scope "both", four web candidates followed by four academic ones,
    target 4: the balancer returns exactly four candidates, alternating web
    and academic, two of each provenance, two being [max(1, 4 div 2)]. *)
Theorem balancer_four_and_four (w0 w1 w2 w3 a0 a1 a2 a3 : SearchResult)
    (query : ResearchQuery) :
  sources query = BOTH ->
  num_results query = 4 ->
  Forall (fun w => source_type w = "web") [w0; w1; w2; w3] ->
  Forall (fun a => source_type a = "academic") [a0; a1; a2; a3] ->
  let selected :=
    _select_sources_for_extraction [w0; w1; w2; w3; a0; a1; a2; a3] query in
  selected = [w0; a0; w1; a1] /\
  length selected = 4 /\
  map source_type selected = ["web"; "academic"; "web"; "academic"] /\
  length (of_type "web" selected) = Nat.max 1 (4 / 2) /\
  length (of_type "academic" selected) = Nat.max 1 (4 / 2).
Proof.
  intros Hboth Htarget Hweb Hacad selected.
  unfold selected, _select_sources_for_extraction. rewrite Hboth, Htarget.
  repeat match goal with
         | H : Forall _ (_ :: _) |- _ => inversion H; subst; clear H
         | H : Forall _ [] |- _ => clear H
         end.
  destruct w0, w1, w2, w3, a0, a1, a2, a3; simpl in *; subst.
  repeat split; reflexivity.
Qed.

(** Candidates w0..w3 from the web searcher and a0..a3 from the academic
    one. *)
Lemma balancer_four_and_four_witness :
  let web u := {| sr_title := u; sr_url := u; sr_snippet := "";
                  source_type := "web"; metadata := None |} in
  let academic u := {| sr_title := u; sr_url := u; sr_snippet := "";
                       source_type := "academic"; metadata := None |} in
  let query := {| rq_query := "q"; sources := BOTH; num_results := 4 |} in
  _select_sources_for_extraction
    [web "w0"; web "w1"; web "w2"; web "w3";
     academic "a0"; academic "a1"; academic "a2"; academic "a3"] query
  = [web "w0"; academic "a0"; web "w1"; academic "a1"].
Proof.
  intros web academic query.
  refine (proj1 (balancer_four_and_four
                   (web "w0") (web "w1") (web "w2") (web "w3")
                   (academic "a0") (academic "a1") (academic "a2") (academic "a3")
                   query eq_refl eq_refl _ _)).
  - repeat constructor.
  - repeat constructor.
Defined.

End BalancerFacts.

(* ===================================================================== *)
(** ** Extraction orchestrator: the loop *)
(* ===================================================================== *)

Section OrchestratorFacts.
Import ResearchService.

Variable resolve : nat -> nat -> SearchResult -> Raises ExtractedContent.
Variable search_results : list SearchResult.
Variable query : ResearchQuery.

Local Abbreviation target := (num_results query).
Local Abbreviation body := (loop_body resolve search_results query).
Local Abbreviation loop := (while_loop resolve search_results query).
Local Abbreviation cond := (loop_condition search_results query).

(** *** The scan of one batch *)

Lemma filter_batch_counters (items : list (SearchResult * Raises ExtractedContent))
    (st : State) :
  iteration_count (filter_batch query items st) = iteration_count st /\
  source_index (filter_batch query items st) = source_index st.
Proof.
  revert st. induction items as [|[source [e|content]] rest IH]; intros st; simpl.
  - auto.
  - now rewrite (proj1 (IH _)), (proj2 (IH _)).
  - destruct (validation_failed content);
      [now rewrite (proj1 (IH _)), (proj2 (IH _))|].
    destruct (insufficient content);
      [now rewrite (proj1 (IH _)), (proj2 (IH _))|].
    destruct (_ <=? _); [auto|now rewrite (proj1 (IH _)), (proj2 (IH _))].
Qed.

(** The scan appends only while the target is not met. *)
Lemma filter_batch_length (items : list (SearchResult * Raises ExtractedContent))
    (st : State) :
  length (valid_content st) < target ->
  length (valid_content (filter_batch query items st)) <= target.
Proof.
  revert st. induction items as [|[source [e|content]] rest IH]; intros st Hlt; simpl.
  - lia.
  - now apply IH.
  - destruct (validation_failed content); [now apply IH|].
    destruct (insufficient content); [now apply IH|].
    simpl. rewrite length_app. simpl.
    destruct (Nat.leb_spec target (length (valid_content st) + 1)).
    + simpl. rewrite length_app. simpl. lia.
    + apply IH. simpl. rewrite length_app. simpl. lia.
Qed.

(** Whatever the scan appends was returned by a task of the batch and
    reached the accepting branch. *)
Lemma filter_batch_Forall (P : ExtractedContent -> Prop)
    (items : list (SearchResult * Raises ExtractedContent)) (st : State) :
  (forall source content,
      In (source, Return content) items ->
      accepted (Return content) = true -> P content) ->
  Forall P (valid_content st) ->
  Forall P (valid_content (filter_batch query items st)).
Proof.
  revert st.
  induction items as [|[source [e|content]] rest IH]; intros st Hitems Hst; simpl.
  - exact Hst.
  - apply IH; [|exact Hst].
    intros source0 content0 Hin Hacc. apply (Hitems source0); simpl; auto.
  - assert (Hrest : forall source0 content0,
               In (source0, Return content0) rest ->
               accepted (Return content0) = true -> P content0)
      by (intros source0 content0 Hin Hacc; apply (Hitems source0); simpl; auto).
    destruct (validation_failed content) eqn:Hv; [now apply IH|].
    destruct (insufficient content) eqn:Hi; [now apply IH|].
    assert (Hnew : Forall P (valid_content st ++ [content])).
    { apply Forall_app. split; [exact Hst|].
      constructor; [|constructor].
      apply (Hitems source); simpl; [auto|now rewrite Hv, Hi]. }
    destruct (_ <=? _); [exact Hnew|now apply IH].
Qed.

Lemma gather_In (n i : nat) (current_batch : list SearchResult)
    (source : SearchResult) (r : Raises ExtractedContent) :
  In (source, r) (gather resolve n i current_batch) ->
  exists j, r = resolve n j source.
Proof.
  revert i. induction current_batch as [|s rest IH]; intros i; simpl; [tauto|].
  intros [Heq|Hin]; [inversion Heq; subst; eauto|eauto].
Qed.

Lemma gather_length (n i : nat) (current_batch : list SearchResult) :
  length (gather resolve n i current_batch) = length current_batch.
Proof.
  revert i. induction current_batch as [|s rest IH]; intros i; simpl; auto.
Qed.

(** *** The loop *)

Lemma loop_body_iteration (batch_size : nat) (balanced_sources : list SearchResult)
    (st : State) :
  iteration_count (snd (body batch_size balanced_sources st)) =
  S (iteration_count st).
Proof.
  unfold loop_body.
  destruct (_ && _); [reflexivity|].
  destruct (if _ =? 0 then _ else _); [reflexivity|].
  set (st1 := filter_batch _ _ _).
  assert (H : iteration_count st1 = S (iteration_count st))
    by (unfold st1; now rewrite (proj1 (filter_batch_counters _ _))).
  simpl. destruct (_ <? _); simpl; exact H.
Qed.

(** The loop returns: its own cap of five passes bounds it. *)
Lemma while_loop_total (batch_size : nat) (balanced_sources : list SearchResult)
    (fuel : nat) (st : State) :
  max_iterations - iteration_count st <= fuel ->
  exists st', loop batch_size balanced_sources fuel st = Some st'.
Proof.
  revert st. induction fuel as [|fuel IH]; intros st Hfuel; simpl.
  - destruct (cond st) eqn:Hc; [|eauto].
    unfold loop_condition in Hc.
    apply andb_prop in Hc as [_ Hc]. apply Nat.ltb_lt in Hc. lia.
  - destruct (cond st) eqn:Hc; [|eauto].
    pose proof (loop_body_iteration batch_size balanced_sources st) as Hit.
    destruct (body batch_size balanced_sources st) as [broke st1].
    simpl in Hit. destruct broke; [eauto|].
    apply IH. lia.
Qed.

(** One pass that does not [break], and the exit by the condition. *)
Lemma while_loop_continue (batch_size : nat) (balanced_sources : list SearchResult)
    (fuel : nat) (st st1 : State) :
  cond st = true ->
  body batch_size balanced_sources st = (false, st1) ->
  loop batch_size balanced_sources (S fuel) st =
  loop batch_size balanced_sources fuel st1.
Proof. intros Hc Hb. simpl. now rewrite Hc, Hb. Qed.

Lemma while_loop_exit (batch_size : nat) (balanced_sources : list SearchResult)
    (fuel : nat) (st : State) :
  cond st = false ->
  loop batch_size balanced_sources fuel st = Some st.
Proof. intros Hc. destruct fuel; simpl; now rewrite Hc. Qed.

(** Invariant rule for the loop: [Inv] holds at every test of the
    condition, [Post] when the loop is left, by its condition or by [break]. *)
Lemma while_loop_rule (Inv Post : State -> Prop)
    (batch_size : nat) (balanced_sources : list SearchResult) :
  (forall st, Inv st -> cond st = false -> Post st) ->
  (forall st, Inv st -> cond st = true ->
     if fst (body batch_size balanced_sources st)
     then Post (snd (body batch_size balanced_sources st))
     else Inv (snd (body batch_size balanced_sources st))) ->
  forall fuel st st',
    Inv st -> loop batch_size balanced_sources fuel st = Some st' -> Post st'.
Proof.
  intros Hexit Hbody fuel.
  induction fuel as [|fuel IH]; intros st st' Hinv Hrun; simpl in Hrun.
  - destruct (cond st) eqn:Hc; [discriminate|].
    inversion Hrun; subst. now apply Hexit.
  - destruct (cond st) eqn:Hc.
    + specialize (Hbody st Hinv Hc).
      destruct (body batch_size balanced_sources st) as [broke st1].
      simpl in Hbody. destruct broke.
      * inversion Hrun; subst. exact Hbody.
      * exact (IH st1 st' Hbody Hrun).
    + inversion Hrun; subst. now apply Hexit.
Qed.

(** What [_extract_valid_content] adds after the loop is log entries. *)
Lemma extract_valid_content_result (errors0 : list string) :
  exists st_loop st,
    loop (Nat.min 3 (length search_results))
      (_select_sources_for_extraction search_results query) max_iterations
      {| valid_content := []; tried_sources := ∅; errors := errors0;
         source_index := 0; iteration_count := 0; log := [] |} = Some st_loop /\
    _extract_valid_content resolve search_results query errors0 = Some st /\
    valid_content st = valid_content st_loop /\
    errors st = errors st_loop /\
    iteration_count st = iteration_count st_loop /\
    tried_sources st = tried_sources st_loop /\
    exists tail, log st = log st_loop ++ tail /\
                 Log.rejections tail = 0 /\ Log.batches tail = [].
Proof.
  unfold _extract_valid_content.
  edestruct (while_loop_total (Nat.min 3 (length search_results))
               (_select_sources_for_extraction search_results query)
               max_iterations) as [st_loop Hloop]; [|rewrite Hloop].
  { unfold max_iterations. simpl. lia. }
  exists st_loop. eexists. split; [reflexivity|]. split; [reflexivity|].
  destruct (max_iterations <=? iteration_count st_loop); simpl;
    repeat split; try reflexivity.
  - eexists. rewrite <- app_assoc. split; [reflexivity|]. now simpl.
  - eexists. split; [reflexivity|]. now simpl.
Qed.

(** The accepted list never outgrows the target. *)
Lemma while_loop_length (batch_size : nat) (balanced_sources : list SearchResult)
    (fuel : nat) (st st' : State) :
  length (valid_content st) <= target ->
  loop batch_size balanced_sources fuel st = Some st' ->
  length (valid_content st') <= target.
Proof.
  apply (while_loop_rule (fun s => length (valid_content s) <= target)
           (fun s => length (valid_content s) <= target)); [auto|].
  clear st st'. intros st Hinv Hc.
  unfold loop_condition in Hc.
  apply andb_prop in Hc as [Hc _]. apply andb_prop in Hc as [Hc _].
  apply Nat.ltb_lt in Hc.
  unfold loop_body.
  destruct (_ && _); [simpl; lia|].
  destruct (if _ =? 0 then _ else _) eqn:Hbatch; [simpl; lia|].
  rewrite <- Hbatch. clear Hbatch.
  set (st1 := filter_batch _ _ _).
  assert (H : length (valid_content st1) <= target)
    by (apply filter_batch_length; simpl; exact Hc).
  simpl. destruct (_ <? _); simpl; exact H.
Qed.

(** Every accepted content was returned by a task and passed both skip
    tests. *)
Lemma while_loop_Forall (P : ExtractedContent -> Prop)
    (batch_size : nat) (balanced_sources : list SearchResult)
    (fuel : nat) (st st' : State) :
  (forall n i source content,
      resolve n i source = Return content ->
      accepted (Return content) = true -> P content) ->
  Forall P (valid_content st) ->
  loop batch_size balanced_sources fuel st = Some st' ->
  Forall P (valid_content st').
Proof.
  intros Hres.
  apply (while_loop_rule (fun s => Forall P (valid_content s))
           (fun s => Forall P (valid_content s))); [auto|].
  clear st st'. intros st Hinv _.
  unfold loop_body.
  destruct (_ && _); [exact Hinv|].
  destruct (if _ =? 0 then _ else _) eqn:Hbatch; [exact Hinv|].
  rewrite <- Hbatch. clear Hbatch.
  set (st1 := filter_batch _ _ _).
  assert (H : Forall P (valid_content st1)).
  { apply filter_batch_Forall; [|exact Hinv].
    intros source content Hin Hacc.
    apply gather_In in Hin as [j Hj]. eauto. }
  simpl. destruct (_ <? _); simpl; exact H.
Qed.

End OrchestratorFacts.

(* ===================================================================== *)
(** ** Extraction orchestrator: accepted contents *)
(* ===================================================================== *)

Section AcceptedFacts.
Import ResearchService Research.

(** [research] returns, and what it reports as extracted content is empty
    or the accepted list of one run of the orchestrator. *)
Lemma research_result (max_results : nat)
    (web_search academic_search : string -> nat -> Raises (list SearchResult))
    (resolve : nat -> nat -> SearchResult -> Raises ExtractedContent)
    (query : ResearchQuery) :
  exists r,
    research max_results web_search academic_search resolve query = Some r /\
    rr_query r = query /\
    (extracted_content r = [] \/
     exists results errors0 st,
       _extract_valid_content resolve results query errors0 = Some st /\
       extracted_content r = valid_content st).
Proof.
  unfold research.
  destruct (match sources query with
            | ACADEMIC => _ | _ => _ end) as [results1 errors1].
  destruct (match sources query with
            | WEB => _ | _ => _ end) as [results errors0].
  destruct results as [|s results].
  - eexists. split; [reflexivity|]. split; [reflexivity|]. now left.
  - destruct (extract_valid_content_result resolve (s :: results) query errors0)
      as (st_loop & st & _ & Hrun & _).
    rewrite Hrun. eexists. split; [reflexivity|]. split; [reflexivity|].
    right. eauto.
Qed.

(** C1.  For a valid query (target between 1 and 5), any candidates and
    any outcomes of the resolver's tasks, the orchestrator returns, and the
    accepted list it returns has at most [num_results] elements; so has the
    extracted content of every result of [research]. *)
Theorem accepted_within_target
    (resolve : nat -> nat -> SearchResult -> Raises ExtractedContent)
    (query : ResearchQuery) :
  valid_query query ->
  (forall search_results errors0,
      exists st,
        _extract_valid_content resolve search_results query errors0 = Some st /\
        length (valid_content st) <= num_results query) /\
  (forall max_results web_search academic_search,
      exists r,
        research max_results web_search academic_search resolve query = Some r /\
        length (extracted_content r) <= num_results query).
Proof.
  intros Hvalid.
  assert (Hrun : forall search_results errors0,
      exists st,
        _extract_valid_content resolve search_results query errors0 = Some st /\
        length (valid_content st) <= num_results query).
  { intros search_results errors0.
    destruct (extract_valid_content_result resolve search_results query errors0)
      as (st_loop & st & Hloop & Hrun & Hvalid_eq & _).
    exists st. split; [exact Hrun|]. rewrite Hvalid_eq.
    eapply while_loop_length; [|exact Hloop]. simpl. lia. }
  split; [exact Hrun|].
  intros max_results web_search academic_search.
  destruct (research_result max_results web_search academic_search resolve query)
    as (r & Hr & _ & [Hempty|(results & errors0 & st & Hst & Heq)]).
  - exists r. split; [exact Hr|]. rewrite Hempty. simpl. lia.
  - exists r. split; [exact Hr|]. rewrite Heq.
    destruct (Hrun results errors0) as (st' & Hst' & Hlen).
    rewrite Hst in Hst'. inversion Hst'; subst. exact Hlen.
Qed.

(** The four candidates A, B, C, D with a target of 2. *)
Lemma accepted_within_target_witness :
  exists st,
    _extract_valid_content Scenario.abcd_resolve Scenario.abcd
      (Scenario.web_query 2) [] = Some st /\
    length (valid_content st) <= 2.
Proof.
  refine (proj1 (accepted_within_target Scenario.abcd_resolve
                   (Scenario.web_query 2) _) Scenario.abcd []).
  split; [vm_compute; discriminate|simpl; lia].
Defined.

Lemma resolver_tasks_accepted_no_error (cfg : ContentConfig)
    (raised : nat -> nat -> option string)
    (network : nat -> nat -> string -> Raises Response)
    (parser : nat -> nat -> string -> Raises Soup)
    (n i : nat) (source : SearchResult) (content : ExtractedContent) :
  resolver_tasks cfg raised network parser n i source = Return content ->
  accepted (Return content) = true ->
  ec_error content = None.
Proof.
  unfold resolver_tasks. destruct (raised n i); [discriminate|].
  intros Heq Hacc. inversion Heq; subst; clear Heq.
  destruct (extract_from_source_error_empty cfg (network n i) (parser n i) source)
    as [Hnone|Hempty]; [exact Hnone|].
  simpl in Hacc. apply andb_prop in Hacc as [_ Hsuff].
  unfold insufficient in Hsuff. rewrite Hempty in Hsuff. discriminate.
Qed.

(** C6.  Every element of the accepted list has [error = None]: a task
    that raised is never appended, and a content that the resolver returned
    with an error set (an absorbed exception or a validation failure) has an
    empty body and is skipped.  This holds for the orchestrator's result and
    for the extracted content of every result of [research]. *)
Theorem accepted_content_has_no_error (cfg : ContentConfig)
    (raised : nat -> nat -> option string)
    (network : nat -> nat -> string -> Raises Response)
    (parser : nat -> nat -> string -> Raises Soup)
    (query : ResearchQuery) :
  (forall search_results errors0,
      exists st,
        _extract_valid_content (resolver_tasks cfg raised network parser)
          search_results query errors0 = Some st /\
        Forall (fun content => ec_error content = None) (valid_content st)) /\
  (forall max_results web_search academic_search,
      exists r,
        research max_results web_search academic_search
          (resolver_tasks cfg raised network parser) query = Some r /\
        Forall (fun content => ec_error content = None) (extracted_content r)).
Proof.
  set (resolve := resolver_tasks cfg raised network parser).
  assert (Hrun : forall search_results errors0,
      exists st,
        _extract_valid_content resolve search_results query errors0 = Some st /\
        Forall (fun content => ec_error content = None) (valid_content st)).
  { intros search_results errors0.
    destruct (extract_valid_content_result resolve search_results query errors0)
      as (st_loop & st & Hloop & Hrun & Hvalid_eq & _).
    exists st. split; [exact Hrun|]. rewrite Hvalid_eq.
    eapply while_loop_Forall in Hloop; [exact Hloop| |simpl; constructor].
    intros n i source content. apply resolver_tasks_accepted_no_error. }
  split; [exact Hrun|].
  intros max_results web_search academic_search.
  destruct (research_result max_results web_search academic_search resolve query)
    as (r & Hr & _ & [Hempty|(results & errors0 & st & Hst & Heq)]).
  - exists r. split; [exact Hr|]. rewrite Hempty. constructor.
  - exists r. split; [exact Hr|]. rewrite Heq.
    destruct (Hrun results errors0) as (st' & Hst' & Hall).
    rewrite Hst in Hst'. inversion Hst'; subst. exact Hall.
Qed.

End AcceptedFacts.

(* ===================================================================== *)
(** ** Extraction orchestrator: a run in which nothing is accepted *)
(* ===================================================================== *)

Section LogFacts.
Import ResearchService Log.

Lemma batches_app (l1 l2 : list LogEntry) :
  batches (l1 ++ l2) = batches l1 ++ batches l2.
Proof.
  induction l1 as [|e l1 IH]; simpl; [reflexivity|].
  destruct e; simpl; now rewrite ?IH.
Qed.

Lemma rejections_app (l1 l2 : list LogEntry) :
  rejections (l1 ++ l2) = rejections l1 + rejections l2.
Proof.
  induction l1 as [|e l1 IH]; simpl; [reflexivity|].
  destruct e; simpl; now rewrite ?IH.
Qed.

Lemma attempted_app (l1 l2 : list LogEntry) :
  attempted (l1 ++ l2) = attempted l1 + attempted l2.
Proof. unfold attempted. now rewrite batches_app, concat_app, length_app. Qed.

End LogFacts.

Section BalancerNonEmpty.
Import ResearchService.

Lemma interleave_length_ge (num_results cap : nat)
    (web_results academic_results : list SearchResult) (indices : list nat)
    (combined : list SearchResult) :
  length combined <=
  length (interleave num_results cap web_results academic_results indices combined).
Proof.
  revert combined. induction indices as [|i rest IH]; intros combined; simpl.
  - lia.
  - destruct (num_results <=? length combined); [lia|].
    etransitivity; [|apply IH].
    set (with_web := match nth_error web_results i with
                     | Some w => _ | None => _ end).
    assert (Hweb : length combined <= length with_web).
    { subst with_web. destruct (nth_error web_results i) as [w|];
        [destruct (_ <? cap)|]; rewrite ?length_app; simpl; lia. }
    clearbody with_web.
    destruct (nth_error academic_results i) as [a|];
      [destruct (_ <? cap)|]; rewrite ?length_app; simpl; lia.
Qed.

(** With a target of at least one, the balancer selects something from any
    non-empty list of web and academic candidates. *)
Lemma select_sources_nonempty (search_results : list SearchResult)
    (query : ResearchQuery) :
  1 <= num_results query ->
  search_results <> [] ->
  Forall (fun s => source_type s = "web" \/ source_type s = "academic")
    search_results ->
  _select_sources_for_extraction search_results query <> [].
Proof.
  intros Htarget Hne Htypes.
  assert (Hfirstn : forall (l : list SearchResult),
             l <> [] -> firstn (num_results query) l <> []).
  { intros [|x l] Hl; [contradiction|].
    destruct (num_results query); [lia|]. simpl. discriminate. }
  unfold _select_sources_for_extraction.
  destruct (sources query); try (now apply Hfirstn).
  apply Hfirstn.
  set (web_results := of_type "web" search_results).
  set (academic_results := of_type "academic" search_results).
  assert (Hsome : web_results <> [] \/ academic_results <> []).
  { destruct search_results as [|s rest]; [contradiction|].
    inversion Htypes as [|? ? Hs _]; subst.
    unfold web_results, academic_results, of_type. simpl.
    destruct Hs as [Hs|Hs]; rewrite Hs; simpl; [left|right]; discriminate. }
  assert (Hmax : exists m, Nat.max (length web_results) (length academic_results) = S m).
  { destruct web_results, academic_results; simpl; eauto.
    destruct Hsome; contradiction. }
  destruct Hmax as [m Hmax]. rewrite Hmax.
  clearbody web_results academic_results. simpl seq.
  cbn [interleave]. cbn [length].
  destruct (Nat.leb_spec (num_results query) 0); [lia|].
  intros Hnil.
  match type of Hnil with
  | interleave ?n ?c ?w ?a ?idx ?comb = [] =>
      pose proof (interleave_length_ge n c w a idx comb) as Hge;
      rewrite Hnil in Hge; apply Nat.le_0_r, length_zero_iff_nil in Hge
  end.
  clear Hnil.
  set (cap := Nat.max 1 (num_results query / 2)) in Hge.
  assert (Hcap : (0 <? cap) = true) by (apply Nat.ltb_lt; lia).
  clearbody cap.
  destruct web_results as [|w web_rest]; destruct academic_results as [|a acad_rest];
    simpl in Hge; rewrite ?Hcap in Hge.
  - destruct Hsome; contradiction.
  - discriminate.
  - discriminate.
  - destruct (_ <? _) in Hge; discriminate.
Qed.

End BalancerNonEmpty.

Section RejectedRun.
Import ResearchService Log.

Variable resolve : nat -> nat -> SearchResult -> Raises ExtractedContent.
Variable search_results : list SearchResult.
Variable query : ResearchQuery.

Hypothesis all_rejected : forall n i source, accepted (resolve n i source) = false.

(** A scan that accepts nothing leaves one error or skip note per item. *)
Lemma filter_batch_all_rejected
    (items : list (SearchResult * Raises ExtractedContent)) (st : State) :
  Forall (fun item => accepted (snd item) = false) items ->
  valid_content (filter_batch query items st) = valid_content st /\
  rejections (log (filter_batch query items st)) =
    rejections (log st) + length items /\
  batches (log (filter_batch query items st)) = batches (log st).
Proof.
  revert st.
  induction items as [|[source [e|content]] rest IH]; intros st Hall; simpl.
  - repeat split; lia.
  - inversion Hall; subst.
    match goal with
    | |- context [filter_batch query rest ?s] =>
        destruct (IH s) as (Hv & Hr & Hb); [assumption|]
    end.
    rewrite Hv, Hr, Hb. simpl. rewrite rejections_app, batches_app. simpl.
    rewrite app_nil_r. repeat split; lia.
  - inversion Hall as [|? ? Hacc Hrest]; subst. simpl in Hacc.
    destruct (validation_failed content) eqn:Hvf.
    { match goal with
      | |- context [filter_batch query rest ?s] =>
          destruct (IH s) as (Hv & Hr & Hb); [assumption|]
      end.
      rewrite Hv, Hr, Hb. simpl. rewrite rejections_app, batches_app. simpl.
      rewrite app_nil_r. repeat split; lia. }
    destruct (insufficient content) eqn:Hins; [|discriminate].
    match goal with
    | |- context [filter_batch query rest ?s] =>
        destruct (IH s) as (Hv & Hr & Hb); [assumption|]
    end.
    rewrite Hv, Hr, Hb. simpl. rewrite rejections_app, batches_app. simpl.
    rewrite app_nil_r. repeat split; lia.
Qed.

Lemma gather_all_rejected (n i : nat) (current_batch : list SearchResult) :
  Forall (fun item => accepted (snd item) = false)
    (gather resolve n i current_batch).
Proof.
  revert i. induction current_batch as [|s rest IH]; intros i; simpl.
  - constructor.
  - constructor; [simpl; apply all_rejected|apply IH].
Qed.

Lemma firstn_nonempty {A : Type} (n : nat) (l : list A) :
  1 <= n -> l <> [] -> firstn n l <> [].
Proof. destruct n, l; simpl; intros; try lia; congruence. Qed.

(** One pass of the loop in a run that accepts nothing. *)
Lemma rejected_run_body (batch_size : nat) (balanced_sources : list SearchResult)
    (st : State) :
  batch_size = Nat.min 3 (length search_results) ->
  rejected_run_inv search_results balanced_sources batch_size st ->
  loop_condition search_results query st = true ->
  if fst (loop_body resolve search_results query batch_size balanced_sources st)
  then rejected_run_post search_results balanced_sources (num_results query)
         batch_size
         (snd (loop_body resolve search_results query batch_size balanced_sources st))
  else rejected_run_inv search_results balanced_sources batch_size
         (snd (loop_body resolve search_results query batch_size balanced_sources st)).
Proof.
  intros Hsize (Hvalid & Hindex & Hcap & Hlen & Hexh & Hrej & Hpop) Hc.
  unfold loop_condition in Hc.
  apply andb_prop in Hc as [Hc Hc3]. apply andb_prop in Hc as [Hc1 Hc2].
  apply Nat.ltb_lt in Hc1, Hc2, Hc3. unfold max_iterations in *.
  assert (Hbs : 1 <= batch_size) by lia.
  assert (Hit : iteration_count st < length search_results) by nia.
  assert (Hzero : source_index st = 0 -> iteration_count st = 0) by nia.
  unfold loop_body. cbn [source_index next_iteration tried_sources].
  destruct (negb (source_index st =? 0) && _) eqn:Hnomore.
  { (* no untried source is left *)
    apply andb_prop in Hnomore as [Hnz _].
    apply negb_true_iff, Nat.eqb_neq in Hnz.
    cbn [fst snd]. unfold rejected_run_post, max_iterations. simpl.
    rewrite rejections_app, attempted_app.
    change (attempted [_]) with 0. simpl.
    split; [intros _ _; lia|].
    split; [assumption|]. split; [lia|]. split; [lia|].
    split; [right; nia|]. split; [lia|]. intros Hbal _.
    assert (1 <= rejections (log st)) by (apply Hpop; [assumption|lia]). lia. }
  clear Hnomore.
  destruct (if source_index st =? 0 then _ else _) as [|s batch] eqn:Hbatch.
  { (* the batch is empty *)
    cbn [fst snd]. unfold rejected_run_post, max_iterations. simpl.
    rewrite rejections_app, attempted_app.
    change (attempted [_]) with 0. simpl.
    split; [intros _ _; lia|].
    split; [assumption|]. split; [lia|]. split; [lia|].
    split; [right; nia|]. split; [lia|]. intros Hbal _.
    assert (Hnz : source_index st <> 0).
    { intros Hz. rewrite Hz in Hbatch. simpl in Hbatch.
      now apply (firstn_nonempty batch_size balanced_sources). }
    assert (1 <= rejections (log st)) by (apply Hpop; [assumption|lia]). lia. }
  (* a batch is resolved and scanned *)
  set (st0 := add_log _ (next_iteration st)).
  set (items := gather resolve (iteration_count st0) 0 (s :: batch)).
  destruct (filter_batch_all_rejected items st0) as (Hv & Hr & Hb).
  { apply gather_all_rejected. }
  destruct (filter_batch_counters query items st0) as (Hi & Hs).
  assert (Hitems : length items = S (length batch))
    by (unfold items; rewrite gather_length; reflexivity).
  assert (Hatt : attempted (log (filter_batch query items st0)) = attempted (log st0))
    by (unfold attempted; now rewrite Hb).
  assert (Hst0 : valid_content st0 = [] /\
                 iteration_count st0 = S (iteration_count st) /\
                 source_index st0 = source_index st /\
                 rejections (log st0) = rejections (log st) /\
                 attempted (log st0) = attempted (log st) + S (length batch)).
  { unfold st0. simpl. rewrite rejections_app, attempted_app.
    unfold attempted. simpl. rewrite length_app. simpl.
    repeat split; auto; lia. }
  destruct Hst0 as (Hv0 & Hi0 & Hs0 & Hr0 & Ha0).
  cbn [fst snd].
  set (st1 := filter_batch query items st0) in *.
  clearbody st1 items st0.
  assert (Hinv1 : rejected_run_inv search_results balanced_sources batch_size
                    (advance batch_size st1)).
  { unfold rejected_run_inv, max_iterations.
    cbn [advance valid_content source_index iteration_count log].
    rewrite Hv, Hi, Hs, Hr, Hatt, Hv0, Hi0, Hs0, Hr0, Ha0, Hitems.
    split; [reflexivity|]. split; [lia|]. split; [lia|]. split; [lia|].
    split; [right; nia|]. split; [lia|]. intros _ _. lia. }
  destruct (length (valid_content (advance batch_size st1)) <? num_results query);
    [|exact Hinv1].
  destruct Hinv1 as (H1 & H2 & H3 & H4 & H5 & H6 & H7).
  unfold rejected_run_inv.
  cbn [add_log valid_content source_index iteration_count log].
  rewrite rejections_app, attempted_app.
  change (attempted [_]) with 0. cbn [rejections]. rewrite !Nat.add_0_r.
  repeat split; assumption.
Qed.

(** The whole loop in a run that accepts nothing. *)
Lemma rejected_run_loop (balanced_sources : list SearchResult)
    (fuel : nat) (st st' : State) :
  rejected_run_inv search_results balanced_sources
    (Nat.min 3 (length search_results)) st ->
  while_loop resolve search_results query (Nat.min 3 (length search_results))
    balanced_sources fuel st = Some st' ->
  rejected_run_post search_results balanced_sources (num_results query)
    (Nat.min 3 (length search_results)) st'.
Proof.
  apply (while_loop_rule resolve search_results query
           (rejected_run_inv search_results balanced_sources
              (Nat.min 3 (length search_results)))
           (rejected_run_post search_results balanced_sources (num_results query)
              (Nat.min 3 (length search_results)))).
  - intros s (H1 & H2 & H3 & H4 & H5 & H6 & H7) Hc.
    unfold rejected_run_post.
    split; [|repeat split; assumption].
    intros Htarget Hne.
    destruct (iteration_count s) as [|k] eqn:Hk; [exfalso|lia].
    unfold loop_condition in Hc. rewrite H1, H2, Hk in Hc.
    assert (0 < length search_results)
      by (destruct search_results; [contradiction|simpl; lia]).
    apply andb_false_iff in Hc as [Hc|Hc];
      [apply andb_false_iff in Hc as [Hc|Hc]|];
      apply Nat.ltb_ge in Hc; unfold max_iterations in Hc; simpl in Hc; lia.
  - intros s Hinv Hc. now apply rejected_run_body.
Qed.

End RejectedRun.

(** What does hold of a run in which every resolution attempt is
    rejected (the task raised, or returned content that fails validation or
    is insufficient): the orchestrator returns; the accepted list is empty;
    it made at most five passes, and none once its counter [source_index]
    had reached the number of candidates; every source handed to the
    resolver left an error or skip note, and there is at least one such
    note as soon as there are candidates of web or academic provenance.
    The model has no failure path: no exception is raised. *)
Theorem rejected_run_terminates_empty
    (resolve : nat -> nat -> SearchResult -> Raises ExtractedContent)
    (search_results : list SearchResult) (query : ResearchQuery)
    (errors0 : list string) :
  valid_query query ->
  (forall n i source, ResearchService.accepted (resolve n i source) = false) ->
  exists st,
    ResearchService._extract_valid_content resolve search_results query errors0
      = Some st /\
    ResearchService.valid_content st = [] /\
    ResearchService.iteration_count st <= 5 /\
    ResearchService.iteration_count st <= length search_results /\
    (ResearchService.iteration_count st = 0 \/
     (ResearchService.iteration_count st - 1) * Nat.min 3 (length search_results)
       < length search_results) /\
    Log.rejections (ResearchService.log st) = Log.attempted (ResearchService.log st) /\
    (search_results <> [] ->
     Forall (fun s => source_type s = "web" \/ source_type s = "academic")
       search_results ->
     1 <= Log.rejections (ResearchService.log st)).
Proof.
  intros [_ Htarget] Hrejected.
  destruct (extract_valid_content_result resolve search_results query errors0)
    as (st_loop & st & Hloop & Hrun & Hvalid & _ & Hiter & _ & tail & Hlog & Htail & Hbt).
  exists st. split; [exact Hrun|].
  rewrite Hvalid, Hiter, Hlog, rejections_app, attempted_app, Htail.
  unfold Log.attempted at 2. rewrite Hbt. simpl. rewrite !Nat.add_0_r.
  apply rejected_run_loop in Hloop; [|exact Hrejected|].
  - destruct Hloop as (H0 & H1 & H2 & H3 & H4 & H5 & H6).
    split; [assumption|]. split; [assumption|]. split; [assumption|].
    split; [assumption|]. split; [assumption|].
    intros Hne Htypes.
    assert (Hbal : ResearchService._select_sources_for_extraction
                     search_results query <> [])
      by (apply select_sources_nonempty; [lia|assumption|assumption]).
    apply H6; [exact Hbal|]. apply H0; [lia|assumption].
  - unfold Log.rejected_run_inv, ResearchService.max_iterations. simpl.
    split; [reflexivity|]. split; [reflexivity|]. split; [lia|]. split; [lia|].
    split; [left; reflexivity|]. split; [reflexivity|]. intros _ Hle. lia.
Qed.

(** Four web candidates, every one of them rejected. *)
Lemma rejected_run_terminates_empty_witness :
  exists st,
    ResearchService._extract_valid_content Scenario.rejecting_resolve
      Scenario.abcd (Scenario.web_query 2) [] = Some st /\
    ResearchService.valid_content st = [] /\
    ResearchService.iteration_count st <= 5 /\
    1 <= Log.rejections (ResearchService.log st).
Proof.
  destruct (rejected_run_terminates_empty Scenario.rejecting_resolve
              Scenario.abcd (Scenario.web_query 2) [])
    as (st & Hrun & Hvalid & Hcap & _ & _ & _ & Hlog).
  - split; [vm_compute; discriminate|simpl; lia].
  - intros n i source. reflexivity.
  - exists st. split; [exact Hrun|]. split; [exact Hvalid|]. split; [exact Hcap|].
    apply Hlog; [discriminate|].
    repeat constructor.
Defined.

(* ===================================================================== *)
(** ** Extraction orchestrator: three rejected candidates, target one *)
(* ===================================================================== *)

Section ThreeRejected.
Import ResearchService Log.

Variable resolve : nat -> nat -> SearchResult -> Raises ExtractedContent.
Variables c0 c1 c2 : SearchResult.
Variable query : ResearchQuery.
Variable errors0 : list string.

Hypothesis single_scope : sources query <> BOTH.
Hypothesis target_1 : num_results query = 1.
Hypothesis rejected_c0 : accepted (resolve 1 0 c0) = false.

(** The one pass of the run: the batch is the balanced selection, the
    single candidate [c0]; the counter moves on by the batch size 3. *)
Lemma three_rejected_first_pass :
  exists st1,
    loop_body resolve [c0; c1; c2] query 3 [c0]
      {| valid_content := []; tried_sources := ∅; errors := errors0;
         source_index := 0; iteration_count := 0; log := [] |} = (false, st1) /\
    valid_content st1 = [] /\
    iteration_count st1 = 1 /\
    source_index st1 = 3 /\
    tried_sources st1 = {[ sr_url c0 ]} /\
    errors st1 =
      errors0 ++
      match resolve 1 0 c0 with
      | Raise e =>
          [ "Content extraction failed for " +:+ sr_url c0 +:+ ": "
              +:+ Py.take 100 e ]
      | Return _ => []
      end /\
    batches (log st1) = [[c0]] /\
    rejections (log st1) = 1 /\
    In (LogNeedMore 1 1) (log st1).
Proof.
  unfold loop_body.
  cbn [next_iteration source_index iteration_count valid_content tried_sources
       errors log Nat.eqb negb andb firstn gather].
  rewrite target_1.
  match goal with
  | |- context [resolve ?n 0 c0] => change n with 1
  end.
  cbn [filter_batch].
  destruct (resolve 1 0 c0) as [e|content] eqn:Hres.
  - eexists. split; [reflexivity|].
    split; [reflexivity|]. split; [reflexivity|]. split; [reflexivity|].
    split; [apply (right_id_L ∅ (∪))|].
    split; [reflexivity|]. split; [reflexivity|]. split; [reflexivity|].
    right. right. now left.
  - cbn [accepted] in rejected_c0.
    destruct (validation_failed content) eqn:Hv.
    + eexists. split; [reflexivity|].
      split; [reflexivity|]. split; [reflexivity|]. split; [reflexivity|].
      split; [apply (right_id_L ∅ (∪))|].
      split; [symmetry; apply app_nil_r|].
      split; [reflexivity|]. split; [reflexivity|].
      right. right. now left.
    + destruct (insufficient content) eqn:Hi; [|discriminate].
      eexists. split; [reflexivity|].
      split; [reflexivity|]. split; [reflexivity|]. split; [reflexivity|].
      split; [apply (right_id_L ∅ (∪))|].
      split; [symmetry; apply app_nil_r|].
      split; [reflexivity|]. split; [reflexivity|].
      right. right. now left.
Qed.

End ThreeRejected.

(** C10 (the code departs from it).  The claim: when every resolution
    attempt is rejected, the orchestrator stops once its five passes are
    made or the candidates are used up, with an empty accepted list, a
    populated error and skip log and no exception.  With three candidates
    and a target of one under a single scope, every attempt being rejected,
    the run does return an empty accepted list and notes the rejection
    (in [errors] too when the task raised), but it stops after one pass:
    the only batch is the first candidate, the note that one more source
    is needed and that the run goes on is logged, and the loop ends there,
    with the other two candidates never tried and four passes to spare. *)
Theorem rejected_run_leaves_candidates_untried
    (resolve : nat -> nat -> SearchResult -> Raises ExtractedContent)
    (c0 c1 c2 : SearchResult) (query : ResearchQuery) (errors0 : list string) :
  sources query <> BOTH ->
  num_results query = 1 ->
  (forall n i source, ResearchService.accepted (resolve n i source) = false) ->
  sr_url c1 <> sr_url c0 ->
  sr_url c2 <> sr_url c0 ->
  exists st,
    ResearchService._extract_valid_content resolve [c0; c1; c2] query errors0
      = Some st /\
    ResearchService.valid_content st = [] /\
    ResearchService.iteration_count st = 1 /\
    ResearchService.iteration_count st < ResearchService.max_iterations /\
    Log.batches (ResearchService.log st) = [[c0]] /\
    ResearchService.tried_sources st = {[ sr_url c0 ]} /\
    (sr_url c1 ∉ ResearchService.tried_sources st) /\
    (sr_url c2 ∉ ResearchService.tried_sources st) /\
    ResearchService.errors st =
      errors0 ++
      match resolve 1 0 c0 with
      | Raise e =>
          [ "Content extraction failed for " +:+ sr_url c0 +:+ ": "
              +:+ Py.take 100 e ]
      | Return _ => []
      end /\
    Log.rejections (ResearchService.log st) = 1 /\
    In (ResearchService.LogNeedMore 1 1) (ResearchService.log st).
Proof.
  intros Hscope Htarget Hrejected Hc1 Hc2.
  destruct (three_rejected_first_pass resolve c0 c1 c2 query errors0
              Htarget (Hrejected 1 0 c0))
    as (st1 & Hbody & Hv1 & Hi1 & Hs1 & Ht1 & He1 & Hb1 & Hr1 & Hn1).
  destruct (extract_valid_content_result resolve [c0; c1; c2] query errors0)
    as (st_loop & st & Hloop & Hst & Hval & Herr & Hit & Htried & tail & Hlog
        & Hrej & Hbat).
  assert (Hsel : ResearchService._select_sources_for_extraction [c0; c1; c2] query
                 = [c0]).
  { unfold ResearchService._select_sources_for_extraction. rewrite Htarget.
    destruct (sources query); [reflexivity|reflexivity|congruence]. }
  rewrite Hsel in Hloop. cbn [length Nat.min] in Hloop.
  change ResearchService.max_iterations with (S 4) in Hloop.
  rewrite (while_loop_continue resolve [c0; c1; c2] query _ _ _ _ st1) in Hloop;
    [|unfold ResearchService.loop_condition; rewrite Htarget; reflexivity
     |exact Hbody].
  rewrite while_loop_exit in Hloop
    by (unfold ResearchService.loop_condition; rewrite Hs1;
        cbn [length Nat.ltb Nat.leb]; now rewrite andb_false_r).
  injection Hloop as <-.
  exists st. split; [exact Hst|].
  rewrite Hval, Hit, Htried, Herr, Hlog, batches_app, rejections_app, Hbat, Hrej,
    Hv1, Hi1, Ht1, He1, Hb1, Hr1.
  unfold ResearchService.max_iterations.
  repeat split; try reflexivity; try lia.
  - intros Hin. apply elem_of_singleton in Hin. contradiction.
  - intros Hin. apply elem_of_singleton in Hin. contradiction.
  - apply in_or_app. now left.
Qed.

(** Three web candidates, every one of them rejected, with a target of 1. *)
Lemma rejected_run_leaves_candidates_untried_witness :
  exists st,
    ResearchService._extract_valid_content Scenario.rejecting_resolve
      [ Scenario.candidate "A"; Scenario.candidate "B"; Scenario.candidate "C" ]
      (Scenario.web_query 1) [] = Some st /\
    ResearchService.iteration_count st = 1 /\
    Log.batches (ResearchService.log st) = [[ Scenario.candidate "A" ]] /\
    (sr_url (Scenario.candidate "B") ∉ ResearchService.tried_sources st) /\
    (sr_url (Scenario.candidate "C") ∉ ResearchService.tried_sources st).
Proof.
  destruct (rejected_run_leaves_candidates_untried Scenario.rejecting_resolve
              (Scenario.candidate "A") (Scenario.candidate "B")
              (Scenario.candidate "C") (Scenario.web_query 1) [])
    as (st & Hst & _ & Hit & _ & Hb & _ & HB & HC & _).
  - discriminate.
  - reflexivity.
  - intros n i source. reflexivity.
  - vm_compute. discriminate.
  - vm_compute. discriminate.
  - exists st. auto.
Defined.

(* ===================================================================== *)
(** ** Extraction orchestrator: four candidates, target two *)
(* ===================================================================== *)

Section FourCandidates.
Import ResearchService.

Variable resolve : nat -> nat -> SearchResult -> Raises ExtractedContent.
Variables A B C D : SearchResult.
Variables cA cC cD : ExtractedContent.
Variable query : ResearchQuery.

Hypothesis target_2 : num_results query = 2.
Hypothesis distinct_urls : NoDup [sr_url A; sr_url B; sr_url C; sr_url D].
Hypothesis resolve_A : forall n i, resolve n i A = Return cA.
Hypothesis resolve_C : forall n i, resolve n i C = Return cC.
Hypothesis resolve_D : forall n i, resolve n i D = Return cD.
Hypothesis valid_A : accepted (Return cA) = true.
Hypothesis valid_C : accepted (Return cC) = true.
Hypothesis valid_D : accepted (Return cD) = true.
Hypothesis invalid_B : forall n i, accepted (resolve n i B) = false.

Ltac run_state :=
  cbn [valid_content tried_sources errors source_index iteration_count log
       add_log add_tried add_error add_valid next_iteration advance fst snd
       length app firstn Nat.ltb Nat.leb Nat.eqb negb andb orb gather
       filter_batch List.filter Nat.add Nat.sub Nat.min loop_condition
       Log.batches].

Ltac decide_tried :=
  repeat match goal with
         | |- context [bool_decide (?x ∈ ?X)] =>
             first [ rewrite (bool_decide_eq_true_2 (x ∈ X))
                       by (rewrite ?elem_of_union, ?elem_of_singleton; tauto)
                   | rewrite (bool_decide_eq_false_2 (x ∈ X))
                       by (rewrite ?elem_of_union, ?elem_of_singleton, ?elem_of_empty;
                           intuition congruence) ]
         end.

Lemma accepted_inv (content : ExtractedContent) :
  accepted (Return content) = true ->
  validation_failed content = false /\ insufficient content = false.
Proof.
  simpl. intros H. apply andb_prop in H as [H1 H2].
  now apply negb_true_iff in H1, H2.
Qed.

Lemma urls_distinct :
  sr_url A <> sr_url B /\ sr_url A <> sr_url C /\ sr_url A <> sr_url D /\
  sr_url B <> sr_url C /\ sr_url B <> sr_url D /\ sr_url C <> sr_url D.
Proof.
  revert distinct_urls. rewrite !NoDup_cons, !not_elem_of_cons.
  intuition congruence.
Qed.

(** The loop when the first batch is [[A; B]]: a second batch [[C; D]]
    is needed. *)
Lemma loop_first_batch_A_B :
  exists st,
    while_loop resolve [A; B; C; D] query 3 [A; B] max_iterations
      {| valid_content := []; tried_sources := ∅; errors := [];
         source_index := 0; iteration_count := 0; log := [] |} = Some st /\
    valid_content st = [cA; cC] /\
    iteration_count st = 2 /\
    Log.batches (log st) = [[A; B]; [C; D]].
Proof.
  destruct (accepted_inv cA valid_A) as [HvA HiA].
  destruct (accepted_inv cC valid_C) as [HvC HiC].
  destruct urls_distinct as (HAB & HAC & HAD & HBC & HBD & HCD).
  unfold max_iterations.
  assert (Hpass1 : exists st1,
             loop_body resolve [A; B; C; D] query 3 [A; B]
               {| valid_content := []; tried_sources := ∅; errors := [];
                  source_index := 0; iteration_count := 0; log := [] |}
             = (false, st1) /\
             valid_content st1 = [cA] /\
             tried_sources st1 = {[ sr_url B ]} ∪ ({[ sr_url A ]} ∪ ∅) /\
             source_index st1 = 3 /\ iteration_count st1 = 1 /\
             Log.batches (log st1) = [[A; B]]).
  { unfold loop_body. run_state. rewrite resolve_A.
    pose proof (invalid_B 1 1) as HB.
    destruct (resolve 1 1 B) as [e|cB]; run_state;
      rewrite ?HvA, ?HiA, ?target_2; run_state.
    - eexists. split; [reflexivity|]. now run_state.
    - simpl in HB. destruct (validation_failed cB); run_state.
      + eexists. split; [reflexivity|]. now run_state.
      + destruct (insufficient cB); [|discriminate]. run_state.
        eexists. split; [reflexivity|]. now run_state. }
  destruct Hpass1 as (st1 & Hbody1 & Hv1 & Ht1 & Hs1 & Hi1 & Hb1).
  erewrite while_loop_continue; [| |exact Hbody1];
    [|unfold loop_condition; rewrite target_2; reflexivity].
  assert (Hpass2 : exists st2,
             loop_body resolve [A; B; C; D] query 3 [A; B] st1 = (false, st2) /\
             valid_content st2 = [cA; cC] /\
             iteration_count st2 = 2 /\
             Log.batches (log st2) = [[A; B]; [C; D]]).
  { unfold loop_body. run_state. rewrite Hs1, Ht1, Hi1. run_state.
    decide_tried. run_state.
    rewrite resolve_C, HvC, HiC, Hv1, target_2. run_state.
    eexists. split; [reflexivity|].
    rewrite Hv1. run_state. rewrite Hv1, Hi1, !batches_app, Hb1. now run_state. }
  destruct Hpass2 as (st2 & Hbody2 & Hv2 & Hi2 & Hb2).
  erewrite while_loop_continue; [| |exact Hbody2];
    [|unfold loop_condition; rewrite target_2, Hv1, Hs1, Hi1; reflexivity].
  rewrite while_loop_exit;
    [|unfold loop_condition; rewrite target_2, Hv2; reflexivity].
  eauto.
Qed.

(** The loop when the first batch is [[A; C]]: the target is met at once. *)
Lemma loop_first_batch_A_C :
  exists st,
    while_loop resolve [A; B; C; D] query 3 [A; C] max_iterations
      {| valid_content := []; tried_sources := ∅; errors := [];
         source_index := 0; iteration_count := 0; log := [] |} = Some st /\
    valid_content st = [cA; cC] /\
    iteration_count st = 1 /\
    Log.batches (log st) = [[A; C]].
Proof.
  destruct (accepted_inv cA valid_A) as [HvA HiA].
  destruct (accepted_inv cC valid_C) as [HvC HiC].
  unfold max_iterations.
  erewrite while_loop_continue;
    [|unfold loop_condition; rewrite target_2; reflexivity
     |unfold loop_body; run_state;
      rewrite resolve_A, resolve_C; run_state;
      rewrite HvA, HiA, target_2; run_state;
      rewrite HvC, HiC; run_state; reflexivity].
  rewrite while_loop_exit; [|unfold loop_condition; rewrite target_2; reflexivity].
  eexists. split; [reflexivity|]. now run_state.
Qed.

(** The balancer on [[A; B; C; D]] with target 2. *)
Lemma select_single_scope :
  sources query <> BOTH ->
  _select_sources_for_extraction [A; B; C; D] query = [A; B].
Proof.
  intros Hscope. unfold _select_sources_for_extraction. rewrite target_2.
  destruct (sources query); try reflexivity. contradiction.
Qed.

Lemma select_both_scope :
  sources query = BOTH ->
  source_type A = "web" -> source_type B = "web" -> source_type C = "academic" ->
  _select_sources_for_extraction [A; B; C; D] query = [A; C].
Proof.
  intros Hscope HtA HtB HtC.
  unfold _select_sources_for_extraction. rewrite target_2, Hscope.
  assert (Hweb : of_type "web" [A; B; C; D] = A :: B :: of_type "web" [D])
    by (unfold of_type; cbn [List.filter]; now rewrite HtA, HtB, HtC).
  assert (Hacad : of_type "academic" [A; B; C; D] = C :: of_type "academic" [D])
    by (unfold of_type; cbn [List.filter]; now rewrite HtA, HtB, HtC).
  rewrite Hweb, Hacad.
  change (Nat.max 1 (2 / 2)) with 1.
  cbn [length Nat.max seq interleave nth_error app Nat.leb].
  replace (of_type "web" []) with (@nil SearchResult) by reflexivity.
  cbn [length Nat.ltb Nat.leb app].
  replace (of_type "academic" [A]) with (@nil SearchResult)
    by (unfold of_type; cbn [List.filter]; now rewrite HtA).
  cbn [length Nat.ltb Nat.leb app].
  destruct (seq 1 _); reflexivity.
Qed.

End FourCandidates.

(** C3 (amended).  Target 2, candidates [[A; B; C; D]] with pairwise
    distinct urls (so the batch size is 3), A, C and D resolving to
    acceptable content and B to rejected content.  The first batch is the
    balancer's selection, which has at most two candidates.
    - Under a single-provenance scope it is [[A; B]]: it resolves fully and
      only A is accepted; a second batch [[C; D]] is issued, C is accepted
      and the loop stops after that second pass with [[cA; cC]].
    - Under scope "both" with A and B web and C academic it is [[A; C]]:
      both are accepted and the loop stops after this one pass with
      [[cA; cC]]. *)
Theorem four_candidates_target_two
    (resolve : nat -> nat -> SearchResult -> Raises ExtractedContent)
    (A B C D : SearchResult) (cA cC cD : ExtractedContent)
    (query : ResearchQuery) :
  num_results query = 2 ->
  NoDup [sr_url A; sr_url B; sr_url C; sr_url D] ->
  (forall n i, resolve n i A = Return cA) ->
  (forall n i, resolve n i C = Return cC) ->
  (forall n i, resolve n i D = Return cD) ->
  ResearchService.accepted (Return cA) = true ->
  ResearchService.accepted (Return cC) = true ->
  ResearchService.accepted (Return cD) = true ->
  (forall n i, ResearchService.accepted (resolve n i B) = false) ->
  (sources query <> BOTH ->
   exists st,
     ResearchService._extract_valid_content resolve [A; B; C; D] query [] = Some st /\
     ResearchService.valid_content st = [cA; cC] /\
     ResearchService.iteration_count st = 2 /\
     Log.batches (ResearchService.log st) = [[A; B]; [C; D]]) /\
  (sources query = BOTH ->
   source_type A = "web" -> source_type B = "web" -> source_type C = "academic" ->
   exists st,
     ResearchService._extract_valid_content resolve [A; B; C; D] query [] = Some st /\
     ResearchService.valid_content st = [cA; cC] /\
     ResearchService.iteration_count st = 1 /\
     Log.batches (ResearchService.log st) = [[A; C]]).
Proof.
  intros Htarget Hurls HrA HrC HrD HvA HvC HvD HrB.
  destruct (extract_valid_content_result resolve [A; B; C; D] query [])
    as (st_loop & st & Hloop & Hrun & Hvalid & _ & Hiter & _ & tail & Hlog & _ & Hbt).
  cbn [length Nat.min] in Hloop.
  split.
  - intros Hscope.
    rewrite (select_single_scope A B C D query Htarget Hscope) in Hloop.
    destruct (loop_first_batch_A_B resolve A B C D cA cC query
                Htarget Hurls HrA HrC HvA HvC HrB) as (st' & Hloop' & Hv & Hi & Hb).
    rewrite Hloop in Hloop'. inversion Hloop'; subst st'.
    exists st. rewrite Hvalid, Hiter, Hlog, batches_app, Hbt, app_nil_r. auto.
  - intros Hscope HtA HtB HtC.
    rewrite (select_both_scope A B C D query Htarget Hscope HtA HtB HtC) in Hloop.
    destruct (loop_first_batch_A_C resolve A B C D cA cC query
                Htarget HrA HrC HvA HvC) as (st' & Hloop' & Hv & Hi & Hb).
    rewrite Hloop in Hloop'. inversion Hloop'; subst st'.
    exists st. rewrite Hvalid, Hiter, Hlog, batches_app, Hbt, app_nil_r. auto.
Qed.

(** C3 (as stated, it fails).  The four web candidates A, B, C, D of the
    scenario, B rejected, target 2, scope "web": the accepted list is the
    content of A then of C, but the first batch is [[A; B]] and the loop
    issues a second batch [[C; D]]; it does not stop after its first pass. *)
Lemma abcd_needs_second_batch :
  exists st,
    ResearchService._extract_valid_content Scenario.abcd_resolve Scenario.abcd
      (Scenario.web_query 2) [] = Some st /\
    ResearchService.valid_content st =
      [ Scenario.acceptable_content (Scenario.candidate "A");
        Scenario.acceptable_content (Scenario.candidate "C") ] /\
    ResearchService.iteration_count st <> 1 /\
    Log.batches (ResearchService.log st) =
      [ [Scenario.candidate "A"; Scenario.candidate "B"];
        [Scenario.candidate "C"; Scenario.candidate "D"] ].
Proof.
  eexists. split; [vm_compute; reflexivity|].
  vm_compute. repeat split. discriminate.
Qed.

(** The four web candidates of the scenario under scope "web". *)
Lemma four_candidates_target_two_witness :
  exists st,
    ResearchService._extract_valid_content Scenario.abcd_resolve Scenario.abcd
      (Scenario.web_query 2) [] = Some st /\
    ResearchService.valid_content st =
      [ Scenario.acceptable_content (Scenario.candidate "A");
        Scenario.acceptable_content (Scenario.candidate "C") ] /\
    ResearchService.iteration_count st = 2 /\
    Log.batches (ResearchService.log st) =
      [ [Scenario.candidate "A"; Scenario.candidate "B"];
        [Scenario.candidate "C"; Scenario.candidate "D"] ].
Proof.
  refine (proj1 (four_candidates_target_two Scenario.abcd_resolve
                   (Scenario.candidate "A") (Scenario.candidate "B")
                   (Scenario.candidate "C") (Scenario.candidate "D")
                   (Scenario.acceptable_content (Scenario.candidate "A"))
                   (Scenario.acceptable_content (Scenario.candidate "C"))
                   (Scenario.acceptable_content (Scenario.candidate "D"))
                   (Scenario.web_query 2) _ _ _ _ _ _ _ _ _) _).
  - reflexivity.
  - apply (bool_decide_unpack _). vm_compute. exact I.
  - intros n i. reflexivity.
  - intros n i. reflexivity.
  - intros n i. reflexivity.
  - vm_compute. reflexivity.
  - vm_compute. reflexivity.
  - vm_compute. reflexivity.
  - intros n i. vm_compute. reflexivity.
  - simpl. discriminate.
Defined.

(* ===================================================================== *)
(** ** Content resolver: PDF responses *)
(* ===================================================================== *)

(** C9.  When the content-type of the fetched response names a PDF, the
    resolver returns the placeholder before the parser is called: whatever
    parser it is given, the result is the same.  The placeholder is titled
    "PDF Document" and has [error = None]; its body is the fixed notice
    that the contents cannot be extracted, the same for every document,
    so it holds nothing of the document, and the resolver's own validity
    filter rejects it. *)
Theorem extract_pdf_placeholder (cfg : ContentConfig)
    (http_get : string -> Raises Response)
    (BeautifulSoup : string -> Raises Soup) (url : string) (response : Response) :
  http_get url = Return response ->
  Py.contains "application/pdf"
    (Py.lower (default "" (content_type response))) = true ->
  let content := ContentExtractor.extract cfg http_get BeautifulSoup url in
  (forall parser, ContentExtractor.extract cfg http_get parser url = content) /\
  content = ContentExtractor.pdf_placeholder url /\
  ec_title content = "PDF Document" /\
  ec_error content = None /\
  ec_content content = "[PDF document - contents cannot be extracted directly]" /\
  ContentExtractor._is_valid_content (ec_content content)
    (ec_description content) (ec_title content) = false.
Proof.
  intros Hget Hpdf content. unfold content.
  split.
  - intros parser.
    now rewrite !(extract_pdf cfg http_get _ url response Hget Hpdf).
  - rewrite (extract_pdf cfg http_get BeautifulSoup url response Hget Hpdf).
    repeat split.
Qed.

(** A network that serves a PDF and a parser that would fail if called. *)
Lemma extract_pdf_placeholder_witness :
  ContentExtractor.extract default_content_config Scenario.pdf_network
    Scenario.failing_parser "https://example.com/paper.pdf"
  = ContentExtractor.pdf_placeholder "https://example.com/paper.pdf".
Proof.
  refine (proj1 (proj2 (extract_pdf_placeholder default_content_config
                          Scenario.pdf_network Scenario.failing_parser
                          "https://example.com/paper.pdf" Scenario.pdf_response
                          _ _))).
  - reflexivity.
  - vm_compute. reflexivity.
Defined.

(** The orchestrator does not consult the validity filter: its own two
    tests look at the error text and at the length of the body, and the 54
    characters of the notice pass the second.  Run on the one candidate
    whose url serves a PDF, with target 1, the orchestrator keeps the
    placeholder. *)
Lemma pdf_placeholder_is_accepted :
  let content :=
    ContentExtractor.extract default_content_config Scenario.pdf_network
      Scenario.failing_parser (sr_url Scenario.pdf_candidate) in
  ec_content content <> "" /\
  ResearchService.insufficient content = false /\
  exists st,
    ResearchService._extract_valid_content Scenario.pdf_resolve
      [Scenario.pdf_candidate] (Scenario.web_query 1) [] = Some st /\
    ResearchService.valid_content st = [content].
Proof.
  split; [vm_compute; discriminate|].
  split; [vm_compute; reflexivity|].
  eexists. split; vm_compute; reflexivity.
Qed.
(* ===================================================================== *)
(** ** Character classes *)
(* ===================================================================== *)

Section CharacterClasses.
Import Py PyMore.

(** The whitespace of [isspace], [strip], [split] and [\s], by code point. *)
Lemma isspace_codes :
  List.filter (fun n => isspace (ascii_of_nat n)) (seq 0 256) =
  [9; 10; 11; 12; 13; 28; 29; 30; 31; 32; 133; 160].
Proof. vm_compute. reflexivity. Qed.

(** The word characters of [\w], by code point. *)
Lemma is_word_char_codes :
  List.filter (fun n => is_word_char (ascii_of_nat n)) (seq 0 256) =
  seq 48 10 ++ seq 65 26 ++ [95] ++ seq 97 26 ++
  [170; 178; 179; 181; 185; 186; 188; 189; 190] ++
  seq 192 23 ++ seq 216 31 ++ seq 248 8.
Proof. vm_compute. reflexivity. Qed.

(** The characters that [lower] changes, and where it sends them. *)
Lemma lower_char_codes :
  List.filter (fun n => negb (nat_of_ascii (lower_char (ascii_of_nat n)) =? n))
    (seq 0 256) =
  seq 65 26 ++ seq 192 23 ++ seq 216 7 /\
  Forall (fun n => nat_of_ascii (lower_char (ascii_of_nat n)) = n + 32)
    (seq 65 26 ++ seq 192 23 ++ seq 216 7).
Proof.
  split; [vm_compute; reflexivity|].
  cbn [seq app].
  repeat (constructor; [vm_compute; reflexivity|]). constructor.
Qed.

(** The no-break space U+00A0 is whitespace: a query made of it is blank,
    and [strip] removes it from the end of a text of 49 other characters,
    which the validity filter then finds too short. *)
Lemma no_break_space_is_stripped :
  ResearchQuery_init (String (ascii_of_nat 160) "") (SourceStr "web") 2 =
    Raise "Query cannot be empty" /\
  ContentExtractor._is_valid_content
    (repeat_str "a" 24 +:+ "." +:+ repeat_str "b" 24
       +:+ String (ascii_of_nat 160) "") "" "" = false.
Proof. split; vm_compute; reflexivity. Qed.

(** An accented letter is a word character: [clean_text] keeps it. *)
Lemma clean_text_keeps_accented_letter :
  TextUtils.clean_text (Some ("caf" +:+ String (ascii_of_nat 233) "")) =
  "caf" +:+ String (ascii_of_nat 233) "".
Proof. vm_compute. reflexivity. Qed.

End CharacterClasses.


(* ===================================================================== *)
(** ** Substrings *)
(* ===================================================================== *)

Section SubstringFacts.
Import Py PyMore.

Lemma append_cons (c : ascii) (s t : string) :
  String c s +:+ t = String c (s +:+ t).
Proof. reflexivity. Qed.

Lemma append_nil_r (s : string) : s +:+ "" = s.
Proof. induction s as [|c s IH]; [reflexivity|]. now rewrite append_cons, IH. Qed.

Lemma append_assoc (s t u : string) : (s +:+ t) +:+ u = s +:+ (t +:+ u).
Proof. induction s as [|c s IH]; [reflexivity|]. now rewrite !append_cons, IH. Qed.

Lemma prefix_nil (s : string) : String.prefix "" s = true.
Proof. destruct s; reflexivity. Qed.

Lemma prefix_cons (c : ascii) (p s : string) :
  String.prefix (String c p) (String c s) = String.prefix p s.
Proof. simpl. destruct (ascii_dec c c); [reflexivity|contradiction]. Qed.

Lemma prefix_app_l (p a b : string) :
  String.prefix p a = true -> String.prefix p (a +:+ b) = true.
Proof.
  revert a. induction p as [|c p IH]; intros a H; [apply prefix_nil|].
  destruct a as [|d a]; [discriminate|].
  rewrite append_cons. simpl in *. destruct (ascii_dec c d); [auto|discriminate].
Qed.

Lemma prefix_refl (p : string) : String.prefix p p = true.
Proof. induction p as [|c p IH]; [reflexivity|]. now rewrite prefix_cons. Qed.

Lemma prefix_self_app (p b : string) : String.prefix p (p +:+ b) = true.
Proof. apply prefix_app_l, prefix_refl. Qed.

Lemma prefix_len (p s : string) : String.prefix p s = true -> len p <= len s.
Proof.
  unfold len. revert s. induction p as [|c p IH]; intros s H; simpl; [lia|].
  destruct s as [|d s]; [discriminate|]. simpl in *.
  destruct (ascii_dec c d); [|discriminate]. apply IH in H. lia.
Qed.

Lemma contains_prefix (p s : string) :
  String.prefix p s = true -> contains p s = true.
Proof. intros H. destruct s; cbn [contains]; rewrite H; reflexivity. Qed.

Lemma contains_cons (p : string) (c : ascii) (s : string) :
  contains p s = true -> contains p (String c s) = true.
Proof. intros H. cbn [contains]. rewrite H. apply orb_true_r. Qed.

Lemma contains_app_l (p a b : string) :
  contains p a = true -> contains p (a +:+ b) = true.
Proof.
  induction a as [|c a IH]; intros H.
  - cbn [contains] in H. rewrite orb_false_r in H.
    apply contains_prefix. now apply prefix_app_l.
  - cbn [contains] in H. apply orb_prop in H as [H|H].
    + apply contains_prefix. now apply prefix_app_l.
    + rewrite append_cons. apply contains_cons. auto.
Qed.

Lemma contains_app_r (p a b : string) :
  contains p b = true -> contains p (a +:+ b) = true.
Proof.
  intros H. induction a as [|c a IH]; [exact H|].
  rewrite append_cons. now apply contains_cons.
Qed.

Lemma contains_refl (p : string) : contains p p = true.
Proof. apply contains_prefix, prefix_refl. Qed.

Lemma contains_self_app (p b : string) : contains p (p +:+ b) = true.
Proof. apply contains_prefix, prefix_self_app. Qed.

Lemma lower_app (s t : string) : lower (s +:+ t) = lower s +:+ lower t.
Proof.
  induction s as [|c s IH]; [reflexivity|].
  rewrite append_cons. simpl. now rewrite IH.
Qed.

Lemma all_chars_app (f : ascii -> bool) (s t : string) :
  all_chars f (s +:+ t) = all_chars f s && all_chars f t.
Proof.
  induction s as [|c s IH]; [reflexivity|].
  rewrite append_cons. simpl. rewrite IH. now rewrite andb_assoc.
Qed.

Lemma all_chars_impl (f g : ascii -> bool) (s : string) :
  (forall c, f c = true -> g c = true) ->
  all_chars f s = true -> all_chars g s = true.
Proof.
  intros Hfg. induction s as [|c s IH]; simpl; [auto|].
  intros H. apply andb_prop in H as [H1 H2]. rewrite (Hfg c H1). auto.
Qed.

Lemma len_le_take (n : nat) (s : string) : len (take n s) <= n.
Proof. rewrite len_take. lia. Qed.

End SubstringFacts.

(** Find an occurrence in a text built by appending. *)
Ltac find_occurrence :=
  first [ apply contains_refl
        | apply contains_self_app
        | apply contains_app_l; find_occurrence
        | apply contains_app_r; find_occurrence
        | apply contains_cons; find_occurrence ].

(* ===================================================================== *)
(** ** [format_output]: what the text shows *)
(* ===================================================================== *)

Section FormatOutputShows.
Import Py.

(** X1.  With a budget of at least 40 characters, the length of the marker,
    the formatted text never exceeds the budget, whether it was cut or not. *)
Theorem format_output_within_budget (r : ResearchResult) (max_size : Z) :
  (40 <= max_size)%Z ->
  (Z.of_nat (len (format_output r max_size)) <= max_size)%Z.
Proof.
  intros Hmin.
  destruct (Z.lt_ge_cases max_size (Z.of_nat (len (format_untruncated r))))
    as [Hlong|Hfits].
  - rewrite format_output_cut_fits; [lia|assumption|assumption].
  - unfold format_output.
    destruct (Z.ltb_spec max_size (Z.of_nat (len (format_untruncated r)))); lia.
Qed.

Lemma format_output_within_budget_witness :
  (Z.of_nat (len (format_output Scenario.truncation_test_result 100)) <= 100)%Z.
Proof. apply format_output_within_budget. lia. Defined.

Lemma format_content_shows (c : ExtractedContent) (j : nat) :
  if truthy_opt (ec_error c)
  then contains (default "" (ec_error c)) (format_content j c) = true
  else contains (ec_title c) (format_content j c) = true /\
       contains (ec_url c) (format_content j c) = true /\
       contains (ec_description c) (format_content j c) = true /\
       contains (ec_content c) (format_content j c) = true.
Proof.
  unfold format_content.
  destruct (truthy_opt (ec_error c)); cbv beta zeta iota.
  - do 2 apply contains_app_r. apply contains_self_app.
  - split; [|split; [|split]].
    + apply contains_app_l. do 5 apply contains_app_r. apply contains_self_app.
    + apply contains_app_r, contains_app_l, contains_app_r, contains_self_app.
    + do 2 apply contains_app_r.
      apply contains_app_l, contains_app_r, contains_self_app.
    + do 5 apply contains_app_r. apply contains_self_app.
Qed.

Lemma format_contents_shows (c : ExtractedContent) (l : list ExtractedContent)
    (i : nat) (field : string) :
  In c l ->
  (forall j, contains field (format_content j c) = true) ->
  contains field (format_contents i l) = true.
Proof.
  intros Hin Hfield. revert i.
  induction l as [|d l IH]; intros i; [destruct Hin|].
  cbn [format_contents]. destruct Hin as [->|Hin].
  - apply contains_app_l, Hfield.
  - apply contains_app_r, IH, Hin.
Qed.

Lemma format_search_results_shows (s : SearchResult) (l : list SearchResult)
    (i : nat) :
  In s l ->
  contains (sr_title s) (format_search_results i l) = true /\
  contains (sr_url s) (format_search_results i l) = true /\
  contains (sr_snippet s) (format_search_results i l) = true.
Proof.
  intros Hin. revert i.
  induction l as [|d l IH]; intros i; [destruct Hin|].
  cbn [format_search_results]. destruct Hin as [->|Hin].
  - repeat split; find_occurrence.
  - destruct (IH Hin (S i)) as (H1 & H2 & H3).
    repeat split; do 3 apply contains_app_r; assumption.
Qed.

Lemma format_errors_shows (e : string) (l : list string) :
  In e l -> contains e (format_errors l) = true.
Proof.
  intros Hin. induction l as [|d l IH]; [destruct Hin|].
  cbn [format_errors]. destruct Hin as [->|Hin].
  - find_occurrence.
  - apply contains_app_r, IH, Hin.
Qed.

Lemma format_output_fits (r : ResearchResult) (max_size : Z) :
  (Z.of_nat (len (format_untruncated r)) <= max_size)%Z ->
  format_output r max_size = format_untruncated r.
Proof.
  intros Hfits. unfold format_output.
  destruct (Z.ltb_spec max_size (Z.of_nat (len (format_untruncated r)))); [lia|].
  reflexivity.
Qed.

(** X2.  When the text fits the budget, every extracted content is shown:
    one without an error with its title, url, description and body
    verbatim, one with an error with its error text. *)
Theorem format_output_shows_content (r : ResearchResult) (max_size : Z)
    (c : ExtractedContent) :
  (Z.of_nat (len (format_untruncated r)) <= max_size)%Z ->
  In c (extracted_content r) ->
  if truthy_opt (ec_error c)
  then contains (default "" (ec_error c)) (format_output r max_size) = true
  else contains (ec_title c) (format_output r max_size) = true /\
       contains (ec_url c) (format_output r max_size) = true /\
       contains (ec_description c) (format_output r max_size) = true /\
       contains (ec_content c) (format_output r max_size) = true.
Proof.
  intros Hfits Hin. rewrite (format_output_fits r max_size Hfits).
  assert (Hblock : forall field,
             (forall j, contains field (format_content j c) = true) ->
             contains field (format_untruncated r) = true).
  { intros field Hfield. unfold format_untruncated. cbv beta zeta.
    do 3 apply contains_app_r. apply contains_app_l.
    destruct (extracted_content r) as [|d l] eqn:Hl; [destruct Hin|].
    apply contains_app_r. now apply (format_contents_shows c). }
  pose proof (format_content_shows c) as Hshow.
  destruct (truthy_opt (ec_error c)).
  - apply Hblock. exact Hshow.
  - repeat split; apply Hblock; intros j; apply (Hshow j).
Qed.

Lemma format_output_shows_content_witness :
  contains (repeat_str "x" 1000)
    (format_output Scenario.truncation_test_result 8000) = true.
Proof.
  refine (proj2 (proj2 (proj2
            (format_output_shows_content Scenario.truncation_test_result 8000
               {| ec_title := "Title"; ec_url := "https://example.com";
                  ec_description := "Desc"; ec_content := repeat_str "x" 1000;
                  ec_error := None |} _ _)))).
  - vm_compute. discriminate.
  - simpl. left. reflexivity.
Defined.

(** X3.  When the text fits the budget it shows the query, the title, url
    and snippet of every search result, the summary and every error string. *)
Theorem format_output_shows_listing (r : ResearchResult) (max_size : Z) :
  (Z.of_nat (len (format_untruncated r)) <= max_size)%Z ->
  contains (rq_query (rr_query r)) (format_output r max_size) = true /\
  contains (summary r) (format_output r max_size) = true /\
  (forall s, In s (search_results r) ->
     contains (sr_title s) (format_output r max_size) = true /\
     contains (sr_url s) (format_output r max_size) = true /\
     contains (sr_snippet s) (format_output r max_size) = true) /\
  (forall e, In e (rr_errors r) ->
     contains e (format_output r max_size) = true).
Proof.
  intros Hfits. rewrite (format_output_fits r max_size Hfits).
  unfold format_untruncated. cbv beta zeta.
  split; [apply contains_app_l, contains_app_r, contains_self_app|].
  split; [do 5 apply contains_app_r; apply contains_self_app|]. split.
  - intros s Hin.
    destruct (search_results r) as [|d l] eqn:Hl; [destruct Hin|].
    destruct (format_search_results_shows s (d :: l) 1 Hin) as (H1 & H2 & H3).
    repeat split; do 2 apply contains_app_r; apply contains_app_l;
      apply contains_app_r; assumption.
  - intros e Hin.
    destruct (rr_errors r) as [|d l] eqn:Hl; [destruct Hin|].
    do 7 apply contains_app_r. now apply format_errors_shows.
Qed.

Lemma format_output_shows_listing_witness :
  contains "Summary" (format_output Scenario.truncation_test_result 8000) = true.
Proof.
  refine (proj1 (proj2
            (format_output_shows_listing Scenario.truncation_test_result 8000 _))).
  vm_compute. discriminate.
Defined.

End FormatOutputShows.

(* ===================================================================== *)
(** ** Text utilities *)
(* ===================================================================== *)

Section TextUtilsFacts.
Import Py PyMore TextUtils.

(** An occurrence found by [rfind] lies inside the text. *)
Lemma rfind_go_bound (pat s : string) (i : nat) (best : Z) :
  rfind_go pat s i best = best \/
  (Z.of_nat i <= rfind_go pat s i best /\
   rfind_go pat s i best + Z.of_nat (len pat) <= Z.of_nat i + Z.of_nat (len s))%Z.
Proof.
  revert i best. induction s as [|c s IH]; intros i best.
  - cbn [rfind_go]. destruct (String.prefix pat "") eqn:Hp; [|now left].
    right. apply prefix_len in Hp. lia.
  - cbn [rfind_go]. destruct (String.prefix pat (String c s)) eqn:Hp.
    + right. apply prefix_len in Hp. unfold len in *. simpl in Hp.
      destruct (IH (S i) (Z.of_nat i)) as [->|[H1 H2]]; simpl; lia.
    + destruct (IH (S i) best) as [->|[H1 H2]]; [now left|].
      right. unfold len in *. simpl. lia.
Qed.

Lemma rfind_bound (pat s : string) :
  rfind pat s = (-1)%Z \/
  (0 <= rfind pat s /\ rfind pat s + Z.of_nat (len pat) <= Z.of_nat (len s))%Z.
Proof.
  unfold rfind. destruct (rfind_go_bound pat s 0 (-1)) as [H|H]; [now left|].
  right. lia.
Qed.

(** X4.  [safe_truncate] with a limit of at least 50 on a longer text
    returns a text that ends with the suffix and has at most [max_length]
    characters before it: its length is at most
    [max_length + len(suffix)]. *)
Theorem safe_truncate_bound (text : string) (max_length : Z) (suffix : string) :
  (50 <= max_length)%Z ->
  (max_length < Z.of_nat (len text))%Z ->
  endswith (safe_truncate text max_length suffix) suffix /\
  (Z.of_nat (len (safe_truncate text max_length suffix))
   <= max_length + Z.of_nat (len suffix))%Z.
Proof.
  intros Hmin Hlong. unfold safe_truncate.
  assert (Htruthy : truthy text = true)
    by (destruct text; [simpl in Hlong; lia|reflexivity]).
  rewrite Htruthy. cbn [negb orb].
  destruct (Z.leb_spec (Z.of_nat (len text)) max_length); [lia|].
  set (head := slice_to text (max_length - 50)).
  assert (Hhead : Z.of_nat (len head) = (max_length - 50)%Z).
  { unfold head. rewrite len_slice_to.
    destruct (Z.ltb_spec (max_length - 50) 0); lia. }
  destruct (Z.ltb_spec (max_length / 2) (rfind (nl +:+ nl) head)) as [Hpara|Hpara].
  - split.
    + exists (slice_to text (rfind (nl +:+ nl) head) +:+ (nl +:+ nl)).
      symmetry. apply append_assoc.
    + assert (0 <= max_length / 2)%Z by (apply Z.div_pos; lia).
      destruct (rfind_bound (nl +:+ nl) head) as [Hnone|[Hge Hin]]; [lia|].
      change (len (nl +:+ nl)) with 2 in Hin.
      rewrite !len_app, !Nat2Z.inj_add, len_slice_to.
      change (len nl) with 1.
      destruct (Z.ltb_spec (rfind (nl +:+ nl) head) 0); lia.
  - split.
    + eexists. reflexivity.
    + rewrite len_app, Nat2Z.inj_add, len_slice_to.
      destruct (Z.ltb_spec max_length 0); lia.
Qed.

(** The long text of [tests/test_utils.py] with the limit 50. *)
Lemma safe_truncate_bound_witness :
  (Z.of_nat (len (safe_truncate (repeat_str "x" 200) 50 default_suffix))
   <= 50 + Z.of_nat (len default_suffix))%Z.
Proof.
  refine (proj2 (safe_truncate_bound (repeat_str "x" 200) 50 default_suffix _ _)).
  - lia.
  - vm_compute. reflexivity.
Defined.

Lemma all_chars_filter (f : ascii -> bool) (s : string) :
  all_chars f (filter_chars f s) = true.
Proof.
  induction s as [|c s IH]; [reflexivity|].
  simpl. destruct (f c) eqn:Hc; [simpl; now rewrite Hc|exact IH].
Qed.

Lemma all_chars_filter_keeps (f g : ascii -> bool) (s : string) :
  all_chars g s = true -> all_chars g (filter_chars f s) = true.
Proof.
  induction s as [|c s IH]; [reflexivity|].
  simpl. intros H. apply andb_prop in H as [H1 H2].
  destruct (f c); [simpl; rewrite H1; auto|auto].
Qed.

Lemma all_chars_lstrip (f : ascii -> bool) (s : string) :
  all_chars f s = true -> all_chars f (lstrip s) = true.
Proof.
  induction s as [|c s IH]; [reflexivity|].
  intros H. simpl. destruct (isspace c); [|exact H].
  simpl in H. apply andb_prop in H as [_ H]. auto.
Qed.

Lemma all_chars_rev_app (f : ascii -> bool) (s t : string) :
  all_chars f (String.rev_app s t) = all_chars f s && all_chars f t.
Proof.
  revert t. induction s as [|c s IH]; intros t; [reflexivity|].
  simpl. rewrite IH. simpl.
  destruct (f c), (all_chars f s), (all_chars f t); reflexivity.
Qed.

Lemma all_chars_rev (f : ascii -> bool) (s : string) :
  all_chars f (String.rev s) = all_chars f s.
Proof. unfold String.rev. rewrite all_chars_rev_app. simpl. apply andb_true_r. Qed.

Lemma all_chars_strip (f : ascii -> bool) (s : string) :
  all_chars f s = true -> all_chars f (strip s) = true.
Proof.
  intros H. unfold strip.
  rewrite all_chars_rev. apply all_chars_lstrip.
  rewrite all_chars_rev. now apply all_chars_lstrip.
Qed.

Lemma all_chars_collapse_ws (in_run : bool) (s : string) :
  all_chars (fun c => negb (isspace c) || Ascii.eqb c " ")
    (ContentExtractor.collapse_ws in_run s) = true.
Proof.
  revert in_run. induction s as [|c s IH]; intros in_run; [reflexivity|].
  simpl. destruct (isspace c) eqn:Hc.
  - destruct in_run; [apply IH|]. simpl. apply IH.
  - simpl. rewrite Hc. simpl. apply IH.
Qed.

(** X5.  The text [clean_text] returns holds nothing but word characters
    (what the class [\w] takes: letters, accented ones included, digits
    and the underscore), the punctuation it keeps and single spaces as its
    only whitespace characters. *)
Theorem clean_text_characters (text : option string) :
  all_chars (fun c => kept_char c && (negb (isspace c) || Ascii.eqb c " "))
    (clean_text text) = true.
Proof.
  destruct text as [text|]; [|reflexivity].
  unfold clean_text. destruct (negb (truthy text)); [reflexivity|].
  apply all_chars_strip.
  set (collapsed := ContentExtractor.collapse_ws false text).
  assert (H1 : all_chars kept_char (filter_chars kept_char collapsed) = true)
    by apply all_chars_filter.
  assert (H2 : all_chars (fun c => negb (isspace c) || Ascii.eqb c " ")
                 (filter_chars kept_char collapsed) = true)
    by (apply all_chars_filter_keeps, all_chars_collapse_ws).
  revert H1 H2. generalize (filter_chars kept_char collapsed). intros s.
  induction s as [|c s IH]; [reflexivity|].
  simpl. intros H1 H2.
  apply andb_prop in H1 as [H1 H1']. apply andb_prop in H2 as [H2 H2'].
  rewrite H1, H2. simpl. auto.
Qed.

(** A match of the URL pattern is a prefix of the text it was tried on,
    starts with a scheme and stays within the character class. *)
Lemma match_url_spec (s url : string) :
  match_url s = Some url ->
  String.prefix url s = true /\
  (String.prefix "http://" url || String.prefix "https://" url) = true /\
  all_chars url_char url = true /\
  8 <= len url.
Proof.
  assert (Hattempt : forall scheme,
             all_chars url_char scheme = true ->
             (String.prefix "http://" scheme || String.prefix "https://" scheme) = true ->
             7 <= len scheme ->
             (if String.prefix scheme s
              then
                if truthy (take_while url_char (drop (len scheme) s))
                then Some (scheme +:+ take_while url_char (drop (len scheme) s))
                else None
              else None) = Some url ->
             String.prefix url s = true /\
             (String.prefix "http://" url || String.prefix "https://" url) = true /\
             all_chars url_char url = true /\ 8 <= len url).
  { intros scheme Hclass Hscheme Hlen H.
    destruct (String.prefix scheme s) eqn:Hp; [|discriminate].
    destruct (truthy _) eqn:Hbody; [|discriminate].
    inversion H; subst url; clear H.
    assert (Hsplit : forall t, String.prefix scheme t = true ->
               t = scheme +:+ drop (len scheme) t).
    { clear. induction scheme as [|c scheme IH]; intros t Ht; [reflexivity|].
      destruct t as [|d t]; [discriminate|]. simpl in Ht.
      destruct (ascii_dec c d); [subst d|discriminate].
      rewrite append_cons. unfold len. simpl. f_equal. now apply IH. }
    assert (Htw : forall t, String.prefix (take_while url_char t) t = true).
    { clear. induction t as [|c t IH]; [reflexivity|].
      simpl. destruct (url_char c); [|reflexivity].
      destruct (ascii_dec c c); [exact IH|contradiction]. }
    assert (Hall : forall t, all_chars url_char (take_while url_char t) = true).
    { clear. induction t as [|c t IH]; [reflexivity|].
      simpl. destruct (url_char c) eqn:Hc; [simpl; now rewrite Hc|reflexivity]. }
    split; [|split; [|split]].
    - rewrite (Hsplit s Hp) at 2.
      assert (Happ : forall a b c, String.prefix b c = true ->
                 String.prefix (a +:+ b) (a +:+ c) = true).
      { clear. induction a as [|x a IH]; intros b c H; [exact H|].
        rewrite !append_cons, prefix_cons. auto. }
      apply Happ, Htw.
    - apply orb_prop in Hscheme as [H|H].
      + rewrite (prefix_app_l _ _ _ H). reflexivity.
      + rewrite (prefix_app_l _ _ _ H). apply orb_true_r.
    - rewrite all_chars_app, Hclass, Hall. reflexivity.
    - rewrite len_app.
      destruct (take_while url_char (drop (len scheme) s)); [discriminate|].
      unfold len in *. simpl. lia. }
  unfold match_url. intros H.
  destruct (String.prefix "https://" s) eqn:Hs.
  - destruct (truthy (take_while url_char (drop (len "https://") s))) eqn:Hb.
    + apply (Hattempt "https://"); [reflexivity|reflexivity|simpl; lia|].
      now rewrite Hs, Hb.
    + apply (Hattempt "http://"); [reflexivity|reflexivity|simpl; lia|exact H].
  - apply (Hattempt "http://"); [reflexivity|reflexivity|simpl; lia|exact H].
Qed.

Lemma findall_urls_spec (skip : nat) (s url : string) :
  In url (findall_urls skip s) ->
  contains url s = true /\
  (String.prefix "http://" url || String.prefix "https://" url) = true /\
  all_chars url_char url = true.
Proof.
  revert skip. induction s as [|c s IH]; intros skip Hin; [destruct Hin|].
  cbn [findall_urls] in Hin. destruct skip as [|k].
  - destruct (match_url (String c s)) as [u|] eqn:Hm.
    + destruct Hin as [<-|Hin].
      * destruct (match_url_spec _ _ Hm) as (Hp & Hs & Hc & _).
        split; [now apply contains_prefix|]. now split.
      * destruct (IH _ Hin) as (H1 & H2). split; [now apply contains_cons|exact H2].
    + destruct (IH _ Hin) as (H1 & H2). split; [now apply contains_cons|exact H2].
  - destruct (IH _ Hin) as (H1 & H2). split; [now apply contains_cons|exact H2].
Qed.

(** X6.  Every URL that [extract_urls] returns occurs in the text, starts
    with http:// or https:// and contains no whitespace (nor any other
    character the pattern excludes). *)
Theorem extract_urls_are_urls (text url : string) :
  In url (extract_urls text) ->
  contains url text = true /\
  (String.prefix "http://" url || String.prefix "https://" url) = true /\
  all_chars url_char url = true /\
  all_chars (fun c => negb (isspace c)) url = true.
Proof.
  intros Hin. destruct (findall_urls_spec 0 text url Hin) as (H1 & H2 & H3).
  repeat split; try assumption.
  apply (all_chars_impl url_char); [|exact H3].
  intros c Hc. unfold url_char in Hc.
  apply negb_true_iff, orb_false_iff in Hc as [Hc _]. now rewrite Hc.
Qed.

(** The text of [tests/test_utils.py]. *)
Lemma extract_urls_are_urls_witness :
  contains "http://test.org" Examples.text_with_urls = true.
Proof.
  refine (proj1 (extract_urls_are_urls Examples.text_with_urls
                   "http://test.org" _)).
  vm_compute. right. left. reflexivity.
Defined.

End TextUtilsFacts.

(* ===================================================================== *)
(** ** Construction of a query *)
(* ===================================================================== *)

(** X7.  A query that the constructor returns is valid: its text is not
    blank and its target is the given number, between 1 and 5; a string
    for the scope that names no source gives "both" rather than an error. *)
Theorem ResearchQuery_init_valid (query : string) (sources_arg : SourcesArg)
    (n : Z) (q : ResearchQuery) :
  ResearchQuery_init query sources_arg n = Return q ->
  valid_query q /\
  rq_query q = query /\
  Z.of_nat (num_results q) = n /\
  (forall s, sources_arg = SourceEnum s -> sources q = s) /\
  (forall s, sources_arg = SourceStr s ->
     SearchSource_of_value (Py.lower s) = None -> sources q = BOTH).
Proof.
  unfold ResearchQuery_init.
  destruct (Py.truthy (Py.strip query)) eqn:Hq; [|discriminate].
  cbn [negb].
  destruct (Z.ltb_spec n 1); [discriminate|].
  destruct (Z.ltb_spec 5 n); [discriminate|].
  cbn [orb]. intros Hret. inversion Hret; subst q; clear Hret.
  unfold valid_query. cbn [rq_query num_results sources].
  split; [split|].
  - intros Hblank. rewrite Hblank in Hq. discriminate.
  - lia.
  - split; [reflexivity|]. split; [lia|]. split.
    + intros s ->. reflexivity.
    + intros s -> Hnone. now rewrite Hnone.
Qed.

(** The third query of
    [tests/test_models.py::test_research_query_string_source_conversion]. *)
Lemma ResearchQuery_init_valid_witness :
  sources {| rq_query := "test"; sources := BOTH; num_results := 2 |} = BOTH.
Proof.
  refine (proj2 (proj2 (proj2 (proj2
            (ResearchQuery_init_valid "test" (SourceStr "invalid") 2
               {| rq_query := "test"; sources := BOTH; num_results := 2 |} _))))
          "invalid" eq_refl _).
  - vm_compute. reflexivity.
  - vm_compute. reflexivity.
Defined.

(* ===================================================================== *)
(** ** Validity filter: what is rejected *)
(* ===================================================================== *)

Section ValidityFacts.
Import Py PyMore ContentExtractor.

Lemma contains_cons_false (p : string) (c : ascii) (s : string) :
  contains p (String c s) = false ->
  String.prefix p (String c s) = false /\ contains p s = false.
Proof. cbn [contains]. intros H. now apply orb_false_iff in H. Qed.

(** A text without the separator is one piece. *)
Lemma split_on_go_single (sep : ascii) (cur s : string) :
  contains (String sep "") s = false ->
  length (split_on_go sep cur s) = 1.
Proof.
  revert cur. induction s as [|c s IH]; intros cur H; [reflexivity|].
  apply contains_cons_false in H as [Hp Hs].
  cbn [split_on_go]. destruct (Ascii.eqb_spec c sep) as [->|Hne].
  - rewrite prefix_cons, prefix_nil in Hp. discriminate.
  - now apply IH.
Qed.

(** X8.  A text the filter accepts has at least 50 characters once
    stripped and contains a full stop: a text without any full stop is
    rejected whatever its length. *)
Theorem valid_content_has_full_stop (content description title : string) :
  _is_valid_content content description title = true ->
  50 <= len (strip content) /\ contains "." content = true.
Proof.
  unfold _is_valid_content.
  destruct (truthy content); [|discriminate]. cbn [negb orb].
  destruct (Nat.ltb_spec (len (strip content)) 50); [discriminate|].
  destruct (existsb _ error_patterns); [discriminate|].
  destruct (_ && _); [discriminate|].
  intros Hvalid. split; [lia|].
  destruct (contains "." content) eqn:Hdot; [reflexivity|].
  apply Nat.leb_le in Hvalid.
  pose proof (filter_length_le (fun s => 20 <? len (strip s)) (split_on "." content))
    as Hle.
  unfold meaningful_sentences in Hvalid. unfold split_on in *.
  rewrite (split_on_go_single "." "" content Hdot) in Hle. lia.
Qed.

Lemma valid_content_has_full_stop_witness :
  contains "." Scenario.menu_text = true.
Proof.
  refine (proj2 (valid_content_has_full_stop Scenario.menu_text "" "" _)).
  vm_compute. reflexivity.
Defined.

(** X9.  A content whose body, title or description contains one of the
    twenty error patterns, in any mix of upper and lower case, is
    rejected, whatever else it holds. *)
Theorem error_pattern_rejects (pattern before word after : string)
    (content description title : string) :
  In pattern error_patterns ->
  lower word = pattern ->
  content = before +:+ word +:+ after \/
  title = before +:+ word +:+ after \/
  description = before +:+ word +:+ after ->
  _is_valid_content content description title = false.
Proof.
  intros Hin Hword Hwhere. unfold _is_valid_content.
  destruct (negb (truthy content) || _); [reflexivity|].
  assert (Hocc : contains pattern (lower (before +:+ word +:+ after)) = true).
  { rewrite !lower_app, Hword. apply contains_app_r, contains_self_app. }
  assert (Hex : existsb
                  (fun pattern0 =>
                     contains pattern0 (lower content)
                     || contains pattern0 (lower title)
                     || contains pattern0 (lower description))
                  error_patterns = true).
  { apply existsb_exists. exists pattern. split; [exact Hin|].
    destruct Hwhere as [ -> | [ -> | -> ] ]; rewrite Hocc;
      rewrite ?orb_true_r; reflexivity. }
  now rewrite Hex.
Qed.

Lemma error_pattern_rejects_witness :
  _is_valid_content
    "This long article explains many things in detail. It has several long sentences in it."
    "" "Please solve the CAPTCHA to continue" = false.
Proof.
  refine (error_pattern_rejects "captcha" "Please solve the " "CAPTCHA"
            " to continue" _ _ _ _ _ _).
  - vm_compute. tauto.
  - reflexivity.
  - right. left. reflexivity.
Defined.

End ValidityFacts.

(* ===================================================================== *)
(** ** Content resolver: what it returns *)
(* ===================================================================== *)

Section ResolverFacts.
Import Py PyMore ContentExtractor.

Variable cfg : ContentConfig.

Lemma len_join_le (sep : string) (parts : list string) :
  len (join sep parts) <= list_sum (map len parts) + len sep * length parts.
Proof.
  unfold list_sum.
  induction parts as [|p rest IH]; [simpl; lia|].
  destruct rest as [|q rest].
  - cbn [join map fold_right length]. nia.
  - change (join sep (p :: q :: rest)) with (p +:+ sep +:+ join sep (q :: rest)).
    rewrite !len_app. cbn [map fold_right length] in *. nia.
Qed.

Lemma scan_bound (limit min_len cut : nat) (elems : list string) :
  length (scan limit min_len cut elems) <= limit /\
  list_sum (map len (scan limit min_len cut elems))
    <= cut * length (scan limit min_len cut elems).
Proof.
  unfold scan. split.
  - rewrite length_map.
    etransitivity; [apply filter_length_le|].
    rewrite length_map. apply firstn_le_length.
  - generalize (List.filter (fun t => truthy t && (min_len <? len t))
                  (map strip (firstn limit elems))).
    intros l. unfold list_sum.
    induction l as [|x l IH]; [simpl; lia|].
    cbn [map fold_right length]. pose proof (len_le_take cut x). nia.
Qed.

(** The body assembled from a page is bounded by the configuration. *)
Lemma extract_content_bound (soup : Soup) :
  len (_extract_content cfg soup)
    <= Nat.max 500 (302 * max_paragraphs cfg + 202 * max_elements cfg).
Proof.
  unfold _extract_content.
  destruct (scan_bound (max_paragraphs cfg) 15 300 (paragraphs soup)) as [Hn1 Hs1].
  destruct (scan_bound (max_elements cfg) 10 200 (heading_paragraphs soup))
    as [Hn2 Hs2].
  set (first := scan (max_paragraphs cfg) 15 300 (paragraphs soup)) in *.
  set (second := scan (max_elements cfg) 10 200 (heading_paragraphs soup)) in *.
  assert (Hnl : len (nl +:+ nl) = 2) by reflexivity.
  destruct (Nat.ltb_spec (length first) 2) as [Hfew|Hmany].
  - destruct (first ++ second) as [|x l] eqn:Hboth.
    + cbn [join]. pose proof (len_le_take 500
                    (strip (collapse_ws false (all_text soup)))). lia.
    + rewrite <- Hboth.
      pose proof (len_join_le (nl +:+ nl) (first ++ second)) as Hj.
      rewrite map_app, list_sum_app, length_app, Hnl in Hj. nia.
  - destruct first as [|x l] eqn:Hfirst; [simpl in Hmany; lia|].
    rewrite <- Hfirst in *.
    pose proof (len_join_le (nl +:+ nl) first) as Hj. rewrite Hnl in Hj. nia.
Qed.

(** X10.  Every field of a content that [extract] returns is capped: the
    title at 100 characters, the description at 200, the error text at
    100, and the body by the configuration (at most
    [max(500, 302 * max_paragraphs + 202 * max_elements)] characters). *)
Theorem extract_fields_capped (http_get : string -> Raises Response)
    (BeautifulSoup : string -> Raises Soup) (url : string) :
  let content := extract cfg http_get BeautifulSoup url in
  len (ec_title content) <= 100 /\
  len (ec_description content) <= 200 /\
  len (ec_content content)
    <= Nat.max 500 (302 * max_paragraphs cfg + 202 * max_elements cfg) /\
  (forall e, ec_error content = Some e -> len e <= 100).
Proof.
  assert (Htitle : forall soup, len (_extract_title soup) <= 100).
  { intros soup. unfold _extract_title.
    destruct (title_string soup) as [s|]; [|vm_compute; lia].
    destruct (truthy s); [apply len_le_take|vm_compute; lia]. }
  assert (Hdesc : forall soup, len (_extract_description soup) <= 200).
  { intros soup. unfold _extract_description.
    destruct (meta_description soup); [apply len_le_take|vm_compute; lia]. }
  assert (Hfailed : forall e,
             len (ec_title (extract_failed url e)) <= 100 /\
             len (ec_description (extract_failed url e)) <= 200 /\
             len (ec_content (extract_failed url e))
               <= Nat.max 500 (302 * max_paragraphs cfg + 202 * max_elements cfg) /\
             (forall e', ec_error (extract_failed url e) = Some e' -> len e' <= 100)).
  { intros e. cbn [extract_failed ec_title ec_description ec_content ec_error].
    split; [vm_compute; lia|]. split; [vm_compute; lia|].
    split; [change (len "") with 0; lia|].
    intros e' He. assert (He' : e' = take 100 e) by congruence.
    rewrite He'. apply len_le_take. }
  intros content. unfold content, extract.
  destruct (http_get url) as [e|response]; [apply Hfailed|].
  destruct (contains _ _).
  { cbn [pdf_placeholder ec_title ec_description ec_content ec_error].
    split; [vm_compute; lia|]. split; [vm_compute; lia|].
    split; [|discriminate].
    change (len "[PDF document - contents cannot be extracted directly]") with 54.
    lia. }
  destruct (BeautifulSoup _) as [e|soup]; [apply Hfailed|].
  destruct (negb _); cbn [ec_title ec_description ec_content ec_error].
  - split; [apply Htitle|]. split; [apply Hdesc|].
    split; [change (len "") with 0; lia|].
    intros e [= <-]. vm_compute. lia.
  - split; [apply Htitle|]. split; [apply Hdesc|].
    split; [apply extract_content_bound|discriminate].
Qed.

(** X11.  A content that [extract] returns without an error is either the
    PDF placeholder or a page whose body, description and title passed the
    validity filter. *)
Theorem extract_without_error_is_validated (http_get : string -> Raises Response)
    (BeautifulSoup : string -> Raises Soup) (url : string) :
  ec_error (extract cfg http_get BeautifulSoup url) = None ->
  extract cfg http_get BeautifulSoup url = pdf_placeholder url \/
  _is_valid_content (ec_content (extract cfg http_get BeautifulSoup url))
    (ec_description (extract cfg http_get BeautifulSoup url))
    (ec_title (extract cfg http_get BeautifulSoup url)) = true.
Proof.
  unfold extract.
  destruct (http_get url) as [e|response]; [discriminate|].
  destruct (contains _ _); [now left|].
  destruct (BeautifulSoup _) as [e|soup]; [discriminate|].
  destruct (_is_valid_content _ _ _) eqn:Hvalid; cbn [negb]; [|discriminate].
  intros _. right. exact Hvalid.
Qed.

End ResolverFacts.

(** A page of two plain sentences, served as HTML. *)
Lemma extract_without_error_is_validated_witness :
  ContentExtractor._is_valid_content
    (ec_content (ContentExtractor.extract default_content_config
                   Examples.html_network Examples.plain_parser "u"))
    "No description available" "A page" = true.
Proof.
  destruct (extract_without_error_is_validated default_content_config
              Examples.html_network Examples.plain_parser "u") as [Hpdf|Hvalid].
  - vm_compute. reflexivity.
  - vm_compute in Hpdf. discriminate.
  - exact Hvalid.
Defined.

Section JoinFacts.
Import Py.

(** Every part of a joined text occurs in it. *)
Lemma contains_join_In (sep x : string) (parts : list string) :
  In x parts -> contains x (join sep parts) = true.
Proof.
  induction parts as [|p rest IH]; [intros []|].
  intros Hin. destruct rest as [|q rest].
  - destruct Hin as [->|[]]. apply contains_refl.
  - change (join sep (p :: q :: rest)) with (p +:+ sep +:+ join sep (q :: rest)).
    destruct Hin as [->|Hin].
    + apply contains_self_app.
    + do 2 apply contains_app_r. now apply IH.
Qed.

End JoinFacts.

Section SourceFacts.
Import Py PyMore ContentExtractor.

Variable cfg : ContentConfig.

(** X12.  For an academic source whose metadata holds an abstract that
    passes the validity filter, the content is built from the metadata
    alone: it does not depend on the network or the parser, carries the
    source's title and url, no error, and the abstract in its body. *)
Theorem academic_abstract_needs_no_fetch (source : SearchResult)
    (md : gmap string string) (abstract : string)
    (http_get1 http_get2 : string -> Raises Response)
    (parser1 parser2 : string -> Raises Soup) :
  source_type source = "academic" ->
  metadata source = Some md ->
  md !! "abstract" = Some abstract ->
  _is_valid_content abstract "" (sr_title source) = true ->
  extract_from_source cfg http_get1 parser1 source =
    extract_from_source cfg http_get2 parser2 source /\
  ec_error (extract_from_source cfg http_get1 parser1 source) = None /\
  ec_title (extract_from_source cfg http_get1 parser1 source) = sr_title source /\
  ec_url (extract_from_source cfg http_get1 parser1 source) = sr_url source /\
  contains abstract
    (ec_content (extract_from_source cfg http_get1 parser1 source)) = true.
Proof.
  intros Htype Hmd Habs Hvalid.
  assert (Htruthy : truthy abstract = true).
  { unfold _is_valid_content in Hvalid.
    destruct (truthy abstract); [reflexivity|discriminate]. }
  assert (Hne : bool_decide (md = ∅) = false).
  { apply bool_decide_eq_false_2. intros ->. rewrite lookup_empty in Habs.
    discriminate. }
  assert (Hshape : forall http_get parser,
             extract_from_source cfg http_get parser source =
             {| ec_title := sr_title source;
                ec_url := sr_url source;
                ec_description :=
                  "Academic paper by " +:+ default "Unknown authors" (md !! "authors")
                    +:+ " (" +:+ default "Unknown year" (md !! "year") +:+ ")";
                ec_content :=
                  join nl
                    ([ "Authors: " +:+ default "Unknown authors" (md !! "authors");
                       "Year: " +:+ default "Unknown year" (md !! "year") ] ++
                     (if truthy (default "" (md !! "venue"))
                      then [ "Published in: " +:+ default "" (md !! "venue") ]
                      else []) ++
                     [ ""; "Abstract:"; abstract ]);
                ec_error := None |}).
  { intros http_get parser. unfold extract_from_source.
    rewrite Hmd, Htype, Hne, Habs.
    change (String.eqb "academic" "academic") with true.
    cbn [negb andb truthy_opt from_option id]. rewrite Htruthy.
    cbv zeta. rewrite Hvalid. reflexivity. }
  rewrite !Hshape. cbn [ec_error ec_title ec_url ec_content].
  repeat split.
  apply contains_join_In. rewrite !in_app_iff. right. right.
  cbn [In]. auto.
Qed.

(** X13.  Whatever happens, the content [extract_from_source] returns
    carries the url of its source; when its error is set, the error text
    has at most 100 characters and the body is empty. *)
Theorem extract_from_source_outcome (http_get : string -> Raises Response)
    (BeautifulSoup : string -> Raises Soup) (source : SearchResult) :
  let content := extract_from_source cfg http_get BeautifulSoup source in
  ec_url content = sr_url source /\
  (forall e, ec_error content = Some e ->
     len e <= 100 /\ ec_content content = "").
Proof.
  assert (Hextract : forall url,
             ec_url (extract cfg http_get BeautifulSoup url) = url /\
             (forall e, ec_error (extract cfg http_get BeautifulSoup url) = Some e ->
                len e <= 100 /\
                ec_content (extract cfg http_get BeautifulSoup url) = "")).
  { intros url.
    assert (Hcap : forall e,
               ec_error (extract cfg http_get BeautifulSoup url) = Some e ->
               len e <= 100).
    { unfold extract.
      destruct (http_get url) as [e0|response].
      - intros e He. assert (He' : e = take 100 e0) by (cbn [extract_failed ec_error] in He; congruence).
        rewrite He'. apply len_le_take.
      - destruct (contains _ _); [discriminate|].
        destruct (BeautifulSoup _) as [e0|soup].
        + intros e He. assert (He' : e = take 100 e0) by (cbn [extract_failed ec_error] in He; congruence).
        rewrite He'. apply len_le_take.
        + destruct (negb _); [|discriminate].
          intros e [= <-]. vm_compute. lia. }
    split.
    - unfold extract.
      destruct (http_get url); [reflexivity|].
      destruct (contains _ _); [reflexivity|].
      destruct (BeautifulSoup _); [reflexivity|].
      destruct (negb _); reflexivity.
    - intros e He. split; [now apply Hcap|].
      destruct (extract_error_empty cfg http_get BeautifulSoup url) as [Hn|Hc];
        [rewrite Hn in He; discriminate|exact Hc]. }
  intros content. unfold content, extract_from_source.
  destruct (metadata source) as [md|]; [|apply Hextract].
  destruct (_ && _); [|apply Hextract].
  destruct (negb _); [apply Hextract|].
  cbn [ec_url ec_error]. split; [reflexivity|discriminate].
Qed.

End SourceFacts.

Lemma academic_abstract_needs_no_fetch_witness :
  ec_error (ContentExtractor.extract_from_source default_content_config
              Examples.failing_network
              Scenario.failing_parser Examples.paper) = None.
Proof.
  refine (proj1 (proj2
            (academic_abstract_needs_no_fetch default_content_config
               Examples.paper _ _
               Examples.failing_network Examples.html_network
               Scenario.failing_parser Examples.plain_parser
               eq_refl eq_refl _ _))).
  - vm_compute. reflexivity.
  - vm_compute. reflexivity.
Defined.

Lemma extract_fields_capped_witness :
  Py.len (ec_title (ContentExtractor.extract default_content_config
                   Examples.html_network Examples.plain_parser "u")) <= 100.
Proof.
  exact (proj1 (extract_fields_capped default_content_config
                  Examples.html_network Examples.plain_parser "u")).
Defined.

Lemma extract_from_source_outcome_witness :
  Py.len "unreachable" <= 100 /\
  ec_content (ContentExtractor.extract_from_source default_content_config
                Examples.failing_network Scenario.failing_parser
                (Scenario.candidate "A")) = "".
Proof.
  exact (proj2 (extract_from_source_outcome default_content_config
                  Examples.failing_network Scenario.failing_parser
                  (Scenario.candidate "A")) "unreachable" eq_refl).
Defined.

(* ===================================================================== *)
(** ** Source balancer: what it selects *)
(* ===================================================================== *)

Section SelectionFacts.
Import ResearchService.

Lemma incl_firstn {A : Type} (n : nat) (l : list A) : incl (firstn n l) l.
Proof.
  revert n. induction l as [|x l IH]; intros [|n]; simpl; intros y Hin;
    try contradiction.
  destruct Hin as [->|Hin]; [now left|right; now apply (IH n)].
Qed.

Lemma of_type_incl (ty : string) (l : list SearchResult) : incl (of_type ty l) l.
Proof. intros x Hin. unfold of_type in Hin. now apply filter_In in Hin. Qed.

Lemma interleave_incl (num_results cap : nat)
    (web_results academic_results all : list SearchResult)
    (indices : list nat) (combined : list SearchResult) :
  incl web_results all -> incl academic_results all -> incl combined all ->
  incl (interleave num_results cap web_results academic_results indices combined)
    all.
Proof.
  intros Hweb Hac. revert combined.
  induction indices as [|i rest IH]; intros combined Hc; cbn [interleave];
    [exact Hc|].
  destruct (_ <=? _); [exact Hc|].
  apply IH.
  set (combined1 := match nth_error web_results i with
                    | Some w =>
                        if length (of_type "web" combined) <? cap
                        then combined ++ [w] else combined
                    | None => combined
                    end).
  assert (Hc1 : incl combined1 all).
  { unfold combined1.
    destruct (nth_error web_results i) as [w|] eqn:Hw; [|exact Hc].
    destruct (_ <? _); [|exact Hc].
    apply incl_app; [exact Hc|].
    intros x [<-|[]]. apply Hweb. eapply nth_error_In, Hw. }
  clearbody combined1.
  destruct (nth_error academic_results i) as [a|] eqn:Ha; [|exact Hc1].
  destruct (_ <? _); [|exact Hc1].
  apply incl_app; [exact Hc1|].
  intros x [<-|[]]. apply Hac. eapply nth_error_In, Ha.
Qed.

Lemma selection_incl (search_results : list SearchResult) (query : ResearchQuery) :
  incl (_select_sources_for_extraction search_results query) search_results.
Proof.
  unfold _select_sources_for_extraction.
  destruct (sources query); try apply incl_firstn.
  eapply incl_tran; [apply incl_firstn|].
  apply interleave_incl; try apply of_type_incl. intros x [].
Qed.

Lemma selection_single_scope (search_results : list SearchResult)
    (query : ResearchQuery) :
  sources query <> BOTH ->
  _select_sources_for_extraction search_results query =
  firstn (num_results query) search_results.
Proof.
  unfold _select_sources_for_extraction. destruct (sources query); congruence.
Qed.

(** X14.  The balancer never selects more sources than the target, and
    every source it selects is one of the candidates; for a single scope
    the selection is the first candidates, in their order. *)
Theorem selection_from_candidates (search_results : list SearchResult)
    (query : ResearchQuery) :
  length (_select_sources_for_extraction search_results query)
    <= num_results query /\
  incl (_select_sources_for_extraction search_results query) search_results /\
  (sources query <> BOTH ->
   _select_sources_for_extraction search_results query =
   firstn (num_results query) search_results).
Proof.
  split; [|split; [apply selection_incl|apply selection_single_scope]].
  unfold _select_sources_for_extraction.
  destruct (sources query); apply firstn_le_length.
Qed.

Lemma selection_from_candidates_witness :
  ResearchService._select_sources_for_extraction Scenario.abcd
    (Scenario.web_query 2) = firstn 2 Scenario.abcd.
Proof.
  refine (proj2 (proj2 (selection_from_candidates Scenario.abcd
                          (Scenario.web_query 2))) _).
  discriminate.
Defined.

End SelectionFacts.

(* ===================================================================== *)
(** ** Extraction orchestrator: effort and provenance *)
(* ===================================================================== *)

Section RunFacts.
Import ResearchService Log ErrorLog.

Variable resolve : nat -> nat -> SearchResult -> Raises ExtractedContent.
Variable search_results : list SearchResult.
Variable query : ResearchQuery.
Variable errors0 : list string.

Lemma failures_app (l1 l2 : list LogEntry) :
  failures (l1 ++ l2) = failures l1 ++ failures l2.
Proof.
  induction l1 as [|e l1 IH]; [reflexivity|].
  destruct e; cbn [app failures]; rewrite IH; reflexivity.
Qed.

Lemma rejections_0_failures (l : list LogEntry) :
  rejections l = 0 -> failures l = [].
Proof.
  induction l as [|e l IH]; [reflexivity|].
  destruct e; cbn [rejections failures]; try discriminate; exact IH.
Qed.

Lemma length_concat_le {A : Type} (k : nat) (ls : list (list A)) :
  Forall (fun l => length l <= k) ls -> length (concat ls) <= k * length ls.
Proof.
  induction 1 as [|l ls Hl _ IH]; cbn [concat length]; [lia|].
  rewrite length_app. lia.
Qed.

(** *** The scan of one batch *)

Lemma filter_batch_log (items : list (SearchResult * Raises ExtractedContent))
    (st : State) :
  batches (log (filter_batch query items st)) = batches (log st) /\
  length (failures (log (filter_batch query items st)))
    <= length (failures (log st)) + length items.
Proof.
  revert st.
  induction items as [|[source [e|content]] rest IH]; intros st;
    cbn [filter_batch length].
  - split; [reflexivity|lia].
  - destruct (IH (add_log (LogExtractionFailed
                    ("Content extraction failed for " +:+ sr_url source +:+ ": "
                       +:+ Py.take 100 e))
                    (add_error
                       ("Content extraction failed for " +:+ sr_url source +:+ ": "
                          +:+ Py.take 100 e)
                       (add_tried (sr_url source) st)))) as [Hb Hf].
    cbn [add_log add_error add_tried log] in Hb, Hf.
    rewrite batches_app in Hb. rewrite failures_app, length_app in Hf.
    cbn [batches failures length] in Hb, Hf. rewrite app_nil_r in Hb.
    split; [exact Hb|lia].
  - destruct (validation_failed content).
    { destruct (IH (add_log (LogSkipInvalid (ec_url content)
                               (default "" (ec_error content)))
                      (add_tried (sr_url source) st))) as [Hb Hf].
      cbn [add_log add_tried log] in Hb, Hf.
      rewrite batches_app in Hb. rewrite failures_app, length_app in Hf.
      cbn [batches failures length] in Hb, Hf. rewrite app_nil_r in Hb.
      split; [exact Hb|lia]. }
    destruct (insufficient content).
    { destruct (IH (add_log (LogSkipInsufficient (ec_url content))
                      (add_tried (sr_url source) st))) as [Hb Hf].
      cbn [add_log add_tried log] in Hb, Hf.
      rewrite batches_app in Hb. rewrite failures_app, length_app in Hf.
      cbn [batches failures length] in Hb, Hf. rewrite app_nil_r in Hb.
      split; [exact Hb|lia]. }
    set (st1 := add_log _ (add_valid content (add_tried (sr_url source) st))).
    assert (Hst1 : batches (log st1) = batches (log st) /\
                   failures (log st1) = failures (log st)).
    { unfold st1. cbn [add_log add_valid add_tried log].
      rewrite batches_app, failures_app. cbn [batches failures].
      now rewrite !app_nil_r. }
    destruct Hst1 as [Hb1 Hf1].
    destruct (_ <=? _).
    + rewrite Hb1, Hf1. split; [reflexivity|lia].
    + destruct (IH st1) as [Hb Hf]. rewrite Hb1, Hf1 in *.
      split; [exact Hb|lia].
Qed.

Lemma filter_batch_run_inv (items : list (SearchResult * Raises ExtractedContent))
    (st : State) :
  (forall source r, In (source, r) items ->
     In source search_results /\ exists n i, r = resolve n i source) ->
  run_inv resolve search_results errors0 st ->
  run_inv resolve search_results errors0 (filter_batch query items st).
Proof.
  revert st.
  induction items as [|[source [e|content]] rest IH]; intros st Hitems Hinv;
    cbn [filter_batch]; [exact Hinv| |].
  all: assert (Hrest : forall source0 r, In (source0, r) rest ->
                 In source0 search_results /\ exists n i, r = resolve n i source0)
         by (intros source0 r Hin; apply Hitems; now right).
  all: destruct (Hitems source _ (or_introl eq_refl)) as [Hsrc [n [i Hres]]].
  all: destruct Hinv as (Htried & Herr & Hpre & Hval).
  all: assert (Htried' : forall url,
                 url ∈ tried_sources (add_tried (sr_url source) st) ->
                 exists s, In s search_results /\ sr_url s = url)
         by (intros url Hin; cbn [add_tried tried_sources] in Hin;
             apply elem_of_union in Hin as [Hin|Hin];
             [apply elem_of_singleton in Hin; subst; eauto|now apply Htried]).
  - apply IH; [exact Hrest|].
    unfold run_inv.
    cbn [add_log add_error add_tried tried_sources errors log valid_content] in *.
    rewrite failures_app. cbn [failures].
    split; [exact Htried'|]. split; [now rewrite Herr, app_assoc|].
    split; [|exact Hval].
    apply Forall_app. split; [exact Hpre|].
    constructor; [|constructor]. apply prefix_self_app.
  - destruct (validation_failed content) eqn:Hv.
    { apply IH; [exact Hrest|].
      unfold run_inv.
      cbn [add_log add_tried tried_sources errors log valid_content] in *.
      rewrite failures_app. cbn [failures]. rewrite app_nil_r.
      auto. }
    destruct (insufficient content) eqn:Hi.
    { apply IH; [exact Hrest|].
      unfold run_inv.
      cbn [add_log add_tried tried_sources errors log valid_content] in *.
      rewrite failures_app. cbn [failures]. rewrite app_nil_r.
      auto. }
    set (st1 := add_log _ (add_valid content (add_tried (sr_url source) st))).
    assert (Hst1 : run_inv resolve search_results errors0 st1).
    { unfold run_inv, st1.
      cbn [add_log add_valid add_tried tried_sources errors log valid_content] in *.
      rewrite failures_app. cbn [failures]. rewrite app_nil_r.
      split; [exact Htried'|]. split; [exact Herr|]. split; [exact Hpre|].
      apply Forall_app. split; [exact Hval|].
      constructor; [|constructor].
      exists n, i, source. split; [exact Hsrc|]. split; [now symmetry|].
      cbn [accepted]. now rewrite Hv, Hi. }
    destruct (_ <=? _); [exact Hst1|]. apply IH; [exact Hrest|exact Hst1].
Qed.

Lemma gather_sources (n i : nat) (current_batch : list SearchResult)
    (source : SearchResult) (r : Raises ExtractedContent) :
  In (source, r) (gather resolve n i current_batch) ->
  In source current_batch /\ exists j, r = resolve n j source.
Proof.
  revert i. induction current_batch as [|s rest IH]; intros i; cbn [gather In];
    [tauto|].
  intros [Heq|Hin].
  - inversion Heq; subst. split; [now left|eauto].
  - destruct (IH _ Hin) as [Hs Hj]. split; [now right|exact Hj].
Qed.

(** *** One pass and the loop *)

Lemma loop_body_run (batch_size : nat) (balanced_sources : list SearchResult)
    (st : State) :
  batch_size <= 3 ->
  incl balanced_sources search_results ->
  loop_condition search_results query st = true ->
  run_inv resolve search_results errors0 st /\ effort_inv search_results st ->
  run_inv resolve search_results errors0
    (snd (loop_body resolve search_results query batch_size balanced_sources st)) /\
  effort_inv search_results
    (snd (loop_body resolve search_results query batch_size balanced_sources st)).
Proof.
  intros Hsize Hbal Hc [Hrun Heff].
  unfold loop_condition in Hc.
  apply andb_prop in Hc as [_ Hc]. apply Nat.ltb_lt in Hc.
  destruct Heff as (Hit & Hnb & Hb & Hf).
  unfold loop_body.
  destruct (_ && _).
  { cbn [snd]. split.
    - destruct Hrun as (Htried & Herr & Hpre & Hval). unfold run_inv.
      cbn [add_log next_iteration tried_sources errors log valid_content].
      rewrite failures_app. cbn [failures]. rewrite app_nil_r. auto.
    - unfold effort_inv, attempted.
      cbn [add_log next_iteration iteration_count log].
      rewrite batches_app, failures_app. cbn [batches failures].
      rewrite !app_nil_r. unfold attempted in Hf.
      repeat split; [lia|lia|exact Hb|exact Hf]. }
  set (current_batch :=
         if source_index (next_iteration st) =? 0
         then firstn batch_size balanced_sources
         else firstn batch_size
                (List.filter
                   (fun s => negb (bool_decide
                                     (sr_url s ∈ tried_sources (next_iteration st))))
                   search_results)).
  assert (Hlen : length current_batch <= 3).
  { unfold current_batch. destruct (_ =? 0);
      (etransitivity; [apply firstn_le_length|]); lia. }
  assert (Hincl : incl current_batch search_results).
  { unfold current_batch. destruct (_ =? 0).
    - eapply incl_tran; [apply incl_firstn|exact Hbal].
    - eapply incl_tran; [apply incl_firstn|].
      intros x Hin. now apply filter_In in Hin. }
  destruct current_batch as [|s0 batch] eqn:Hbatch.
  { cbn [snd]. split.
    - destruct Hrun as (Htried & Herr & Hpre & Hval). unfold run_inv.
      cbn [add_log next_iteration tried_sources errors log valid_content].
      rewrite failures_app. cbn [failures]. rewrite app_nil_r. auto.
    - unfold effort_inv, attempted.
      cbn [add_log next_iteration iteration_count log].
      rewrite batches_app, failures_app. cbn [batches failures].
      rewrite !app_nil_r. unfold attempted in Hf.
      repeat split; [lia|lia|exact Hb|exact Hf]. }
  rewrite <- Hbatch in *.
  assert (Hpos : 1 <= length current_batch) by (rewrite Hbatch; cbn [length]; lia).
  clear Hbatch.
  set (st1 := add_log _ (next_iteration st)).
  set (items := gather resolve (iteration_count st1) 0 current_batch).
  assert (Hst1 : run_inv resolve search_results errors0 st1).
  { destruct Hrun as (Htried & Herr & Hpre & Hval). unfold run_inv, st1.
    cbn [add_log next_iteration tried_sources errors log valid_content].
    rewrite failures_app. cbn [failures]. rewrite app_nil_r. auto. }
  assert (Hst2 : run_inv resolve search_results errors0
                   (filter_batch query items st1)).
  { apply filter_batch_run_inv; [|exact Hst1].
    intros source r Hin. apply gather_sources in Hin as [Hs [j Hj]].
    split; [now apply Hincl|eauto]. }
  destruct (filter_batch_log items st1) as [Hb2 Hf2].
  destruct (filter_batch_counters query items st1) as [Hit2 _].
  assert (Hlog1 : batches (log st1) = batches (log st) ++ [current_batch] /\
                  failures (log st1) = failures (log st) /\
                  iteration_count st1 = S (iteration_count st)).
  { unfold st1. cbn [add_log next_iteration log iteration_count].
    rewrite batches_app, failures_app. cbn [batches failures].
    now rewrite app_nil_r. }
  destruct Hlog1 as (Hb1 & Hf1 & Hit1).
  unfold items in Hf2 at 2. rewrite gather_length, Hf1 in Hf2.
  set (st2 := filter_batch query items st1) in *.
  assert (Heff2 : effort_inv search_results (advance batch_size st2)).
  { unfold effort_inv, attempted in *.
    cbn [advance iteration_count log].
    rewrite Hb2, Hb1, Hit2, Hit1, length_app, concat_app, length_app.
    cbn [length concat]. rewrite app_nil_r.
    repeat split; [lia|lia| |lia].
    apply Forall_app. split; [exact Hb|].
    constructor; [|constructor]. repeat split; assumption. }
  assert (Hrun2 : run_inv resolve search_results errors0 (advance batch_size st2))
    by exact Hst2.
  cbn [snd]. destruct (_ <? _); [|split; assumption].
  split.
  - destruct Hrun2 as (Htried & Herr & Hpre & Hval). unfold run_inv.
    cbn [add_log advance tried_sources errors log valid_content] in *.
    rewrite failures_app. cbn [failures]. rewrite app_nil_r. auto.
  - destruct Heff2 as (Hi3 & Hn3 & Hb3 & Hf3).
    unfold effort_inv, attempted in *.
    cbn [add_log advance iteration_count log] in *.
    rewrite batches_app, failures_app. cbn [batches failures].
    rewrite !app_nil_r. auto.
Qed.

(** What a run of [_extract_valid_content] leaves. *)
Lemma extract_valid_content_run :
  exists st,
    _extract_valid_content resolve search_results query errors0 = Some st /\
    run_inv resolve search_results errors0 st /\
    effort_inv search_results st.
Proof.
  destruct (extract_valid_content_result resolve search_results query errors0)
    as (st_loop & st & Hloop & Hst & Hval & Herr & Hit & Htried & tail & Hlog
        & Hrej & Hbat).
  exists st. split; [exact Hst|].
  assert (Hloop_inv : run_inv resolve search_results errors0 st_loop /\
                      effort_inv search_results st_loop).
  { refine (while_loop_rule resolve search_results query
              (fun s => run_inv resolve search_results errors0 s /\
                        effort_inv search_results s)
              (fun s => run_inv resolve search_results errors0 s /\
                        effort_inv search_results s)
              _ _ _ _ _ _ _ _ Hloop).
    - auto.
    - intros s Hinv Hc.
      assert (H : run_inv resolve search_results errors0
                    (snd (loop_body resolve search_results query
                            (Nat.min 3 (length search_results))
                            (_select_sources_for_extraction search_results query) s))
                  /\ effort_inv search_results
                    (snd (loop_body resolve search_results query
                            (Nat.min 3 (length search_results))
                            (_select_sources_for_extraction search_results query) s))).
      { apply loop_body_run; [lia| |exact Hc|exact Hinv].
        apply selection_incl. }
      destruct (fst _); exact H.
    - split.
      + unfold run_inv. cbn [tried_sources errors log valid_content failures].
        rewrite app_nil_r. split; [intros url Hin; set_solver|]. auto.
      + unfold effort_inv, attempted, max_iterations.
        cbn [iteration_count log batches failures concat length].
        repeat split; try lia. constructor. }
  destruct Hloop_inv as [(Ht & He & Hp & Hv) (Hi & Hn & Hb & Hf)].
  apply rejections_0_failures in Hrej.
  split.
  - unfold run_inv. rewrite Hval, Herr, Htried, Hlog, failures_app, Hrej, app_nil_r.
    auto.
  - unfold effort_inv, attempted in *.
    rewrite Hit, Hlog, failures_app, batches_app, Hrej, Hbat, !app_nil_r. auto.
Qed.

End RunFacts.

Section RunTheorems.
Import ResearchService Log ErrorLog.

Variable resolve : nat -> nat -> SearchResult -> Raises ExtractedContent.
Variable search_results : list SearchResult.
Variable query : ResearchQuery.
Variable errors0 : list string.

(** X15.  [_extract_valid_content] always returns, after at most five
    passes of its loop; it issues at most one batch per pass, every batch
    holds between one and three of the candidates, and so at most fifteen
    sources are handed to the resolver. *)
Theorem extraction_effort_bounded :
  exists st,
    _extract_valid_content resolve search_results query errors0 = Some st /\
    iteration_count st <= 5 /\
    length (batches (log st)) <= iteration_count st /\
    Forall (fun b => 1 <= length b <= 3 /\ incl b search_results)
      (batches (log st)) /\
    attempted (log st) <= 15.
Proof.
  destruct (extract_valid_content_run resolve search_results query errors0)
    as (st & Hst & _ & Hi & Hn & Hb & _).
  exists st. split; [exact Hst|]. unfold max_iterations in Hi.
  repeat split; try assumption.
  unfold attempted.
  etransitivity; [apply (length_concat_le 3)|lia].
  eapply Forall_impl; [exact Hb|]. intros b [[_ H] _]. exact H.
Qed.

(** X16.  The resolver is only asked about candidates: every url marked as
    tried is the url of a candidate, and every accepted content was
    returned by a task run on a candidate and passed both skip tests. *)
Theorem accepted_content_provenance :
  exists st,
    _extract_valid_content resolve search_results query errors0 = Some st /\
    (forall url, url ∈ tried_sources st ->
       exists s, In s search_results /\ sr_url s = url) /\
    Forall (fun c => exists n i s,
              In s search_results /\ resolve n i s = Return c /\
              accepted (Return c) = true)
      (valid_content st).
Proof.
  destruct (extract_valid_content_run resolve search_results query errors0)
    as (st & Hst & (Ht & _ & _ & Hv) & _).
  exists st. auto.
Qed.

(** X17.  The caller's error list only grows: what the run leaves is the
    list it was given followed by the messages of the failed extractions
    it logged, in order; each of them starts with the words of the
    extraction failure message, and there are at most fifteen. *)
Theorem extraction_errors_appended :
  exists st,
    _extract_valid_content resolve search_results query errors0 = Some st /\
    errors st = errors0 ++ failures (log st) /\
    Forall (fun m => String.prefix "Content extraction failed for " m = true)
      (failures (log st)) /\
    length (failures (log st)) <= 15.
Proof.
  destruct (extract_valid_content_run resolve search_results query errors0)
    as (st & Hst & (_ & He & Hp & _) & Hi & Hn & Hb & Hf).
  exists st. split; [exact Hst|]. split; [exact He|]. split; [exact Hp|].
  etransitivity; [exact Hf|]. unfold attempted, max_iterations in *.
  etransitivity; [apply (length_concat_le 3)|lia].
  eapply Forall_impl; [exact Hb|]. intros b [[_ H] _]. exact H.
Qed.

End RunTheorems.

(* ===================================================================== *)
(** ** Extraction orchestrator: a first batch that is accepted *)
(* ===================================================================== *)

Section FirstBatchAccepted.
Import ResearchService Log.

Variable resolve : nat -> nat -> SearchResult -> Raises ExtractedContent.
Variable search_results : list SearchResult.
Variable query : ResearchQuery.
Variable errors0 : list string.

Lemma accepted_Return (r : Raises ExtractedContent) :
  accepted r = true ->
  exists content, r = Return content /\
                  validation_failed content = false /\
                  insufficient content = false.
Proof.
  destruct r as [e|content]; cbn [accepted]; [discriminate|].
  intros H. apply andb_prop in H as [Hv Hi].
  apply negb_true_iff in Hv, Hi. eauto.
Qed.

Lemma filter_batch_all_accepted
    (items : list (SearchResult * Raises ExtractedContent)) (st : State) :
  Forall (fun item => accepted (snd item) = true) items ->
  length (valid_content st) + length items <= num_results query ->
  map Return (valid_content (filter_batch query items st)) =
    map Return (valid_content st) ++ map snd items /\
  errors (filter_batch query items st) = errors st.
Proof.
  revert st. induction items as [|[source r] rest IH]; intros st Hacc Hlen.
  - cbn [filter_batch map]. now rewrite app_nil_r.
  - inversion Hacc as [|item items' Hr Hrest]; subst.
    cbn [snd] in Hr. apply accepted_Return in Hr as (content & -> & Hv & Hi).
    cbn [filter_batch]. rewrite Hv, Hi.
    set (st1 := add_log _ (add_valid content (add_tried (sr_url source) st))).
    assert (Hst1 : valid_content st1 = valid_content st ++ [content] /\
                   errors st1 = errors st) by (split; reflexivity).
    destruct Hst1 as [Hv1 He1]. cbn [length] in Hlen.
    destruct (Nat.leb_spec (num_results query) (length (valid_content st1)))
      as [Hfull|Hmore].
    + rewrite Hv1, length_app in Hfull. cbn [length] in Hfull.
      destruct rest; [|cbn [length] in Hlen; lia].
      rewrite Hv1, map_app. split; [reflexivity|exact He1].
    + destruct (IH st1 Hrest) as [Hm He].
      { rewrite Hv1, length_app. cbn [length]. lia. }
      rewrite Hm, He, Hv1, map_app, <- app_assoc. split; [reflexivity|exact He1].
Qed.

Hypothesis single_scope : sources query <> BOTH.
Hypothesis target_small : 1 <= num_results query <= 3.
Hypothesis enough : num_results query <= length search_results.
Hypothesis all_accepted :
  forall i source,
    In source (firstn (num_results query) search_results) ->
    accepted (resolve 1 i source) = true.

Lemma first_pass_accepts :
  exists st1,
    loop_body resolve search_results query (Nat.min 3 (length search_results))
      (_select_sources_for_extraction search_results query)
      {| valid_content := []; tried_sources := ∅; errors := errors0;
         source_index := 0; iteration_count := 0; log := [] |} = (false, st1) /\
    iteration_count st1 = 1 /\
    errors st1 = errors0 /\
    map Return (valid_content st1) =
      map snd (gather resolve 1 0 (firstn (num_results query) search_results)) /\
    batches (log st1) = [firstn (num_results query) search_results].
Proof.
  rewrite (selection_single_scope _ _ single_scope).
  unfold loop_body.
  cbn [next_iteration source_index iteration_count valid_content tried_sources
       errors log Nat.eqb negb andb].
  rewrite firstn_firstn.
  replace (Nat.min (Nat.min 3 (length search_results)) (num_results query))
    with (num_results query) by lia.
  set (current_batch := firstn (num_results query) search_results) in *.
  assert (Hlen : length current_batch = num_results query)
    by (unfold current_batch; rewrite length_firstn; lia).
  destruct current_batch as [|s0 batch] eqn:Hbatch;
    [cbn [length] in Hlen; lia|].
  rewrite <- Hbatch in *. clear Hbatch.
  set (st1 := add_log _ _).
  set (items := gather resolve (iteration_count st1) 0 current_batch).
  assert (Hitems : items = gather resolve 1 0 current_batch) by reflexivity.
  destruct (filter_batch_all_accepted items st1) as [Hm He].
  { apply Forall_forall. intros [source r] Hin. cbn [snd].
    rewrite Hitems in Hin. apply list_elem_of_In in Hin.
    apply gather_sources in Hin as [Hs [j ->]].
    now apply all_accepted. }
  { unfold items. rewrite gather_length, Hlen. unfold st1.
    cbn [add_log next_iteration valid_content length]. lia. }
  destruct (filter_batch_log query items st1) as [Hb _].
  destruct (filter_batch_counters query items st1) as [Hit _].
  set (st2 := filter_batch query items st1) in *.
  assert (Hfull : length (valid_content (advance (Nat.min 3 (length search_results)) st2))
                  = num_results query).
  { cbn [advance valid_content].
    rewrite <- (length_map Return), Hm, length_app, !length_map.
    unfold items. now rewrite gather_length, Hlen. }
  rewrite Hfull, Nat.ltb_irrefl.
  eexists. split; [reflexivity|].
  cbn [advance iteration_count errors valid_content log].
  rewrite Hit, He, Hm, Hb, Hitems. repeat split.
Qed.

End FirstBatchAccepted.

Section FirstBatchRun.
Import ResearchService Log.

(** X18.  Under a single scope, with a target of at most three that the
    candidates can fill, if the tasks of the first pass accept each of the
    first candidates, the run makes one pass and issues one batch, the
    first candidates; what it accepts is what those tasks returned, in the
    order of the candidates, and the caller's error list is left as it
    was. *)
Theorem first_batch_accepted (resolve : nat -> nat -> SearchResult -> Raises ExtractedContent)
    (search_results : list SearchResult) (query : ResearchQuery)
    (errors0 : list string) :
  sources query <> BOTH ->
  1 <= num_results query <= 3 ->
  num_results query <= length search_results ->
  (forall i source,
      In source (firstn (num_results query) search_results) ->
      ResearchService.accepted (resolve 1 i source) = true) ->
  exists st,
    ResearchService._extract_valid_content resolve search_results query errors0
      = Some st /\
    ResearchService.iteration_count st = 1 /\
    ResearchService.errors st = errors0 /\
    map Return (ResearchService.valid_content st) =
      map snd (ResearchService.gather resolve 1 0
                 (firstn (num_results query) search_results)) /\
    Log.batches (ResearchService.log st) =
      [firstn (num_results query) search_results].
Proof.
  intros single_scope target_small enough all_accepted.
  destruct (first_pass_accepts resolve search_results query errors0
              single_scope target_small enough all_accepted)
    as (st1 & Hbody & Hit1 & He1 & Hv1 & Hb1).
  destruct (extract_valid_content_result resolve search_results query errors0)
    as (st_loop & st & Hloop & Hst & Hval & Herr & Hit & _ & tail & Hlog
        & _ & Hbat).
  assert (Hlen1 : length (valid_content st1) = num_results query).
  { rewrite <- (length_map Return), Hv1, length_map, gather_length, length_firstn.
    lia. }
  change max_iterations with (S 4) in Hloop.
  rewrite (while_loop_continue resolve search_results query _ _ _ _ st1) in Hloop;
    [|unfold loop_condition; cbn [valid_content source_index iteration_count length];
      apply andb_true_intro; split;
      [apply andb_true_intro; split; apply Nat.ltb_lt; lia|reflexivity]
     |exact Hbody].
  rewrite while_loop_exit in Hloop
    by (unfold loop_condition; rewrite Hlen1, Nat.ltb_irrefl; reflexivity).
  injection Hloop as <-.
  exists st. rewrite Hit, Herr, Hval, Hlog, batches_app, Hbat, app_nil_r. auto.
Qed.

End FirstBatchRun.

Lemma first_batch_accepted_witness :
  exists st,
    ResearchService._extract_valid_content Examples.accepting_resolve
      Scenario.abcd (Scenario.web_query 2) [] = Some st /\
    ResearchService.iteration_count st = 1.
Proof.
  destruct (first_batch_accepted Examples.accepting_resolve Scenario.abcd
              (Scenario.web_query 2) [])
    as (st & Hst & Hit & _).
  - discriminate.
  - cbn. lia.
  - cbn. lia.
  - intros i source _. vm_compute. reflexivity.
  - exists st. split; [exact Hst|exact Hit].
Defined.

(* ===================================================================== *)
(** ** [research]: which searchers it consults and how it survives them *)
(* ===================================================================== *)

Section ResearchFacts.
Import Py ResearchService Research ErrorLog.

Variable max_results : nat.
Variable resolve : nat -> nat -> SearchResult -> Raises ExtractedContent.

(** X19.  [research] asks a searcher only when the scope of the query
    names it, and then only once, for the text of the query and
    [min(3 * num_results, max_results)] results: two pairs of searchers
    that agree on that one request give the same research. *)
Theorem research_consults_scope_only
    (web_search1 web_search2 academic_search1 academic_search2
       : string -> nat -> Raises (list SearchResult))
    (query : ResearchQuery) :
  (sources query <> ACADEMIC ->
   web_search1 (rq_query query) (Nat.min (num_results query * 3) max_results) =
   web_search2 (rq_query query) (Nat.min (num_results query * 3) max_results)) ->
  (sources query <> WEB ->
   academic_search1 (rq_query query) (Nat.min (num_results query * 3) max_results) =
   academic_search2 (rq_query query) (Nat.min (num_results query * 3) max_results)) ->
  research max_results web_search1 academic_search1 resolve query =
  research max_results web_search2 academic_search2 resolve query.
Proof.
  intros Hweb Hac. unfold research. cbv zeta.
  destruct (sources query).
  - rewrite Hweb by discriminate. reflexivity.
  - rewrite Hac by discriminate. reflexivity.
  - rewrite Hweb, Hac by discriminate. reflexivity.
Qed.

(** What [research] returns once the searches left candidates. *)
Lemma research_with_candidates
    (web_search academic_search : string -> nat -> Raises (list SearchResult))
    (query : ResearchQuery) (s : SearchResult) (results : list SearchResult)
    (errors0 : list string) :
  (let k := Nat.min (num_results query * 3) max_results in
   let '(search_results, errors) :=
     match sources query with
     | WEB | BOTH =>
         match web_search (rq_query query) k with
         | Return web_results => (web_results, [])
         | Raise e => ([], [ "Web search failed: " +:+ take 100 e ])
         end
     | ACADEMIC => ([], [])
     end in
   match sources query with
   | ACADEMIC | BOTH =>
       match academic_search (rq_query query) k with
       | Return academic_results => (search_results ++ academic_results, errors)
       | Raise e =>
           if contains "429" e
           then (search_results,
                 errors ++ [ "Academic search rate limited - continuing with web results only" ])
           else (search_results,
                 errors ++ [ "Academic search failed: " +:+ take 100 e ])
       end
   | WEB => (search_results, errors)
   end) = (s :: results, errors0) ->
  exists r more,
    research max_results web_search academic_search resolve query = Some r /\
    rr_query r = query /\
    search_results r = s :: results /\
    total_sources r = S (length results) /\
    rr_errors r = errors0 ++ more /\
    Forall (fun m => String.prefix "Content extraction failed for " m = true) more.
Proof.
  cbv zeta. intros Hsearch. unfold research. cbv zeta.
  destruct (match sources query with
            | ACADEMIC => _ | _ => _ end) as [results1 errors1].
  destruct (match sources query with
            | WEB => _ | _ => _ end) as [results2 errors2].
  injection Hsearch as -> ->.
  destruct (extract_valid_content_run resolve (s :: results) query errors0)
    as (st & Hst & (_ & He & Hp & _) & _).
  rewrite Hst. eexists. exists (failures (log st)).
  split; [reflexivity|].
  cbn [rr_query search_results total_sources rr_errors].
  repeat split; assumption.
Qed.

(** X20.  Under scope both, a web search that raises does not stop the
    research: it returns, its candidates are what the academic search
    returned (none if that search raised as well), and the report opens
    its errors with the web failure, cut to 100 characters.  When the
    academic search returned, whatever follows are extraction failures;
    when it raised as well, the one other error is the academic note. *)
Theorem research_survives_web_failure
    (web_search academic_search : string -> nat -> Raises (list SearchResult))
    (query : ResearchQuery) (e : string) :
  sources query = BOTH ->
  web_search (rq_query query) (Nat.min (num_results query * 3) max_results)
    = Raise e ->
  exists r more,
    research max_results web_search academic_search resolve query = Some r /\
    search_results r =
      match academic_search (rq_query query)
              (Nat.min (num_results query * 3) max_results) with
      | Return academic_results => academic_results
      | Raise _ => []
      end /\
    total_sources r = length (search_results r) /\
    rr_errors r = ("Web search failed: " +:+ take 100 e) :: more /\
    match academic_search (rq_query query)
            (Nat.min (num_results query * 3) max_results) with
    | Return _ =>
        Forall (fun m => String.prefix "Content extraction failed for " m = true)
          more
    | Raise e' =>
        more =
        [ if contains "429" e'
          then "Academic search rate limited - continuing with web results only"
          else "Academic search failed: " +:+ take 100 e' ]
    end.
Proof.
  intros Hscope Hweb.
  destruct (academic_search (rq_query query)
              (Nat.min (num_results query * 3) max_results))
    as [e'|[|s results]] eqn:Hac.
  - unfold research. cbv zeta. rewrite Hscope, Hweb, Hac.
    destruct (contains "429" e'); eexists; eexists;
      (split; [reflexivity|]); repeat split.
  - unfold research. cbv zeta. rewrite Hscope, Hweb, Hac.
    eexists. exists []. split; [reflexivity|]. repeat split. constructor.
  - destruct (research_with_candidates web_search academic_search query s results
                [ "Web search failed: " +:+ take 100 e ])
      as (r & more & Hr & _ & Hs & Ht & He & Hp).
    { cbv zeta. rewrite Hscope, Hweb, Hac. reflexivity. }
    exists r, more. rewrite He, Hs, Ht. auto.
Qed.

(** X21.  Under scope both, an academic search that raises does not stop
    the research either: it returns, and its candidates are what the web
    search returned (none if that search raised as well).  The academic
    note is the rate limit note when the failure mentions 429, the failure
    cut to 100 characters otherwise.  When the web search returned, the
    note opens the errors of the report and whatever follows are
    extraction failures; when it raised as well, the errors are the web
    failure and then the note. *)
Theorem research_survives_academic_failure
    (web_search academic_search : string -> nat -> Raises (list SearchResult))
    (query : ResearchQuery) (e : string) :
  sources query = BOTH ->
  academic_search (rq_query query) (Nat.min (num_results query * 3) max_results)
    = Raise e ->
  exists r,
    research max_results web_search academic_search resolve query = Some r /\
    search_results r =
      match web_search (rq_query query)
              (Nat.min (num_results query * 3) max_results) with
      | Return web_results => web_results
      | Raise _ => []
      end /\
    match web_search (rq_query query)
            (Nat.min (num_results query * 3) max_results) with
    | Return _ =>
        exists more,
          rr_errors r =
            (if contains "429" e
             then "Academic search rate limited - continuing with web results only"
             else "Academic search failed: " +:+ take 100 e) :: more /\
          Forall (fun m => String.prefix "Content extraction failed for " m = true)
            more
    | Raise e' =>
        rr_errors r =
          [ "Web search failed: " +:+ take 100 e';
            if contains "429" e
            then "Academic search rate limited - continuing with web results only"
            else "Academic search failed: " +:+ take 100 e ]
    end.
Proof.
  intros Hscope Hac.
  destruct (web_search (rq_query query)
              (Nat.min (num_results query * 3) max_results))
    as [e'|[|s results]] eqn:Hweb.
  - unfold research. cbv zeta. rewrite Hscope, Hweb, Hac.
    destruct (contains "429" e); eexists; (split; [reflexivity|]);
      repeat split.
  - unfold research. cbv zeta. rewrite Hscope, Hweb, Hac.
    destruct (contains "429" e); eexists; (split; [reflexivity|]);
      (split; [reflexivity|]); exists []; repeat split; constructor.
  - destruct (research_with_candidates web_search academic_search query s results
                [ if contains "429" e
                  then "Academic search rate limited - continuing with web results only"
                  else "Academic search failed: " +:+ take 100 e ])
      as (r & more & Hr & _ & Hs & _ & He & Hp).
    { cbv zeta. rewrite Hscope, Hweb, Hac. now destruct (contains "429" e). }
    exists r. split; [exact Hr|]. split; [exact Hs|].
    exists more. rewrite He. auto.
Qed.

End ResearchFacts.

(** Both searches fail: the report lists the web failure, then the
    academic one. *)
Lemma research_survives_web_failure_witness :
  exists r,
    Research.research 10 Examples.search_fails Examples.search_fails
      Examples.accepting_resolve
      {| rq_query := "alpacas"; sources := BOTH; num_results := 2 |} = Some r /\
    search_results r = [] /\
    rr_errors r =
      [ "Web search failed: " +:+
          Py.take 100 "Search error (web): connection refused";
        "Academic search failed: " +:+
          Py.take 100 "Search error (web): connection refused" ].
Proof.
  destruct (research_survives_web_failure 10 Examples.accepting_resolve
              Examples.search_fails Examples.search_fails
              {| rq_query := "alpacas"; sources := BOTH; num_results := 2 |}
              "Search error (web): connection refused" eq_refl eq_refl)
    as (r & more & Hr & Hs & _ & He & Hmore).
  cbv beta iota delta [Examples.search_fails] in Hs, Hmore.
  exists r. split; [exact Hr|]. split; [exact Hs|].
  rewrite He, Hmore. reflexivity.
Defined.

(** The web search finds A and B, the academic search fails. *)
Lemma research_survives_academic_failure_witness :
  exists r,
    Research.research 10 Examples.web_finds_ab Examples.search_fails
      Examples.accepting_resolve
      {| rq_query := "alpacas"; sources := BOTH; num_results := 2 |} = Some r /\
    search_results r = [ Scenario.candidate "A"; Scenario.candidate "B" ].
Proof.
  destruct (research_survives_academic_failure 10 Examples.accepting_resolve
              Examples.web_finds_ab Examples.search_fails
              {| rq_query := "alpacas"; sources := BOTH; num_results := 2 |}
              "Search error (web): connection refused" eq_refl eq_refl)
    as (r & Hr & Hs & _).
  exists r. split; [exact Hr|exact Hs].
Defined.

Lemma research_consults_scope_only_witness :
  Research.research 10 Examples.web_finds_ab Examples.search_fails
    Examples.accepting_resolve (Scenario.web_query 2) =
  Research.research 10 Examples.web_finds_ab Examples.academic_finds_paper
    Examples.accepting_resolve (Scenario.web_query 2).
Proof.
  apply research_consults_scope_only.
  - reflexivity.
  - intros H. exfalso. apply H. reflexivity.
Defined.

(* ===================================================================== *)
(** ** Searchers *)
(* ===================================================================== *)

Section SearcherFacts.
Import Py PyMore.

Variable HTTPStatusError_message : HttpResponse -> string.

(** X22.  The academic searcher makes one request: its result depends on
    the network only through the outcome of the first attempt, so a
    request that failed is never repeated. *)
Theorem academic_search_single_attempt
    (client_get1 client_get2 : nat -> Raises HttpResponse)
    (parse_papers : HttpResponse -> nat -> Raises (list SearchResult))
    (num_results : nat) :
  client_get1 0 = client_get2 0 ->
  AcademicSearcher.search client_get1 HTTPStatusError_message parse_papers
    num_results =
  AcademicSearcher.search client_get2 HTTPStatusError_message parse_papers
    num_results.
Proof.
  intros Hfirst.
  unfold AcademicSearcher.search, AcademicSearcher._make_request_with_retry,
    AcademicSearcher.max_retries.
  cbn [seq AcademicSearcher.retry_loop].
  unfold AcademicSearcher._make_request. rewrite Hfirst.
  destruct (client_get2 0) as [e|response]; [now rewrite andb_false_r|].
  destruct (AcademicSearcher.raise_for_status _ _); [now rewrite andb_false_r|].
  reflexivity.
Qed.

(** X23.  A rate-limited academic search under the academic scope: when
    the request is answered with status 429 and the text of the status
    error mentions 429, [research] over the academic searcher returns the
    empty result, whose only error is the rate limit note, without
    running the resolver. *)
Theorem research_academic_rate_limited (max_results : nat)
    (web_search : string -> nat -> Raises (list SearchResult))
    (client_get : string -> nat -> Raises HttpResponse)
    (parse_papers : HttpResponse -> nat -> Raises (list SearchResult))
    (resolve : nat -> nat -> SearchResult -> Raises ExtractedContent)
    (query : ResearchQuery) (response : HttpResponse) :
  sources query = ACADEMIC ->
  client_get (rq_query query) 0 = Return response ->
  status_code response = 429 ->
  contains "429" (HTTPStatusError_message response) = true ->
  Research.research max_results web_search
    (fun text n =>
       AcademicSearcher.search (client_get text) HTTPStatusError_message
         parse_papers n)
    resolve query =
  Some (Research._create_empty_result query
          [ "Academic search rate limited - continuing with web results only" ]).
Proof.
  intros Hscope Hget Hstatus Hmsg.
  unfold Research.research. cbv zeta. rewrite Hscope.
  rewrite (search_error_status_raises HTTPStatusError_message parse_papers
             (client_get (rq_query query)) response _ Hget)
    by (unfold AcademicSearcher.is_success; now rewrite Hstatus).
  assert (H429 : contains "429"
                   (AcademicSearcher.SearchError "academic"
                      (HTTPStatusError_message response)) = true).
  { unfold AcademicSearcher.SearchError. do 3 apply contains_app_r. exact Hmsg. }
  rewrite H429. reflexivity.
Qed.

(** *** The web searcher *)

Variable unquote : string -> string.
Variable max_snippet_length : nat.

Lemma collect_capped (num_results : nat) (result_blocks : list ResultBlock)
    (search_results : list SearchResult)
    (P : SearchResult -> Prop) :
  (forall title href snippet,
      P {| sr_title := take 100 title; sr_url := take 150 href;
           sr_snippet := take max_snippet_length snippet;
           source_type := "web"; metadata := None |}) ->
  Forall P search_results ->
  Forall P (WebSearcher.collect unquote max_snippet_length num_results
              result_blocks search_results) /\
  length (WebSearcher.collect unquote max_snippet_length num_results
            result_blocks search_results)
    <= Nat.max num_results (length search_results) /\
  length (WebSearcher.collect unquote max_snippet_length num_results
            result_blocks search_results)
    <= length search_results + length result_blocks.
Proof.
  intros Hnew. revert search_results.
  induction result_blocks as [|block rest IH]; intros search_results Hall;
    cbn [WebSearcher.collect length].
  - split; [exact Hall|]. lia.
  - destruct (Nat.leb_spec num_results (length search_results)) as [Hfull|Hmore].
    + split; [exact Hall|]. lia.
    + destruct (title_link block) as [[text href_attr]|].
      * match goal with
        | |- context [WebSearcher.collect _ _ _ _ (search_results ++ [?x])] =>
            destruct (IH (search_results ++ [x])) as (H1 & H2 & H3)
        end.
        { apply Forall_app. split; [exact Hall|].
          constructor; [apply Hnew|constructor]. }
        rewrite length_app in H2, H3. cbn [length] in H2, H3.
        split; [exact H1|]. lia.
      * destruct (IH search_results Hall) as (H1 & H2 & H3).
        split; [exact H1|]. lia.
Qed.

(** X24.  What the web searcher returns is capped: at most [num_results]
    results and at most one for each block of the page, each of web
    provenance and without metadata, with a title of at most 100
    characters, a url of at most 150 and a snippet of at most
    [max_snippet_length]. *)
Theorem web_search_results_capped (client_get : nat -> Raises HttpResponse)
    (select_results : string -> Raises (list ResultBlock))
    (num_results : nat) (results : list SearchResult) :
  WebSearcher.search client_get HTTPStatusError_message select_results unquote
    max_snippet_length num_results = Return results ->
  length results <= num_results /\
  Forall (fun r => source_type r = "web" /\ metadata r = None /\
                   len (sr_title r) <= 100 /\ len (sr_url r) <= 150 /\
                   len (sr_snippet r) <= max_snippet_length) results.
Proof.
  unfold WebSearcher.search.
  destruct (AcademicSearcher._make_request _ _ _) as [e|response]; [discriminate|].
  destruct (select_results _) as [e|result_blocks]; [discriminate|].
  intros [= <-].
  destruct (collect_capped num_results result_blocks []
              (fun r => source_type r = "web" /\ metadata r = None /\
                        len (sr_title r) <= 100 /\ len (sr_url r) <= 150 /\
                        len (sr_snippet r) <= max_snippet_length))
    as (H1 & H2 & _).
  - intros title href snippet.
    cbn [source_type metadata sr_title sr_url sr_snippet].
    repeat split; apply len_le_take.
  - constructor.
  - cbn [length] in H2. split; [lia|exact H1].
Qed.

(** X25.  A response with a status outside 2xx makes the web searcher
    raise a search error of the web searcher that carries the text of the
    status error; the page is not parsed and no list is returned.  Under
    the web scope [research] then returns the empty result, whose only
    error is that failure, cut to 100 characters, and the resolver is not
    run. *)
Theorem web_search_failure_reported (max_results : nat)
    (academic_search : string -> nat -> Raises (list SearchResult))
    (client_get : string -> nat -> Raises HttpResponse)
    (select_results : string -> Raises (list ResultBlock))
    (resolve : nat -> nat -> SearchResult -> Raises ExtractedContent)
    (query : ResearchQuery) (response : HttpResponse) :
  sources query = WEB ->
  client_get (rq_query query) 0 = Return response ->
  AcademicSearcher.is_success response = false ->
  (forall num_results,
      WebSearcher.search (client_get (rq_query query)) HTTPStatusError_message
        select_results unquote max_snippet_length num_results =
      Raise ("Search error (web): " +:+ HTTPStatusError_message response)) /\
  Research.research max_results
    (fun text n =>
       WebSearcher.search (client_get text) HTTPStatusError_message
         select_results unquote max_snippet_length n)
    academic_search resolve query =
  Some (Research._create_empty_result query
          [ "Web search failed: " +:+
            take 100 ("Search error (web): " +:+ HTTPStatusError_message response) ]).
Proof.
  intros Hscope Hget Hstatus.
  assert (Hsearch : forall num_results,
             WebSearcher.search (client_get (rq_query query))
               HTTPStatusError_message select_results unquote
               max_snippet_length num_results =
             Raise ("Search error (web): " +:+ HTTPStatusError_message response)).
  { intros num_results.
    unfold WebSearcher.search, AcademicSearcher._make_request,
      AcademicSearcher.raise_for_status.
    rewrite Hget, Hstatus. reflexivity. }
  split; [exact Hsearch|].
  unfold Research.research. cbv zeta. rewrite Hscope, Hsearch. reflexivity.
Qed.

End SearcherFacts.

Section RedirectFacts.
Import Py PyMore.

Lemma all_chars_take_while (f : ascii -> bool) (s : string) :
  all_chars f (take_while f s) = true.
Proof.
  induction s as [|c s IH]; [reflexivity|].
  cbn [take_while]. destruct (f c) eqn:Hc; [|reflexivity].
  cbn [all_chars]. now rewrite Hc, IH.
Qed.

Lemma prefix_take_while (f : ascii -> bool) (s : string) :
  String.prefix (take_while f s) s = true.
Proof.
  induction s as [|c s IH]; [reflexivity|].
  cbn [take_while]. destruct (f c); [|reflexivity].
  now rewrite prefix_cons.
Qed.

Lemma prefix_drop (p s : string) :
  String.prefix p s = true -> s = p +:+ drop (len p) s.
Proof.
  revert s. induction p as [|c p IH]; intros s H; [reflexivity|].
  destruct s as [|d s]; [discriminate|].
  simpl in H. destruct (ascii_dec c d) as [->|]; [|discriminate].
  change (len (String d p)) with (S (len p)). cbn [drop].
  rewrite append_cons. f_equal. now apply IH.
Qed.

Lemma prefix_app_same (a b c : string) :
  String.prefix b c = true -> String.prefix (a +:+ b) (a +:+ c) = true.
Proof.
  intros H. induction a as [|x a IH]; [exact H|].
  now rewrite !append_cons, prefix_cons.
Qed.

(** X26.  The target that [uddg_search] finds in a redirect link is not
    empty, holds no ampersand, and stands in the link right after
    the marker of the parameter. *)
Theorem uddg_search_group (href group : string) :
  WebSearcher.uddg_search href = Some group ->
  truthy group = true /\
  all_chars (fun c => negb (Ascii.eqb c "&")) group = true /\
  contains ("uddg=" +:+ group) href = true.
Proof.
  induction href as [|c href IH].
  - cbn. discriminate.
  - unfold WebSearcher.uddg_search; fold WebSearcher.uddg_search.
    cbv zeta.
    destruct (String.prefix "uddg=" (String c href)) eqn:Hpre.
    + destruct (truthy (take_while _ (drop 5 (String c href)))) eqn:Ht.
      * intros [= <-]. split; [exact Ht|].
        split; [apply all_chars_take_while|].
        apply contains_prefix.
        pose proof (prefix_drop "uddg=" (String c href) Hpre) as Heq.
        change (len "uddg=") with 5 in Heq.
        set (rest := drop 5 (String c href)) in *.
        rewrite Heq. apply prefix_app_same, prefix_take_while.
      * intros H. destruct (IH H) as (H1 & H2 & H3).
        repeat split; try assumption. now apply contains_cons.
    + intros H. destruct (IH H) as (H1 & H2 & H3).
      repeat split; try assumption. now apply contains_cons.
Qed.

Lemma uddg_search_group_witness :
  contains ("uddg=" +:+ "https%3A%2F%2Fexample.com%2Fa")
    "//duckduckgo.com/l/?uddg=https%3A%2F%2Fexample.com%2Fa&rut=1" = true.
Proof.
  refine (proj2 (proj2 (uddg_search_group
                          "//duckduckgo.com/l/?uddg=https%3A%2F%2Fexample.com%2Fa&rut=1"
                          "https%3A%2F%2Fexample.com%2Fa" _))).
  vm_compute. reflexivity.
Defined.

End RedirectFacts.

Lemma academic_search_single_attempt_witness :
  AcademicSearcher.search Examples.rate_limited_network Examples.status_message
    Examples.no_papers 3 =
  AcademicSearcher.search
    (fun attempt => if attempt =? 0 then Return Scenario.too_many_requests
                    else Return Examples.ok_response)
    Examples.status_message Examples.no_papers 3.
Proof.
  apply academic_search_single_attempt. reflexivity.
Defined.

Lemma research_academic_rate_limited_witness :
  Research.research 10 Examples.search_fails
    (fun text n =>
       AcademicSearcher.search Examples.rate_limited_network
         Examples.status_message Examples.no_papers n)
    Examples.accepting_resolve
    {| rq_query := "alpacas"; sources := ACADEMIC; num_results := 2 |} =
  Some (Research._create_empty_result
          {| rq_query := "alpacas"; sources := ACADEMIC; num_results := 2 |}
          [ "Academic search rate limited - continuing with web results only" ]).
Proof.
  apply (research_academic_rate_limited Examples.status_message 10
           Examples.search_fails (fun _ => Examples.rate_limited_network)
           Examples.no_papers Examples.accepting_resolve
           {| rq_query := "alpacas"; sources := ACADEMIC; num_results := 2 |}
           Scenario.too_many_requests).
  - reflexivity.
  - reflexivity.
  - reflexivity.
  - vm_compute. reflexivity.
Defined.

Lemma web_search_results_capped_witness :
  length [ {| sr_title := "First"; sr_url := "https%3A%2F%2Fexample.com%2Fa";
              sr_snippet := "about a"; source_type := "web";
              metadata := None |} ] <= 1.
Proof.
  refine (proj1 (web_search_results_capped Examples.status_message
                   (fun s => s) 200 Examples.ok_network
                   Examples.result_page_blocks 1 _ _)).
  vm_compute. reflexivity.
Defined.

Lemma web_search_failure_reported_witness :
  Research.research 10
    (fun text n =>
       WebSearcher.search Examples.rate_limited_network Examples.status_message
         Examples.result_page_blocks (fun s => s) 200 n)
    Examples.academic_finds_paper Examples.accepting_resolve
    (Scenario.web_query 2) =
  Some (Research._create_empty_result (Scenario.web_query 2)
          [ "Web search failed: " +:+
            Py.take 100 ("Search error (web): " +:+
                         Examples.status_message Scenario.too_many_requests) ]).
Proof.
  apply (web_search_failure_reported Examples.status_message (fun s => s) 200 10
           Examples.academic_finds_paper (fun _ => Examples.rate_limited_network)
           Examples.result_page_blocks Examples.accepting_resolve
           (Scenario.web_query 2) Scenario.too_many_requests);
    reflexivity.
Defined.

(* ===================================================================== *)
(** ** The [deep_research] tool and the HTTP endpoint *)
(* ===================================================================== *)

Section ToolFacts.
Import Py.

Variable max_results : nat.
Variable max_content_size : Z.
Variable web_search : string -> nat -> Raises (list SearchResult).
Variable academic_search : string -> nat -> Raises (list SearchResult).
Variable resolve : nat -> nat -> SearchResult -> Raises ExtractedContent.

Local Abbreviation tool :=
  (Server.deep_research max_results max_content_size web_search academic_search
     resolve).
Local Abbreviation endpoint :=
  (HttpServer.deep_research_endpoint max_results max_content_size web_search
     academic_search resolve).

Lemma format_output_le (r : ResearchResult) (max_size : Z) :
  (40 <= max_size)%Z ->
  (Z.of_nat (len (format_output r max_size)) <= max_size)%Z.
Proof.
  intros Hmin.
  destruct (Z.lt_ge_cases max_size (Z.of_nat (len (format_untruncated r))))
    as [Hlong|Hfits].
  - rewrite format_output_cut_fits; [lia|assumption|assumption].
  - rewrite format_output_fits; lia.
Qed.

Lemma ResearchQuery_init_error (query : string) (sources_arg : SourcesArg)
    (n : Z) (e : string) :
  ResearchQuery_init query sources_arg n = Raise e ->
  e = (if truthy (strip query)
       then "Number of results must be between 1 and 5"
       else "Query cannot be empty") /\
  (truthy (strip query) = false \/ (n < 1)%Z \/ (5 < n)%Z).
Proof.
  unfold ResearchQuery_init.
  destruct (truthy (strip query)); cbn [negb]; [|intros [= <-]; auto].
  destruct (Z.ltb_spec n 1); cbn [orb]; [intros [= <-]; auto|].
  destruct (Z.ltb_spec 5 n); [intros [= <-]; auto|discriminate].
Qed.

(** X27.  The tool always answers, and with a size limit of at least 57
    characters its answer, report or error message, stays within the
    limit. *)
Theorem deep_research_within_limit (query sources_text : string) (num_results : Z) :
  (57 <= max_content_size)%Z ->
  exists answer,
    tool query sources_text num_results = Some answer /\
    (Z.of_nat (len answer) <= max_content_size)%Z.
Proof.
  intros Hlimit. unfold Server.deep_research. cbv zeta.
  destruct (ResearchQuery_init _ _ _) as [e|research_query] eqn:Hinit.
  - eexists. split; [reflexivity|].
    apply ResearchQuery_init_error in Hinit as [-> _].
    destruct (truthy (strip query));
      match goal with
      | |- (Z.of_nat (len ?s) <= _)%Z =>
          let n := eval vm_compute in (Z.of_nat (len s)) in
          change (Z.of_nat (len s)) with n
      end; lia.
  - destruct (research_result max_results web_search academic_search resolve
                research_query) as (r & Hr & _).
    rewrite Hr. eexists. split; [reflexivity|].
    apply format_output_le. lia.
Qed.

(** X28.  A blank query, a target below 1, or a target above 5 that the
    configured maximum does not bring back to 5 or less, is answered with
    the message of the constructor's error; no searcher and no resolver is
    consulted. *)
Theorem deep_research_rejects_without_search (query sources_text : string)
    (num_results : Z) :
  truthy (strip query) = false \/ (num_results < 1)%Z \/
  (5 < num_results /\ 5 < Z.of_nat max_results)%Z ->
  tool query sources_text num_results =
  Some ("Research error: " +:+
        (if truthy (strip query)
         then "Number of results must be between 1 and 5"
         else "Query cannot be empty")).
Proof.
  intros Hbad. unfold Server.deep_research, ResearchQuery_init. cbv zeta.
  destruct (truthy (strip query)); cbn [negb]; [|reflexivity].
  destruct Hbad as [Hblank|Hrange]; [discriminate|].
  set (n := if (Z.of_nat max_results <? num_results)%Z
            then Z.of_nat max_results else num_results).
  assert (Hn : (n < 1 \/ 5 < n)%Z)
    by (unfold n; destruct (Z.ltb_spec (Z.of_nat max_results) num_results); lia).
  destruct (Z.ltb_spec n 1); cbn [orb]; [reflexivity|].
  destruct (Z.ltb_spec 5 n); [reflexivity|lia].
Qed.

(** X29.  The tool reads the scope without regard to case, and a scope
    that names no source is read as both. *)
Theorem deep_research_scope_reading (query sources_text : string)
    (num_results : Z) :
  tool query sources_text num_results =
  tool query
    (match SearchSource_of_value (lower sources_text) with
     | Some s => SearchSource_value s
     | None => "both"
     end)
    num_results.
Proof.
  unfold Server.deep_research, ResearchQuery_init. cbv zeta.
  destruct (SearchSource_of_value (lower sources_text)) as [[ | | ]|];
    reflexivity.
Qed.

Lemma source_map_init (query sources_text : string) (source : SearchSource)
    (n : Z) :
  HttpServer.source_map sources_text = Some source ->
  ResearchQuery_init query (SourceStr sources_text) n =
  ResearchQuery_init query (SourceEnum source) n.
Proof.
  unfold HttpServer.source_map.
  destruct (String.eqb_spec sources_text "web") as [->|_];
    [intros [= <-]; reflexivity|].
  destruct (String.eqb_spec sources_text "academic") as [->|_];
    [intros [= <-]; reflexivity|].
  destruct (String.eqb_spec sources_text "both") as [->|_];
    [intros [= <-]; reflexivity|discriminate].
Qed.

(** X30.  The endpoint is stricter about the scope than the tool: a scope
    that is not exactly one of the three names is refused with status 400
    before the query is looked at; whenever the endpoint returns a
    response, the tool returns the same text for the same request, and
    the target reported in the response is between 1 and 5. *)
Theorem endpoint_and_tool (query sources_text : string) (num_results : Z) :
  (HttpServer.source_map sources_text = None ->
   endpoint query sources_text num_results =
   Some (inl {| http_status := 400;
                detail := "Invalid sources value. Must be one of: ['web', 'academic', 'both']" |})) /\
  (forall response,
      endpoint query sources_text num_results = Some (inr response) ->
      tool query sources_text num_results = Some (dr_result response) /\
      (1 <= dr_num_results response <= 5)%Z).
Proof.
  unfold HttpServer.deep_research_endpoint, Server.deep_research. cbv zeta.
  split; [intros ->; reflexivity|].
  intros response.
  destruct (HttpServer.source_map sources_text) as [source|] eqn:Hmap;
    [|discriminate].
  rewrite (source_map_init query sources_text source _ Hmap).
  destruct (ResearchQuery_init _ _ _) as [e|research_query] eqn:Hinit;
    [discriminate|].
  destruct (Research.research _ _ _ _ _) as [result|]; [|discriminate].
  intros [= <-]. cbn [dr_result dr_num_results]. split; [reflexivity|].
  unfold ResearchQuery_init in Hinit.
  destruct (negb _); [discriminate|].
  match type of Hinit with
  | (if (?a <? 1)%Z || (5 <? ?a)%Z then _ else _) = _ =>
      destruct (Z.ltb_spec a 1); [discriminate|];
      destruct (Z.ltb_spec 5 a); [discriminate|lia]
  end.
Qed.

End ToolFacts.

Lemma deep_research_within_limit_witness :
  exists answer,
    Server.deep_research 10 8000 Examples.web_finds_ab Examples.search_fails
      Examples.accepting_resolve "alpacas" "web" 2 = Some answer /\
    (Z.of_nat (Py.len answer) <= 8000)%Z.
Proof.
  apply deep_research_within_limit. lia.
Defined.

Lemma deep_research_rejects_without_search_witness :
  Server.deep_research 10 8000 Examples.web_finds_ab Examples.search_fails
    Examples.accepting_resolve "alpacas" "web" 7 =
  Some ("Research error: " +:+ "Number of results must be between 1 and 5").
Proof.
  apply (deep_research_rejects_without_search 10 8000 Examples.web_finds_ab
           Examples.search_fails Examples.accepting_resolve "alpacas" "web" 7).
  right. right. lia.
Defined.

Lemma endpoint_and_tool_witness :
  HttpServer.deep_research_endpoint 10 8000 Examples.web_finds_ab
    Examples.search_fails Examples.accepting_resolve "" "WEB" 2 =
  Some (inl {| http_status := 400;
               detail := "Invalid sources value. Must be one of: ['web', 'academic', 'both']" |}).
Proof.
  apply (proj1 (endpoint_and_tool 10 8000 Examples.web_finds_ab
                  Examples.search_fails Examples.accepting_resolve "" "WEB" 2)).
  reflexivity.
Defined.
